(** * Practice-test generator: scoring, question synthesis, storage, routing

    A shallow embedding of the TypeScript sources
    - [src/types/index.ts]                (Question, PracticeTest),
    - [src/api/routes.ts]                 (APIRoutes: generateTest, getTest,
                                           calculateScore), in its current
                                           revision and in the earlier one
                                           that searches the web,
    - [src/services/questionGenerator.ts] (QuestionGenerator),
    - [src/services/bingSearch.ts]        (searchRelatedContent),
    - [src/services/testStorage.ts]       (TestStorage),
    - [src/services/contentExtractor.ts]  (ContentExtractor.fetchContent,
                                           the clean-up of extractContent),
    - [src/services/contentAnalyzer.ts]   (ContentAnalyzer),
    - [src/server/index.ts]               (the [fetch] request router),
    - [src/frontend/components]           (the state updates of TestTaking
                                           and SearchCertification),
    together with the properties of the specification that concern them and
    further properties of the code.

    Conventions.  JavaScript strings are modelled by [string] (sequences of
    8-bit code units, compared code unit by code unit as JavaScript does),
    arrays by [list], plain objects used as dictionaries by [gmap string],
    numbers that are computed with (divisions, products, [Math.round],
    [Math.floor], [Math.random]) by IEEE-754 binary64 [float], and array
    lengths, indices and counters by [nat].  Exceptions, the file system and
    the calls to the outside world are threaded explicitly through a state
    and exception monad. *)

From Stdlib Require Import ZArith Uint63 PrimFloat SpecFloat FloatOps.
From Stdlib Require Import FloatAxioms.
From Stdlib Require Import Ascii String.
From stdpp Require Import base option list sorting gmap strings pretty.

Local Open Scope list_scope.

Set Warnings "-abstract-large-number".

(** ** JavaScript primitives *)

Module JS.

(** *** Numbers *)

(** The number whose value is the natural number [n] (exact below 2^53,
    which covers every array length). *)
Definition of_nat (n : nat) : float :=
  PrimFloat.of_uint63 (Uint63.of_Z (Z.of_nat n)).

(** The number whose value is the integer [z], for [|z| <= 2^53]. *)
Definition of_Z (z : Z) : float :=
  if (z <? 0)%Z then (- PrimFloat.of_uint63 (Uint63.of_Z (- z)))%float
  else PrimFloat.of_uint63 (Uint63.of_Z z).

(** [Math.floor]: NaN, the infinities, the zeros and the numbers that are
    already integral are returned unchanged; otherwise the number is
    m * 2^e with e < 0 and the result is the integer part towards minus
    infinity. *)
Definition Math_floor (x : float) : float :=
  match Prim2SF x with
  | S754_finite s m e =>
      if (e <? 0)%Z
      then of_Z ((if s then Z.neg m else Z.pos m) / 2 ^ (- e))
      else x
  | _ => x
  end.

(** [Math.round]: the integral number closest to [x], a tie going to the
    larger one; a result of zero keeps the sign of [x]. *)
Definition Math_round (x : float) : float :=
  match Prim2SF x with
  | S754_finite s m e =>
      if (e <? 0)%Z then
        let v := if s then Z.neg m else Z.pos m in
        let r := ((2 * v + 2 ^ (- e)) / 2 ^ (- e + 1))%Z in
        if (r =? 0)%Z && s then neg_zero else of_Z r
      else x
  | _ => x
  end.

(** The integer value of an integral number, used where a number serves as
    an array index; [None] for the numbers that are no array index. *)
Definition to_index (x : float) : option nat :=
  match Prim2SF x with
  | S754_zero _ => Some 0
  | S754_finite false m e =>
      if (0 <=? e)%Z then Some (Z.to_nat (Z.pos m * 2 ^ e))
      else if (Z.pos m mod 2 ^ (- e) =? 0)%Z
           then Some (Z.to_nat (Z.pos m / 2 ^ (- e)))
           else None
  | _ => None
  end.

(** [x || d] for a number [x]: zero and NaN are falsy. *)
Definition number_or (x : option float) (d : float) : float :=
  match x with
  | Some v => if is_nan v || is_zero v then d else v
  | None => d
  end.

(** *** Strings *)

Definition comma : ascii := ","%char.
Definition slash : ascii := "/"%char.

(** [s.startsWith(p)] *)
Definition startsWith (s p : string) : bool := String.prefix p s.

(** [s.endsWith(p)] *)
Definition endsWith (s p : string) : bool :=
  let n := String.length s in
  let k := String.length p in
  (k <=? n)%nat && String.eqb (String.substring (n - k) k s) p.

(** [s.split(sep)] for a non-empty separator: [skip] counts the code units
    of a separator that has just been recognised and is being passed over,
    [acc] is the piece read so far. *)
Fixpoint split_go (sep : string) (skip : nat) (acc : string) (s : string)
  : list string :=
  match s with
  | EmptyString => [acc]
  | String c s' =>
      match skip with
      | S k => split_go sep k acc s'
      | O =>
          if String.prefix sep s
          then acc :: split_go sep (String.length sep - 1) "" s'
          else split_go sep 0 (acc +:+ String c "") s'
      end
  end.

Definition split (s sep : string) : list string := split_go sep 0 "" s.

(** [s.replace(pat, by)] for a string pattern: the first occurrence only. *)
Fixpoint replace_go (pat by_ : string) (s : string) : string :=
  match s with
  | EmptyString => if String.eqb pat "" then by_ else ""
  | String c s' =>
      if String.prefix pat s
      then by_ +:+ String.substring (String.length pat)
                     (String.length s - String.length pat) s
      else String c (replace_go pat by_ s')
  end.

Definition replace (s pat by_ : string) : string := replace_go pat by_ s.

(** [a.join(sep)] on an array of strings. *)
Fixpoint join (sep : string) (a : list string) : string :=
  match a with
  | [] => ""
  | [x] => x
  | x :: rest => x +:+ sep +:+ join sep rest
  end.

(** *** Arrays *)

(** The order of [Array.prototype.sort] without a comparator, on strings:
    lexicographic on code units. *)
Definition str_le : relation string := String.le.

(** [[...a].sort()] on an array of strings.  The order is total and
    antisymmetric, so the sorted array does not depend on the sorting
    algorithm of the engine (see [sort_unique] below). *)
Definition sort (a : list string) : list string := merge_sort str_le a.

End JS.

(** ** The data model ([src/types/index.ts]) *)

Inductive QuestionType : Type :=
  | multiple_choice
  | multiple_select.

Global Instance QuestionType_eq_dec : EqDecision QuestionType.
Proof. solve_decision. Defined.

(** [interface Question].  The declared type of [correctAnswers] is
    [string[]]; the parameter [A] is the type of its entries: [string] for a
    document that has the declared type, [Entry] (below) for the objects the
    question generator builds in memory, where an entry is the result of
    indexing [options] and is [undefined] when the index is out of range. *)
Record Question (A : Type) : Type := mkQuestion {
  q_id : string;
  q_type : QuestionType;
  q_question : string;
  q_options : list string;
  q_correctAnswers : list A;
  q_explanation : string
}.
Arguments mkQuestion {A}.
Arguments q_id {A}.
Arguments q_type {A}.
Arguments q_question {A}.
Arguments q_options {A}.
Arguments q_correctAnswers {A}.
Arguments q_explanation {A}.

(** [interface PracticeTest] *)
Record PracticeTest (A : Type) : Type := mkPracticeTest {
  t_id : string;
  t_certificationName : string;
  t_certificationUrl : option string;
  t_generatedAt : string;
  t_questionCount : nat;
  t_questions : list (Question A)
}.
Arguments mkPracticeTest {A}.
Arguments t_id {A}.
Arguments t_certificationName {A}.
Arguments t_certificationUrl {A}.
Arguments t_generatedAt {A}.
Arguments t_questionCount {A}.
Arguments t_questions {A}.

(** [Record<string, string[]>]: questionId -> selected answers *)
Abbreviation Answers := (gmap string (list string)).

(** ** The scorer ([APIRoutes.calculateScore]) *)

Module Scorer.

(** One entry of [details]. *)
Record Detail : Type := mkDetail {
  d_questionId : string;
  d_correct : bool;
  d_userAnswers : list string;
  d_correctAnswers : list string
}.

(** The object returned by [calculateScore]. *)
Record Score : Type := mkScore {
  s_score : float;
  s_total : nat;
  s_correct : nat;
  s_incorrect : Z;
  s_details : list Detail
}.

(** [answers[question.id] || []]: an array is truthy, so only a missing
    entry is replaced. *)
Definition userAnswersOf (answers : Answers) (question : Question string)
  : list string :=
  default [] (answers !! q_id question).

(** [userSorted === correctSorted] *)
Definition isCorrect (userAnswers correctAnswers : list string) : bool :=
  let userSorted := JS.join "," (JS.sort userAnswers) in
  let correctSorted := JS.join "," (JS.sort correctAnswers) in
  String.eqb userSorted correctSorted.

(** The body of the [for (const question of test.questions)] loop, on the
    pair of the mutable [correct] and [details]. *)
Definition score_step (answers : Answers)
    (st : nat * list Detail) (question : Question string)
  : nat * list Detail :=
  let userAnswers := userAnswersOf answers question in
  let correctAnswers := q_correctAnswers question in
  let ok := isCorrect userAnswers correctAnswers in
  ((if ok then S (fst st) else fst st),
   snd st ++ [mkDetail (q_id question) ok userAnswers correctAnswers]).

Definition calculateScore (test : PracticeTest string) (answers : Answers)
  : Score :=
  let st := foldl (score_step answers) (0, []) (t_questions test) in
  let correct := fst st in
  let len := length (t_questions test) in
  {| s_score := JS.Math_round (JS.of_nat correct / JS.of_nat len * 100)%float;
     s_total := len;
     s_correct := correct;
     s_incorrect := Z.of_nat len - Z.of_nat correct;
     s_details := snd st |}.

End Scorer.

(** ** Exceptions, state and the outside world *)

(** A thrown value: an [Error] object with its message, or something else. *)
Inductive Exn : Type :=
  | JsError (message : string)
  | Thrown (what : string).

(** [error instanceof Error ? error.message : 'Unknown error'] *)
Definition error_message (error : Exn) : string :=
  match error with
  | JsError message => message
  | Thrown _ => "Unknown error"
  end.

(** The variable parts of one call of [client.chat.completions.create]: the
    prompt is a fixed template around [count] and the first 15000 code units
    of the content; the template differs with the kind of question. *)
Record ChatRequest : Type := mkChatRequest {
  cr_kind : QuestionType;
  cr_count : float;
  cr_content : string
}.

(** A value that a record uses to index its [options], as JSON gives it: a
    number or a string.  The access [options[key]] takes the key as a
    property name, so that the string ["1"] selects what the number [1]
    selects; a value of another kind is used by the string that the access
    makes of it ([null] by ["null"], the array [[1]] by ["1"]). *)
Inductive Key : Type :=
  | key_number (x : float)
  | key_string (s : string).

(** What [options[key]] gives on an array of strings, and so what an entry
    of [correctAnswers] is in a question that the generator builds: an
    element of the array; [undefined] for an index that the array does not
    have; and for a string that is no index, the property of the array with
    this name, which is no string: its length, or what arrays inherit under
    the name (a method, the prototype, or [undefined] when there is no such
    member). *)
Inductive Entry : Type :=
  | element (s : string)
  | undefined
  | length_of (n : nat)
  | inherited (name : string).

Global Instance Entry_eq_dec : EqDecision Entry.
Proof. solve_decision. Defined.

(** A record of the array parsed from a multiple-choice reply, in the shape
    the prompt asks for: the texts are strings and the options an array of
    strings.  [rc_correctAnswer] is the key by which the record names the
    correct option. *)
Record RawChoice : Type := mkRawChoice {
  rc_question : string;
  rc_options : list string;
  rc_correctAnswer : Key;
  rc_explanation : string
}.

(** A record of the array parsed from a multiple-select reply. *)
Record RawSelect : Type := mkRawSelect {
  rs_question : string;
  rs_options : list string;
  rs_correctAnswers : list Key;
  rs_explanation : string
}.

(** What [await fetch(url)] resolves to. *)
Record HttpResponse : Type := mkHttpResponse {
  r_ok : bool;
  r_statusText : string;
  r_text : Exn + string
}.

(** [interface TestSession] *)
Record TestSession : Type := mkTestSession {
  ts_testId : string;
  ts_answers : option Answers;
  ts_startedAt : string;
  ts_completedAt : option string;
  ts_score : option float
}.

(** [interface CertificationSearchResult] *)
Record CertificationSearchResult : Type := mkSearchResult {
  sr_title : string;
  sr_url : string;
  sr_snippet : string
}.

(** The capabilities the program is given: the network, the completion
    service, the clock, the random generator, and the library functions
    whose code is not part of the repository.  A capability that is called
    several times takes the number of earlier calls as first argument.

    [JSON_parse_choices] and [JSON_parse_selects] stand for [JSON.parse] on
    the text of the array, which the pattern of the match makes an array
    whenever it parses: the result is [inl] when [JSON.parse] throws, and
    otherwise the entries of the array as the callback of [parsed.map] will
    find them.  An entry is [inr] a record of the shape the prompt asks for,
    or [inl] the TypeError that the callback throws when it reads the entry
    (an entry that is [null], or one that has no [options] to index).  An
    entry of another shape that the callback reads without throwing, such
    as one whose question is a number, has no counterpart here.
    [Date_now] gives milliseconds, written in decimal digits where a
    template literal prints them. *)
Record Env : Type := mkEnv {
  http_fetch : nat -> string -> Exn + HttpResponse;
  extractContent : string -> string;
  chat_create : nat -> ChatRequest -> Exn + option string;
  JSON_parse_choices : string -> Exn + list (Exn + RawChoice);
  JSON_parse_selects : string -> Exn + list (Exn + RawSelect);
  Date_now : nat -> N;
  toISOString : N -> string;
  Math_random : nat -> float;
  toString36 : float -> string;
  path_join : string -> string -> string;
  JSON_stringify_test : PracticeTest Entry -> string;
  JSON_parse_test : string -> Exn + PracticeTest string;
  JSON_stringify_session : TestSession -> string;
  bing_searchCertification :
    option (string -> Exn + list CertificationSearchResult)
}.

(** The state the program changes: the files, and how often each capability
    has been used ([w_chats] keeps the requests that were sent, [w_searches]
    counts the web searches of the earlier revision of [generateTest]). *)
Record World : Type := mkWorld {
  w_files : gmap string string;
  w_fetches : nat;
  w_chats : list ChatRequest;
  w_clock : nat;
  w_randoms : nat;
  w_searches : nat
}.

(** A computation either throws or returns, and leaves a world behind in
    both cases. *)
Definition M (A : Type) : Type := World -> (Exn + A) * World.

Definition ret {A} (a : A) : M A := fun w => (inr a, w).

Definition throw {A} (e : Exn) : M A := fun w => (inl e, w).

Definition bind {A B} (m : M A) (k : A -> M B) : M B :=
  fun w =>
    match m w with
    | (inr a, w') => k a w'
    | (inl e, w') => (inl e, w')
    end.

(** [try { body } catch (error) { handler }] *)
Definition try_catch {A} (body : M A) (handler : Exn -> M A) : M A :=
  fun w =>
    match body w with
    | (inr a, w') => (inr a, w')
    | (inl e, w') => handler e w'
    end.

(** A value that is either returned or thrown. *)
Definition lift {A} (r : Exn + A) : M A := fun w => (r, w).

Notation "'let*' x ':=' m 'in' k" := (bind m (fun x => k))
  (at level 10, x name, m at level 100, k at level 200).

(** [array.map(async/sync callback)] with the index, the callbacks running in
    order. *)
Fixpoint mapM_index {A B} (f : A -> nat -> M B) (index : nat) (a : list A)
  : M (list B) :=
  match a with
  | [] => ret []
  | x :: rest =>
      let* y := f x index in
      let* ys := mapM_index f (S index) rest in
      ret (y :: ys)
  end.

(** [await fetch(url)] *)
Definition fetch_url (env : Env) (url : string) : M HttpResponse :=
  fun w =>
    (http_fetch env (w_fetches w) url,
     mkWorld (w_files w) (S (w_fetches w)) (w_chats w) (w_clock w)
             (w_randoms w) (w_searches w)).

(** [await this.client.chat.completions.create(...)], then
    [response.choices[0]?.message?.content] *)
Definition chat (env : Env) (request : ChatRequest) : M (option string) :=
  fun w =>
    (chat_create env (length (w_chats w)) request,
     mkWorld (w_files w) (w_fetches w) (w_chats w ++ [request]) (w_clock w)
             (w_randoms w) (w_searches w)).

(** [Date.now()] *)
Definition now (env : Env) : M N :=
  fun w =>
    (inr (Date_now env (w_clock w)),
     mkWorld (w_files w) (w_fetches w) (w_chats w) (S (w_clock w))
             (w_randoms w) (w_searches w)).

(** [Math.random()] *)
Definition random (env : Env) : M float :=
  fun w =>
    (inr (Math_random env (w_randoms w)),
     mkWorld (w_files w) (w_fetches w) (w_chats w) (w_clock w)
             (S (w_randoms w)) (w_searches w)).

(** [existsSync(path)] *)
Definition existsSync (path : string) : M bool :=
  fun w => (inr (bool_decide (is_Some (w_files w !! path))), w).

(** [await readFile(path, 'utf-8')] *)
Definition readFile (path : string) : M string :=
  fun w =>
    match w_files w !! path with
    | Some content => (inr content, w)
    | None =>
        (inl (JsError ("ENOENT: no such file or directory, open "
                       +:+ path)), w)
    end.

(** [await writeFile(path, content, 'utf-8')]; the disk takes every write. *)
Definition writeFile (path content : string) : M unit :=
  fun w =>
    (inr tt,
     mkWorld (<[path := content]> (w_files w)) (w_fetches w) (w_chats w)
             (w_clock w) (w_randoms w) (w_searches w)).

(** ** The question generator ([src/services/questionGenerator.ts]) *)

Module QuestionGenerator.

Definition LF : string := String "010"%char "".

(** [content.match(/\[[\s\S]*\]/)]: the match starts at the first opening
    bracket and, the star being greedy, ends at the last closing bracket
    after it. *)
Fixpoint from_first_open (s : string) : option string :=
  match s with
  | EmptyString => None
  | String c s' =>
      if Ascii.eqb c "["%char then Some s else from_first_open s'
  end.

Fixpoint upto_last_close (s : string) : option string :=
  match s with
  | EmptyString => None
  | String c s' =>
      match upto_last_close s' with
      | Some p => Some (String c p)
      | None => if Ascii.eqb c "]"%char then Some (String c "") else None
      end
  end.

Definition match_json_array (content : string) : option string :=
  match from_first_open content with
  | Some s => upto_last_close s
  | None => None
  end.

(** The value of a decimal digit. *)
Definition digit_value (c : ascii) : option N :=
  let n := N_of_ascii c in
  if (48 <=? n)%N && (n <=? 57)%N then Some (n - 48)%N else None.

(** The number that a string of decimal digits writes, after [acc]. *)
Fixpoint digits_value (acc : N) (s : string) : option N :=
  match s with
  | EmptyString => Some acc
  | String c s' =>
      match digit_value c with
      | Some d => digits_value (10 * acc + d) s'
      | None => None
      end
  end.

(** The array index that a property name denotes: the name has to be the
    decimal numeral of the index, without sign, fraction or leading
    zeros. *)
Definition array_index (name : string) : option nat :=
  match name with
  | EmptyString => None
  | String c rest =>
      if Ascii.eqb c "0"%char && negb (String.eqb rest "") then None
      else N.to_nat <$> digits_value 0 name
  end.

(** The array index that a key denotes.  A number is taken by the name it
    is printed with, which for an integer from 0 on is its numeral (or,
    from 10^21 on, a name in exponent form: the array has no index that
    large either way), and the numeral of no index for any other number. *)
Definition index_of (key : Key) : option nat :=
  match key with
  | key_number x => JS.to_index x
  | key_string name => array_index name
  end.

(** [options[key]] on an array of strings: the element at the index that
    the key denotes, [undefined] unless the array has this index; for a
    string that is no index, the length of the array or what arrays
    inherit under this name. *)
Definition at_index (options : list string) (key : Key) : Entry :=
  match index_of key with
  | Some i =>
      match options !! i with
      | Some s => element s
      | None => undefined
      end
  | None =>
      match key with
      | key_number _ => undefined
      | key_string name =>
          if String.eqb name "length" then length_of (length options)
          else inherited name
      end
  end.

(** The callback of [parsed.map] in [generateMultipleChoiceQuestions].  The
    object literal evaluates its properties in order: [Date.now()] for the
    id has been read when the entry [q] is read. *)
Definition choice_question (env : Env) (q : Exn + RawChoice) (index : nat)
  : M (Question Entry) :=
  let* t := now env in
  let* q := lift q in
  ret {| q_id := "mc-" +:+ pretty t +:+ "-" +:+ pretty index;
         q_type := multiple_choice;
         q_question := rc_question q;
         q_options := rc_options q;
         q_correctAnswers := [at_index (rc_options q) (rc_correctAnswer q)];
         q_explanation := rc_explanation q |}.

(** The callback of [parsed.map] in [generateMultipleSelectQuestions]. *)
Definition select_question (env : Env) (q : Exn + RawSelect) (index : nat)
  : M (Question Entry) :=
  let* t := now env in
  let* q := lift q in
  ret {| q_id := "ms-" +:+ pretty t +:+ "-" +:+ pretty index;
         q_type := multiple_select;
         q_question := rs_question q;
         q_options := rs_options q;
         q_correctAnswers :=
           map (fun idx => at_index (rs_options q) idx) (rs_correctAnswers q);
         q_explanation := rs_explanation q |}.

(** The part of both generators between the completion call and
    [JSON.parse]: [!content] holds for [undefined] and for the empty
    string. *)
Definition reply_json (env : Env) (request : ChatRequest) : M string :=
  let* response := chat env request in
  match response with
  | None | Some EmptyString => throw (JsError "No response from OpenAI")
  | Some content =>
      match match_json_array content with
      | None => throw (JsError "Invalid JSON response from OpenAI")
      | Some jsonMatch => ret jsonMatch
      end
  end.

(** [catch (error) { throw new Error(`Failed to generate questions: ...`) }] *)
Definition rethrow_failed {A} (error : Exn) : M A :=
  throw (JsError ("Failed to generate questions: " +:+ error_message error)).

Definition generateMultipleChoiceQuestions (env : Env)
    (content : string) (count : float) : M (list (Question Entry)) :=
  try_catch
    (let* jsonMatch :=
       reply_json env
         (mkChatRequest multiple_choice count
            (String.substring 0 15000 content)) in
     let* parsed := lift (JSON_parse_choices env jsonMatch) in
     mapM_index (choice_question env) 0 parsed)
    rethrow_failed.

Definition generateMultipleSelectQuestions (env : Env)
    (content : string) (count : float) : M (list (Question Entry)) :=
  try_catch
    (let* jsonMatch :=
       reply_json env
         (mkChatRequest multiple_select count
            (String.substring 0 15000 content)) in
     let* parsed := lift (JSON_parse_selects env jsonMatch) in
     mapM_index (select_question env) 0 parsed)
    rethrow_failed.

(** [[shuffled[i], shuffled[j]] = [shuffled[j], shuffled[i]]].  Both indices
    are indices of the array whenever [Math.random()] is below 1; the array
    is left as it is otherwise (JavaScript would store [undefined] and grow
    the array, which a [list T] cannot hold): the statements about the
    shuffle assume the draws in range. *)
Definition swap {T} (shuffled : list T) (i j : nat) : list T :=
  match shuffled !! i, shuffled !! j with
  | Some x, Some y => <[j := x]> (<[i := y]> shuffled)
  | _, _ => shuffled
  end.

(** [Math.floor(Math.random() * (i + 1))] for the value [r] drawn. *)
Definition random_index (r : float) (i : nat) : option nat :=
  JS.to_index (JS.Math_floor (r * JS.of_nat (i + 1))%float).

(** The loop [for (let i = shuffled.length - 1; i > 0; i--)]: [n] is the
    number of iterations still to run, so that [i = n]. *)
Fixpoint shuffle_loop {T} (env : Env) (n : nat) (shuffled : list T)
  : M (list T) :=
  match n with
  | O => ret shuffled
  | S n' =>
      let i := n in
      let* r := random env in
      let shuffled' :=
        match random_index r i with
        | Some j => swap shuffled i j
        | None => shuffled
        end in
      shuffle_loop env n' shuffled'
  end.

Definition shuffleArray {T} (env : Env) (array : list T) : M (list T) :=
  shuffle_loop env (length array - 1) array.

(** An entry of [webContent]. *)
Record WebContent : Type := mkWebContent {
  wc_title : string;
  wc_snippet : string;
  wc_content : option string
}.

(** [`${item.title}\n${item.snippet}${item.content ? '\n' + item.content : ''}`] *)
Definition web_item_text (item : WebContent) : string :=
  wc_title item +:+ LF +:+ wc_snippet item +:+
  match wc_content item with
  | None | Some EmptyString => ""
  | Some content => LF +:+ content
  end.

(** [Math.floor(questionCount * 0.6)] *)
Definition multipleChoiceCountOf (questionCount : float) : float :=
  JS.Math_floor (questionCount * 0x1.3333333333333p-1)%float.

(** [questionCount - multipleChoiceCount] *)
Definition multipleSelectCountOf (questionCount : float) : float :=
  (questionCount - multipleChoiceCountOf questionCount)%float.

(** The text both prompts are built from. *)
Definition combinedContentOf (studyGuideContent : string)
    (webContent : list WebContent) : string :=
  let webContentText :=
    JS.join (LF +:+ LF +:+ "---" +:+ LF +:+ LF)
            (map web_item_text webContent) in
  LF +:+ "STUDY GUIDE CONTENT:" +:+ LF +:+ studyGuideContent +:+ LF +:+ LF
  +:+ "ADDITIONAL WEB CONTENT:" +:+ LF +:+ webContentText +:+ LF.

Definition generateQuestions (env : Env) (studyGuideContent : string)
    (webContent : list WebContent) (questionCount : float)
  : M (list (Question Entry)) :=
  let combinedContent := combinedContentOf studyGuideContent webContent in
  (* Determine mix of question types; 0x1.3333333333333p-1 is the number
     the literal 0.6 denotes *)
  let multipleChoiceCount := multipleChoiceCountOf questionCount in
  let multipleSelectCount := multipleSelectCountOf questionCount in
  let questions := [] in
  (* Generate multiple choice questions *)
  let* questions :=
    if (0 <? multipleChoiceCount)%float then
      let* mcQuestions :=
        generateMultipleChoiceQuestions env combinedContent
          multipleChoiceCount in
      ret (questions ++ mcQuestions)
    else ret questions in
  (* Generate multiple select questions *)
  let* questions :=
    if (0 <? multipleSelectCount)%float then
      let* msQuestions :=
        generateMultipleSelectQuestions env combinedContent
          multipleSelectCount in
      ret (questions ++ msQuestions)
    else ret questions in
  (* Shuffle questions *)
  shuffleArray env questions.

End QuestionGenerator.

(** ** The content extractor ([ContentExtractor.fetchContent]) *)

Module ContentExtractor.

(** The text extraction itself ([extractContent], which runs cheerio over
    the page) is the capability [extractContent] of the environment. *)
Definition fetchContent (env : Env) (url : string) : M string :=
  try_catch
    (let* response := fetch_url env url in
     if negb (r_ok response)
     then throw (JsError ("Failed to fetch " +:+ url +:+ ": "
                          +:+ r_statusText response))
     else
       let* html := lift (r_text response) in
       ret (extractContent env html))
    (fun error => throw error).

End ContentExtractor.

(** ** The test repository ([src/services/testStorage.ts]) *)

Module TestStorage.

Definition storageDir : string := "./data/tests".

(** Directories are not part of the state: [ensureDirectoryExists] changes
    no file. *)
Definition ensureDirectoryExists : M unit := ret tt.

Definition saveTest (env : Env) (test : PracticeTest Entry)
  : M unit :=
  let* _ := ensureDirectoryExists in
  let filePath := path_join env storageDir (t_id test +:+ ".json") in
  writeFile filePath (JSON_stringify_test env test).

Definition loadTest (env : Env) (testId : string)
  : M (option (PracticeTest string)) :=
  let filePath := path_join env storageDir (testId +:+ ".json") in
  try_catch
    (let* found := existsSync filePath in
     if negb found then ret None
     else
       let* content := readFile filePath in
       let* test := lift (JSON_parse_test env content) in
       ret (Some test))
    (fun error => ret None).

Definition saveSession (env : Env) (session : TestSession) : M unit :=
  let* _ := ensureDirectoryExists in
  let sessionsDir := path_join env storageDir "sessions" in
  let* t := now env in
  let filePath :=
    path_join env sessionsDir
      (ts_testId session +:+ "-" +:+ pretty t +:+ ".json") in
  writeFile filePath (JSON_stringify_session env session).

End TestStorage.

(** ** The route handlers ([src/api/routes.ts]) *)

Module APIRoutes.

Definition searchCertifications (env : Env) (query : string)
  : M (list CertificationSearchResult) :=
  match bing_searchCertification env with
  | None =>
      throw (JsError
        ("Search functionality requires Bing Search API key. "
         +:+ "Please provide a direct Microsoft Learn URL instead."))
  | Some searchCertification =>
      let* results := lift (searchCertification query) in
      ret (map (fun r => mkSearchResult (sr_title r) (sr_url r) (sr_snippet r))
               results)
  end.

(** [s.substring(7)] *)
Definition substring_from (n : nat) (s : string) : string :=
  String.substring n (String.length s - n) s.

Definition generateTest (env : Env) (studyGuideUrl certificationName : string)
    (questionCount : float) : M (PracticeTest Entry) :=
  (* Step 1: extract study guide content *)
  let* studyGuideContent :=
    ContentExtractor.fetchContent env studyGuideUrl in
  (* Step 2: generate questions directly from study guide content *)
  let* questions :=
    QuestionGenerator.generateQuestions env studyGuideContent []
      questionCount in
  (* Step 3: create and save test *)
  let* t := now env in
  let* r := random env in
  let* d := now env in
  let test :=
    {| t_id := "test-" +:+ pretty t +:+ "-"
               +:+ substring_from 7 (toString36 env r);
       t_certificationName := certificationName;
       t_certificationUrl := Some studyGuideUrl;
       t_generatedAt := toISOString env d;
       t_questionCount := length questions;
       t_questions := questions |} in
  let* _ := TestStorage.saveTest env test in
  ret test.

Definition getTest (env : Env) (testId : string)
  : M (option (PracticeTest string)) :=
  TestStorage.loadTest env testId.

Definition calculateScore := Scorer.calculateScore.

End APIRoutes.

(** ** The earlier revision of [generateTest], with web search

    An earlier revision of [src/api/routes.ts] enriches the study guide with
    related web content before the questions are generated; it uses
    [BingSearchService.searchRelatedContent] ([src/services/bingSearch.ts])
    and [ContentAnalyzer] ([src/services/contentAnalyzer.ts]). *)

Module Legacy.

(** A page of a search result; every property may be missing. *)
Record WebPage : Type := mkWebPage {
  wp_name : option string;
  wp_url : option string;
  wp_snippet : option string
}.

(** An entry of the related content. *)
Record Related : Type := mkRelated {
  rel_title : string;
  rel_url : string;
  rel_snippet : string;
  rel_content : option string
}.

(** What [extractStructuredContent] returns. *)
Record Structured : Type := mkStructured {
  st_title : string;
  st_headings : list string;
  st_paragraphs : list string;
  st_lists : list string
}.

(** The further capabilities of this revision: the web search
    ([client.web.search(query, ...)] followed by [result.webPages?.value]),
    the extraction of headings and lists with cheerio, and the text
    heuristics of [ContentAnalyzer] ([analyzeContent] followed by
    [extractSearchQueries]), which take and return strings and are kept
    abstract. *)
Record SearchEnv : Type := mkSearchEnv {
  web_search : nat -> string -> Exn + option (list WebPage);
  extractStructuredContent : string -> Structured;
  searchQueriesOf : string -> Structured -> list string
}.

(** [await this.client.web.search(searchQuery, ...)] *)
Definition search (senv : SearchEnv) (searchQuery : string)
  : M (option (list WebPage)) :=
  fun w =>
    (web_search senv (w_searches w) searchQuery,
     mkWorld (w_files w) (w_fetches w) (w_chats w) (w_clock w) (w_randoms w)
             (S (w_searches w))).

(** [x || ''] *)
Definition or_empty (x : option string) : string := default "" x.

(** [allResults.find(r => r.url === page.url)] *)
Definition known (allResults : list Related) (page : WebPage) : bool :=
  match wp_url page with
  | Some url => existsb (fun r => String.eqb (rel_url r) url) allResults
  | None => false
  end.

(** The inner loop [for (const page of result.webPages.value)]. *)
Definition add_pages (allResults : list Related) (pages : list WebPage)
  : list Related :=
  foldl (fun all page =>
           if known all page then all
           else all ++ [mkRelated (or_empty (wp_name page))
                          (or_empty (wp_url page))
                          (or_empty (wp_snippet page)) None])
        allResults pages.

(** The loop over the topics inside [try { ... } catch { return
    allResults }]: the handler returns the array as it is when the search
    throws, so the loop ends there with the results accumulated so far. *)
Fixpoint search_topics (senv : SearchEnv) (topics : list string)
    (allResults : list Related) : M (list Related) :=
  match topics with
  | [] => ret allResults
  | topic :: rest =>
      try_catch
        (let* value := search senv (topic +:+ " Microsoft Azure certification") in
         search_topics senv rest (add_pages allResults (default [] value)))
        (fun error => ret allResults)
  end.

Definition searchRelatedContent (senv : SearchEnv) (topics : list string)
    (limit : nat) : M (list Related) :=
  search_topics senv (take limit topics) [].

(** The callback of [webContent.slice(0, 5).map]: the full text of the page
    is added, cut at 2000 code units; a page that cannot be fetched keeps its
    snippet only. *)
Definition with_full_text (env : Env) (item : Related) (index : nat)
  : M Related :=
  try_catch
    (let* fullContent := ContentExtractor.fetchContent env (rel_url item) in
     ret (mkRelated (rel_title item) (rel_url item) (rel_snippet item)
            (Some (String.substring 0 2000 fullContent))))
    (fun error => ret item).

(** An entry as [generateQuestions] reads it. *)
Definition as_web_content (item : Related) : QuestionGenerator.WebContent :=
  QuestionGenerator.mkWebContent (rel_title item) (rel_snippet item)
    (rel_content item).

Definition generateTest (env : Env) (senv : SearchEnv)
    (studyGuideUrl certificationName : string) (questionCount : float)
  : M (PracticeTest Entry) :=
  (* Step 1: extract study guide content *)
  let* studyGuideContent :=
    ContentExtractor.fetchContent env studyGuideUrl in
  let* response := fetch_url env studyGuideUrl in
  let* html := lift (r_text response) in
  let structuredContent := extractStructuredContent senv html in
  (* Step 2 and 3: key topics, and the related content found for them *)
  let searchQueries :=
    searchQueriesOf senv studyGuideContent structuredContent in
  let* webContent := searchRelatedContent senv searchQueries 10 in
  (* Step 4: fetch full content from web results *)
  let* webContentWithFullText :=
    mapM_index (with_full_text env) 0 (take 5 webContent) in
  (* Step 5: generate questions from combined content *)
  let* questions :=
    QuestionGenerator.generateQuestions env studyGuideContent
      (map as_web_content webContentWithFullText) questionCount in
  (* Step 6: create and save test *)
  let* t := now env in
  let* r := random env in
  let* d := now env in
  let test :=
    {| t_id := "test-" +:+ pretty t +:+ "-"
               +:+ APIRoutes.substring_from 7 (toString36 env r);
       t_certificationName := certificationName;
       t_certificationUrl := Some studyGuideUrl;
       t_generatedAt := toISOString env d;
       t_questionCount := length questions;
       t_questions := questions |} in
  let* _ := TestStorage.saveTest env test in
  ret test.

End Legacy.

(** ** The HTTP server ([src/server/index.ts]) *)

Module Server.

(** The value handed to [JSON.stringify] for a response. *)
#[local] Unset Elimination Schemes.
Inductive JSON : Type :=
  | JNull
  | JBool (b : bool)
  | JNumber (x : float)
  | JString (s : string)
  | JArray (items : list JSON)
  | JObject (fields : list (string * JSON)).
#[local] Set Elimination Schemes.

(** [{...fields, key: value}]: an existing key keeps its place. *)
Fixpoint obj_set (key : string) (value : JSON) (fields : list (string * JSON))
  : list (string * JSON) :=
  match fields with
  | [] => [(key, value)]
  | (k, v) :: rest =>
      if String.eqb k key then (k, value) :: rest
      else (k, v) :: obj_set key value rest
  end.

(** [object[key]] on own properties. *)
Fixpoint obj_get (key : string) (fields : list (string * JSON))
  : option JSON :=
  match fields with
  | [] => None
  | (k, v) :: rest => if String.eqb k key then Some v else obj_get key rest
  end.

Definition type_name (t : QuestionType) : string :=
  match t with
  | multiple_choice => "multiple-choice"
  | multiple_select => "multiple-select"
  end.

Definition json_strings (a : list string) : JSON := JArray (map JString a).

(** A question as a JSON value; [enc] renders an entry of [correctAnswers]. *)
Definition json_question {A} (enc : A -> JSON) (q : Question A) : JSON :=
  JObject [("id", JString (q_id q));
           ("type", JString (type_name (q_type q)));
           ("question", JString (q_question q));
           ("options", json_strings (q_options q));
           ("correctAnswers", JArray (map enc (q_correctAnswers q)));
           ("explanation", JString (q_explanation q))].

(** The properties of a test, in the order [generateTest] creates them; a
    property that is [undefined] is not written. *)
Definition test_fields {A} (enc : A -> JSON) (test : PracticeTest A)
  : list (string * JSON) :=
  [("id", JString (t_id test));
   ("certificationName", JString (t_certificationName test))]
  ++ match t_certificationUrl test with
     | Some url => [("certificationUrl", JString url)]
     | None => []
     end
  ++ [("generatedAt", JString (t_generatedAt test));
      ("questionCount", JNumber (JS.of_nat (t_questionCount test)));
      ("questions", JArray (map (json_question enc) (t_questions test)))].

(** A test read from storage. *)
Definition json_test (test : PracticeTest string) : JSON :=
  JObject (test_fields JString test).

(** An entry of [correctAnswers] in a question that the generator has
    built.  In an array, [undefined] and a function are written as [null];
    the prototype of arrays is itself an array, without elements. *)
Definition json_entry (a : Entry) : JSON :=
  match a with
  | element s => JString s
  | undefined => JNull
  | length_of n => JNumber (JS.of_nat n)
  | inherited name =>
      if String.eqb name "__proto__" then JArray [] else JNull
  end.

(** A test as [generateTest] returns it. *)
Definition json_generated_test (test : PracticeTest Entry) : JSON :=
  JObject (test_fields json_entry test).

(** [q => ({ id: q.id, type: q.type, question: q.question,
             options: q.options })] *)
Definition question_for_taking (q : Question string) : JSON :=
  JObject [("id", JString (q_id q));
           ("type", JString (type_name (q_type q)));
           ("question", JString (q_question q));
           ("options", json_strings (q_options q))].

(** [{ ...test, questions: test.questions.map(...) }] *)
Definition testForTaking (test : PracticeTest string) : JSON :=
  JObject (obj_set "questions"
             (JArray (map question_for_taking (t_questions test)))
             (test_fields JString test)).

Definition json_detail (d : Scorer.Detail) : JSON :=
  JObject [("questionId", JString (Scorer.d_questionId d));
           ("correct", JBool (Scorer.d_correct d));
           ("userAnswers", json_strings (Scorer.d_userAnswers d));
           ("correctAnswers", json_strings (Scorer.d_correctAnswers d))].

Definition json_score (sc : Scorer.Score) : JSON :=
  JObject [("score", JNumber (Scorer.s_score sc));
           ("total", JNumber (JS.of_nat (Scorer.s_total sc)));
           ("correct", JNumber (JS.of_nat (Scorer.s_correct sc)));
           ("incorrect", JNumber (JS.of_Z (Scorer.s_incorrect sc)));
           ("details", JArray (map json_detail (Scorer.s_details sc)))].

(** The submitted answers, echoed; the order of the keys is of no
    importance here. *)
Definition json_answers (answers : Answers) : JSON :=
  JObject (map (fun kv => (fst kv, json_strings (snd kv)))
               (map_to_list answers)).

Definition json_search_result (r : CertificationSearchResult) : JSON :=
  JObject [("title", JString (sr_title r));
           ("url", JString (sr_url r));
           ("snippet", JString (sr_snippet r))].

Inductive ResponseBody : Type :=
  | NoBody
  | JsonBody (data : JSON)
  | TextBody (text : string).

Record Response : Type := mkResponse {
  status : nat;
  headers : list (string * string);
  body : ResponseBody
}.

(** The properties read from the JSON body of a request. *)
Record RequestBody : Type := mkRequestBody {
  b_studyGuideUrl : option string;
  b_certificationName : option string;
  b_questionCount : option float;
  b_answers : option Answers
}.

Record Request : Type := mkRequest {
  req_method : string;
  req_pathname : string;
  req_q : option string;
  req_json : Exn + RequestBody
}.

Definition getContentType (path : string) : string :=
  if JS.endsWith path ".tsx" || JS.endsWith path ".ts"
  then "application/javascript"
  else if JS.endsWith path ".jsx" || JS.endsWith path ".js"
  then "application/javascript"
  else if JS.endsWith path ".css" then "text/css"
  else if JS.endsWith path ".json" then "application/json"
  else "text/plain".

Definition corsHeaders : list (string * string) :=
  [("Access-Control-Allow-Origin", "*");
   ("Access-Control-Allow-Methods", "GET, POST, PUT, DELETE, OPTIONS");
   ("Access-Control-Allow-Headers", "Content-Type")].

Definition sendJSON (data : JSON) (status : nat) : Response :=
  mkResponse status (corsHeaders ++ [("Content-Type", "application/json")])
             (JsonBody data).

Definition sendError (message : string) (status : nat) : Response :=
  sendJSON (JObject [("error", JString message)]) status.

(** A value is falsy when it is missing or the empty string. *)
Definition truthy (s : option string) : option string :=
  match s with
  | None | Some EmptyString => None
  | Some v => Some v
  end.

Definition dquote : string := String "034"%char "".

(** [calculateScore(test, answers)] when [answers] may be missing from the
    body: reading [answers[question.id]] on [undefined] throws a TypeError
    at the first question. *)
Definition score_request (test : PracticeTest string)
    (answers : option Answers) : M Scorer.Score :=
  match answers, t_questions test with
  | Some a, _ => ret (APIRoutes.calculateScore test a)
  | None, [] => ret (APIRoutes.calculateScore test ∅)
  | None, _ :: _ =>
      throw (JsError "undefined is not an object (evaluating 'answers[question.id]')")
  end.

(** The handler for [GET /api/test/...]. *)
Definition handle_get_test (env : Env) (path : string) : M Response :=
  match truthy (JS.split path "/api/test/" !! 1) with
  | None => ret (sendError "Test ID is required" 400)
  | Some testId =>
      let* test := APIRoutes.getTest env testId in
      match test with
      | None => ret (sendError "Test not found" 404)
      | Some test =>
          (* Remove correct answers for test-taking *)
          ret (sendJSON (JObject [("test", testForTaking test)]) 200)
      end
  end.

(** The handler for [GET /api/test/.../answers]. *)
Definition handle_get_answers (env : Env) (path : string) : M Response :=
  match truthy (option_map (fun s => JS.replace s "/answers" "")
                  (JS.split path "/api/test/" !! 1)) with
  | None => ret (sendError "Test ID is required" 400)
  | Some testId =>
      let* test := APIRoutes.getTest env testId in
      match test with
      | None => ret (sendError "Test not found" 404)
      | Some test => ret (sendJSON (JObject [("test", json_test test)]) 200)
      end
  end.

(** The handler for [POST /api/test/.../submit]. *)
Definition handle_submit (env : Env) (req : Request) : M Response :=
  match truthy (option_map (fun s => JS.replace s "/submit" "")
                  (JS.split (req_pathname req) "/api/test/" !! 1)) with
  | None => ret (sendError "Test ID is required" 400)
  | Some testId =>
      let* body := lift (req_json req) in
      let answers := b_answers body in
      let* test := APIRoutes.getTest env testId in
      match test with
      | None => ret (sendError "Test not found" 404)
      | Some test =>
          let* score := score_request test answers in
          (* Save session with answers for later retrieval *)
          let* t := now env in
          let sessionId := "session-" +:+ testId +:+ "-" +:+ pretty t in
          let* started := now env in
          let* completed := now env in
          let* _ :=
            TestStorage.saveSession env
              {| ts_testId := testId;
                 ts_answers := answers;
                 ts_startedAt := toISOString env started;
                 ts_completedAt := Some (toISOString env completed);
                 ts_score := Some (Scorer.s_score score) |} in
          ret (sendJSON
                 (JObject
                    ([("score", json_score score);
                      ("sessionId", JString sessionId)]
                     ++ match answers with
                        | Some a => [("answers", json_answers a)]
                        | None => []
                        end))
                 200)
      end
  end.

(** The handler for [POST /api/generate-test]. *)
Definition handle_generate (env : Env) (req : Request) : M Response :=
  let* body := lift (req_json req) in
  match truthy (b_studyGuideUrl body), truthy (b_certificationName body) with
  | Some studyGuideUrl, Some certificationName =>
      let* test :=
        APIRoutes.generateTest env studyGuideUrl certificationName
          (JS.number_or (b_questionCount body) 40) in
      ret (sendJSON (JObject [("test", json_generated_test test)]) 200)
  | _, _ =>
      ret (sendError "studyGuideUrl and certificationName are required" 400)
  end.

(** The handler for [GET /api/search]. *)
Definition handle_search (env : Env) (req : Request) : M Response :=
  match truthy (req_q req) with
  | None =>
      ret (sendError ("Query parameter " +:+ dquote +:+ "q" +:+ dquote
                      +:+ " is required") 400)
  | Some query =>
      let* results := APIRoutes.searchCertifications env query in
      ret (sendJSON
             (JObject [("results", JArray (map json_search_result results))])
             200)
  end.

(** Serving [index.html]. *)
Definition handle_index : M Response :=
  try_catch
    (let* html := readFile "./index.html" in
     ret (mkResponse 200 [("Content-Type", "text/html")] (TextBody html)))
    (fun error =>
       ret (mkResponse 404 [("Content-Type", "text/html")]
              (TextBody
                 "Frontend not found. Please ensure index.html exists."))).

(** The [fetch] function given to [Bun.serve]: the routes are tried in the
    order of the source, and the first whose condition holds answers. *)
Definition fetch (env : Env) (req : Request) : M Response :=
  let path := req_pathname req in
  let method := req_method req in
  (* Handle CORS preflight *)
  if String.eqb method "OPTIONS" then ret (mkResponse 200 corsHeaders NoBody)
  else
    try_catch
      ((* Search certifications *)
       if String.eqb path "/api/search" && String.eqb method "GET"
       then handle_search env req
       (* Generate test *)
       else if String.eqb path "/api/generate-test" && String.eqb method "POST"
       then handle_generate env req
       (* Get test *)
       else if JS.startsWith path "/api/test/" && String.eqb method "GET"
       then handle_get_test env path
       (* Get test with answers (for results) *)
       else if JS.startsWith path "/api/test/" && JS.endsWith path "/answers"
               && String.eqb method "GET"
       then handle_get_answers env path
       (* Submit test answers and get score *)
       else if JS.startsWith path "/api/test/" && JS.endsWith path "/submit"
               && String.eqb method "POST"
       then handle_submit env req
       (* Serve frontend *)
       else if String.eqb path "/" || String.eqb path "/index.html"
       then handle_index
       else
         (* Serve frontend source files (for development) *)
         let* served :=
           if JS.startsWith path "/src/" then
             let* found := existsSync ("." +:+ path) in
             if found then
               let* file := readFile ("." +:+ path) in
               ret (Some (mkResponse 200
                            [("Content-Type", getContentType path)]
                            (TextBody file)))
             else ret None
           else ret None in
         match served with
         | Some response => ret response
         | None => ret (sendError "Not found" 404)
         end)
      (fun error =>
         ret (sendError
                match error with
                | JsError message => message
                | Thrown _ => "Internal server error"
                end 500)).

End Server.

(** ** Notions of the specification *)

(** The string [s] does not contain the code unit [c]. *)
Fixpoint lacks (c : ascii) (s : string) : Prop :=
  match s with
  | EmptyString => True
  | String a s' => a <> c /\ lacks c s'
  end.

(** Two arrays hold the same set of strings. *)
Definition same_set (a b : list string) : Prop :=
  forall x, x ∈ a <-> x ∈ b.

(** An answer string the comparison of [calculateScore] reads back
    unambiguously from the joined text: not empty and without a comma. *)
Definition plain (s : string) : Prop := s <> "" /\ lacks JS.comma s.

(** The Question invariant of the specification, on a question as the
    generator builds it: [correctAnswers] is a non-empty set of members of
    [options]; one element for a single-answer question; 2 or 3 elements,
    and not every option, for a multi-answer question. *)
Definition question_invariant (q : Question Entry) : Prop :=
  q_correctAnswers q <> []
  /\ NoDup (q_correctAnswers q)
  /\ (forall a, a ∈ q_correctAnswers q ->
      exists s, a = element s /\ s ∈ q_options q)
  /\ match q_type q with
     | multiple_choice => length (q_correctAnswers q) = 1
     | multiple_select =>
         (length (q_correctAnswers q) = 2 \/ length (q_correctAnswers q) = 3)
         /\ ~ (forall o, o ∈ q_options q -> element o ∈ q_correctAnswers q)
     end.

(** The key denotes an index of the options. *)
Definition in_range (options : list string) (key : Key) : Prop :=
  exists i, QuestionGenerator.index_of key = Some i /\ i < length options.

(** A parsed multiple-choice record whose index is an index of its
    options. *)
Definition choice_in_range (q : RawChoice) : Prop :=
  in_range (rc_options q) (rc_correctAnswer q).

(** A parsed multiple-select record that follows the prompt: distinct
    options, 2 or 3 distinct indices of the options. *)
Definition select_follows_prompt (q : RawSelect) : Prop :=
  NoDup (rs_options q)
  /\ NoDup (map QuestionGenerator.index_of (rs_correctAnswers q))
  /\ Forall (in_range (rs_options q)) (rs_correctAnswers q)
  /\ (length (rs_correctAnswers q) = 2 \/ length (rs_correctAnswers q) = 3)
  /\ length (rs_correctAnswers q) < length (rs_options q).


(** The draws of [Math.random()] that a shuffle of [len] elements started in
    the world [w] makes give indices in range: the draw for position [i] is
    an index [j <= i]. *)
Definition draws_in_range (env : Env) (w : World) (len : nat) : Prop :=
  forall m, m < len - 1 ->
    exists j, QuestionGenerator.random_index
                (Math_random env (w_randoms w + m)) (len - 1 - m) = Some j
              /\ j <= len - 1 - m.

(** The completion requests [generateQuestions] plans for a question
    count: one per sub-batch whose count is positive. *)
Definition planned_requests (questionCount : float) (content : string)
  : list ChatRequest :=
  let mc := QuestionGenerator.multipleChoiceCountOf questionCount in
  let ms := QuestionGenerator.multipleSelectCountOf questionCount in
  (if (0 <? mc)%float then [mkChatRequest multiple_choice mc content] else [])
  ++ (if (0 <? ms)%float then [mkChatRequest multiple_select ms content]
      else []).

(** The keys of a JSON object. *)
Definition keys (j : Server.JSON) : list string :=
  match j with
  | Server.JObject fields => map fst fields
  | _ => []
  end.

(** The [questions] of the test carried by a response [{ test }]. *)
Definition response_questions (r : Server.Response) : option (list Server.JSON) :=
  match Server.body r with
  | Server.JsonBody (Server.JObject fields) =>
      match Server.obj_get "test" fields with
      | Some (Server.JObject test) =>
          match Server.obj_get "questions" test with
          | Some (Server.JArray qs) => Some qs
          | _ => None
          end
      | _ => None
      end
  | _ => None
  end.

(** ** Auxiliary definitions for the statements and proofs *)

(** What follows a piece that lacks the separator [c] in a text: nothing,
    or the separator first. *)
Definition after (c : ascii) (r : string) : Prop :=
  r = "" \/ exists r', r = String c r'.

(** The entry of [details] for a question. *)
Definition detail_of (answers : Answers) (q : Question string) : Scorer.Detail :=
  Scorer.mkDetail (q_id q)
    (Scorer.isCorrect (Scorer.userAnswersOf answers q) (q_correctAnswers q))
    (Scorer.userAnswersOf answers q) (q_correctAnswers q).

(** The score of [correct] right answers out of [total]. *)
Definition score_of (correct total : nat) : float :=
  JS.Math_round (JS.of_nat correct / JS.of_nat total * 100)%float.

Definition score_in_range (correct total : nat) : bool :=
  match JS.to_index (score_of correct total) with
  | Some z => z <=? 100
  | None => false
  end.

(** The world after a completion request has been sent. *)
Definition sent (request : ChatRequest) (w : World) : World :=
  mkWorld (w_files w) (w_fetches w) (w_chats w ++ [request]) (w_clock w)
          (w_randoms w) (w_searches w).

(** The world after [n] readings of the clock. *)
Definition ticked (n : nat) (w : World) : World :=
  mkWorld (w_files w) (w_fetches w) (w_chats w) (w_clock w + n) (w_randoms w)
          (w_searches w).

(** The world after [n] draws of [Math.random()]. *)
Definition drew (n : nat) (w : World) : World :=
  mkWorld (w_files w) (w_fetches w) (w_chats w) (w_clock w) (w_randoms w + n)
          (w_searches w).

(** The question built from a multiple-choice record, the clock reading [t]
    and the index of the record. *)
Definition mk_choice (t : N) (index : nat) (q : RawChoice)
  : Question Entry :=
  {| q_id := "mc-" +:+ pretty t +:+ "-" +:+ pretty index;
     q_type := multiple_choice;
     q_question := rc_question q;
     q_options := rc_options q;
     q_correctAnswers :=
       [QuestionGenerator.at_index (rc_options q) (rc_correctAnswer q)];
     q_explanation := rc_explanation q |}.

(** The question built from a multiple-select record. *)
Definition mk_select (t : N) (index : nat) (q : RawSelect)
  : Question Entry :=
  {| q_id := "ms-" +:+ pretty t +:+ "-" +:+ pretty index;
     q_type := multiple_select;
     q_question := rs_question q;
     q_options := rs_options q;
     q_correctAnswers :=
       map (fun idx => QuestionGenerator.at_index (rs_options q) idx)
           (rs_correctAnswers q);
     q_explanation := rs_explanation q |}.

(** A callback of [parsed.map] that reads the clock, then the entry. *)
Definition stamped {R Q} (env : Env) (build : N -> nat -> R -> Q)
    (q : Exn + R) (index : nat) : M Q :=
  let* t := now env in
  let* q := lift q in
  ret (build t index q).

(** The records of the entries up to the first one that the callback cannot
    read, and the error it throws there. *)
Fixpoint readable {R} (parsed : list (Exn + R)) : list R * option Exn :=
  match parsed with
  | [] => ([], None)
  | inl e :: _ => ([], Some e)
  | inr q :: rest => let (records, e) := readable rest in (q :: records, e)
  end.

(** The common shape of the two sub-batch generators: send the request,
    find the array, parse it with [parse], build each question with
    [build]; any exception is wrapped. *)
Definition batch {R} (env : Env) (kind : QuestionType)
    (parse : string -> Exn + list (Exn + R))
    (build : N -> nat -> R -> Question Entry)
    (content : string) (count : float)
  : M (list (Question Entry)) :=
  try_catch
    (let* jsonMatch :=
       QuestionGenerator.reply_json env
         (mkChatRequest kind count (String.substring 0 15000 content)) in
     let* parsed := lift (parse jsonMatch) in
     mapM_index (stamped env build) 0 parsed)
    QuestionGenerator.rethrow_failed.

(** A sub-batch of [generateQuestions]: skipped, and empty, unless its
    count is positive. *)
Definition sub_batch {Q} (count : float) (generate : float -> M (list Q))
  : M (list Q) :=
  if (0 <? count)%float then generate count else ret [].

(** The entries that a sub-batch started in the world [w] finds in the
    reply to its request: the array of the reply, parsed; there are none
    when the sub-batch is skipped, and none when the reply fails, holds no
    array, or holds one that does not parse. *)
Definition entries_read {R} (env : Env)
    (parse : string -> Exn + list (Exn + R)) (kind : QuestionType)
    (content : string) (count : float) (w : World) : list (Exn + R) :=
  if (0 <? count)%float then
    match QuestionGenerator.reply_json env
            (mkChatRequest kind count (String.substring 0 15000 content)) w
    with
    | (inr jsonMatch, _) =>
        match parse jsonMatch with
        | inr parsed => parsed
        | inl _ => []
        end
    | (inl _, _) => []
    end
  else [].

(** The entries of the single-answer reply that a run of
    [generateQuestions] started in the world [w] reads. *)
Definition choices_read (env : Env) (studyGuideContent : string)
    (webContent : list QuestionGenerator.WebContent) (questionCount : float)
    (w : World) : list (Exn + RawChoice) :=
  entries_read env (JSON_parse_choices env) multiple_choice
    (QuestionGenerator.combinedContentOf studyGuideContent webContent)
    (QuestionGenerator.multipleChoiceCountOf questionCount) w.

(** The entries of the multi-answer reply that the run reads: the request
    for them is sent in the world that the single-answer sub-batch
    leaves. *)
Definition selects_read (env : Env) (studyGuideContent : string)
    (webContent : list QuestionGenerator.WebContent) (questionCount : float)
    (w : World) : list (Exn + RawSelect) :=
  let combinedContent :=
    QuestionGenerator.combinedContentOf studyGuideContent webContent in
  let w1 :=
    snd (sub_batch (QuestionGenerator.multipleChoiceCountOf questionCount)
           (QuestionGenerator.generateMultipleChoiceQuestions env
              combinedContent) w) in
  entries_read env (JSON_parse_selects env) multiple_select combinedContent
    (QuestionGenerator.multipleSelectCountOf questionCount) w1.

Definition dash : ascii := "-"%char.



(** The number the request of a sub-batch asks for, as a natural number. *)
Definition requested (count : float) : option nat := JS.to_index count.

Definition split_matches (n : nat) : bool :=
  bool_decide
    (requested (QuestionGenerator.multipleChoiceCountOf (JS.of_nat n))
     = Some (3 * n / 5)
     /\ requested (QuestionGenerator.multipleSelectCountOf (JS.of_nat n))
        = Some (n - 3 * n / 5)).

(** A question object of a response that shows no more than the id, the
    type, the text and the options. *)
Definition redacted (j : Server.JSON) : Prop :=
  keys j = ["id"; "type"; "question"; "options"]
  /\ ("correctAnswers" ∉ keys j)
  /\ ("explanation" ∉ keys j).

(** The world after a page has been requested. *)
Definition fetched (w : World) : World :=
  mkWorld (w_files w) (S (w_fetches w)) (w_chats w) (w_clock w) (w_randoms w)
          (w_searches w).

(** A stage of the assembly of a test fails with the error [e], leaving the
    world [w']: the extraction of the study guide, or, after it, the
    synthesis of the questions. *)
Definition stage_fails (env : Env) (studyGuideUrl : string)
    (questionCount : float) (w : World) (e : Exn) (w' : World) : Prop :=
  ContentExtractor.fetchContent env studyGuideUrl w = (inl e, w')
  \/ exists studyGuideContent w1,
       ContentExtractor.fetchContent env studyGuideUrl w
       = (inr studyGuideContent, w1)
       /\ QuestionGenerator.generateQuestions env studyGuideContent []
            questionCount w1 = (inl e, w').

(** ** Concrete data for the examples *)

Module Sample.

(** A [path.join] for paths that need no normalisation. *)
Definition join (dir name : string) : string := dir +:+ "/" +:+ name.

Definition q1 : Question string :=
  mkQuestion "mc-1700000000000-0" multiple_choice
    "Which service stores unstructured objects?"
    ["Blob Storage"; "Files"; "Queues"; "Tables"]
    ["Blob Storage"] "Objects are kept in Blob Storage.".

Definition q2 : Question string :=
  mkQuestion "ms-1700000000001-0" multiple_select
    "Which two letters come first?"
    ["A"; "B"; "C"; "D"] ["A"; "B"] "A and B come first.".

Definition test1 : PracticeTest string :=
  mkPracticeTest "test-1" "AZ-900" (Some "https://learn.microsoft.com/az-900")
    "2023-11-14T22:13:20.000Z" 2 [q1; q2].

(** A stored test without questions. *)
Definition test0 : PracticeTest string :=
  mkPracticeTest "test-0" "AZ-900" (Some "https://learn.microsoft.com/az-900")
    "2023-11-14T22:13:20.000Z" 0 [].

(** A multiple-select question answered by the single string ["A,B"]. *)
Definition joined_answers : Answers := {[ "ms-1700000000001-0" := ["A,B"] ]}.

(** Forty questions with the answer key ["A"]; the first [k] of them are
    answered ["A"], the others are left out of the submission. *)
Definition numbered (i : nat) : Question string :=
  mkQuestion ("mc-1700000000000-" +:+ pretty i) multiple_choice "Pick A."
    ["A"; "B"; "C"; "D"] ["A"] "A it is.".

Definition test40 : PracticeTest string :=
  mkPracticeTest "test-40" "AZ-900" None "2023-11-14T22:13:20.000Z" 40
    (map numbered (seq 0 40)).

Definition first_right (k : nat) : Answers :=
  list_to_map (map (fun i => (q_id (numbered i), ["A"])) (seq 0 k)).

Definition raw_choice : RawChoice :=
  mkRawChoice "Which service stores unstructured objects?"
    ["Blob Storage"; "Files"; "Queues"; "Tables"] (key_number 0)
    "Objects are kept in Blob Storage.".

Definition raw_select : RawSelect :=
  mkRawSelect "Which two letters come first?" ["A"; "B"; "C"; "D"]
    [key_number 0; key_number 1] "A and B come first.".

(** A reply that marks one option only as correct. *)
Definition raw_select_single : RawSelect :=
  mkRawSelect "Which letter comes first?" ["A"; "B"; "C"; "D"]
    [key_number 0] "A comes first.".

Definition page : HttpResponse :=
  mkHttpResponse true "OK" (inr "<html><body>Azure basics</body></html>").

(** An environment in which every capability answers; the completion
    service wraps its array in prose, and the arrays parse to [choices] and
    [selects]. *)
Definition env_with (choices : list RawChoice) (selects : list RawSelect)
  : Env :=
  {| http_fetch := fun _ _ => inr page;
     extractContent := fun _ => "Azure basics";
     chat_create := fun _ request =>
       inr (Some match cr_kind request with
                 | multiple_choice => "Here you are: [mc] Good luck!"
                 | multiple_select => "[ms]"
                 end);
     JSON_parse_choices := fun s =>
       if String.eqb s "[mc]" then inr (map inr choices)
       else inl (JsError "JSON Parse error: Unexpected identifier");
     JSON_parse_selects := fun s =>
       if String.eqb s "[ms]" then inr (map inr selects)
       else inl (JsError "JSON Parse error: Unexpected identifier");
     Date_now := fun k => (1700000000000 + N.of_nat k)%N;
     toISOString := fun _ => "2023-11-14T22:13:20.000Z";
     Math_random := fun _ => 0.5%float;
     toString36 := fun _ => "0.i";
     path_join := join;
     JSON_stringify_test := fun test => t_id test +:+ " document";
     JSON_parse_test := fun s =>
       if String.eqb s "test-1 document" then inr test1
       else if String.eqb s "test-0 document" then inr test0
       else inl (JsError "JSON Parse error: Unexpected identifier");
     JSON_stringify_session := fun session => ts_testId session +:+ " session";
     bing_searchCertification := None |}.

Definition env : Env := env_with [raw_choice] [raw_select].

(** The page of the study guide cannot be fetched. *)
Definition env_offline : Env :=
  {| http_fetch := fun _ _ => inl (JsError "Unable to connect");
     extractContent := extractContent env;
     chat_create := chat_create env;
     JSON_parse_choices := JSON_parse_choices env;
     JSON_parse_selects := JSON_parse_selects env;
     Date_now := Date_now env;
     toISOString := toISOString env;
     Math_random := Math_random env;
     toString36 := toString36 env;
     path_join := path_join env;
     JSON_stringify_test := JSON_stringify_test env;
     JSON_parse_test := JSON_parse_test env;
     JSON_stringify_session := JSON_stringify_session env;
     bing_searchCertification := None |}.

(** The completion service replies without any array. *)
Definition env_prose : Env :=
  {| http_fetch := http_fetch env;
     extractContent := extractContent env;
     chat_create := fun _ _ => inr (Some "I cannot help with that.");
     JSON_parse_choices := JSON_parse_choices env;
     JSON_parse_selects := JSON_parse_selects env;
     Date_now := Date_now env;
     toISOString := toISOString env;
     Math_random := Math_random env;
     toString36 := toString36 env;
     path_join := path_join env;
     JSON_stringify_test := JSON_stringify_test env;
     JSON_parse_test := JSON_parse_test env;
     JSON_stringify_session := JSON_stringify_session env;
     bing_searchCertification := None |}.


(** Nothing stored, nothing called yet. *)
Definition w0 : World := mkWorld ∅ 0 [] 0 0 0.

(** The tests [test1] and [test0] are stored. *)
Definition w1 : World :=
  mkWorld {[ join TestStorage.storageDir "test-1.json" := "test-1 document";
             join TestStorage.storageDir "test-0.json" := "test-0 document" ]}
          0 [] 0 0 0.

(** What [generateQuestions env "guide" [] 2] returns in the world [w0],
    and the world it leaves. *)
Definition generated : list (Question Entry) :=
  [mk_choice 1700000000000 0 raw_choice;
   mk_select 1700000000001 0 raw_select].

Definition prompt_content : string :=
  String.substring 0 15000 (QuestionGenerator.combinedContentOf "guide" []).

Definition w_generated : World :=
  mkWorld ∅ 0
    [mkChatRequest multiple_choice 1 prompt_content;
     mkChatRequest multiple_select 1 prompt_content] 2 1 0.

Definition get (path : string) : Server.Request :=
  Server.mkRequest "GET" path None (inl (JsError "Unexpected end of JSON input")).

End Sample.

(** ** The other parts of the sources

    The text heuristics of [ContentAnalyzer], the white-space clean-up of
    [ContentExtractor.extractContent], the two queries of [TestStorage] that
    are placeholders, and the state updates of the pages of the frontend. *)

(** ** Further string primitives *)

Module Text.

(** The code units, read as the characters U+0000 to U+00FF, that the class
    [\s] of a regular expression and [trim] take as white space: TAB, LF, VT,
    FF, CR, the space and the no-break space. *)
Definition is_space (c : ascii) : bool :=
  let n := nat_of_ascii c in
  ((9 <=? n) && (n <=? 13)) || (n =? 32) || (n =? 160).

(** The class [\w]: a letter of the English alphabet, a decimal digit or the
    underscore. *)
Definition is_word (c : ascii) : bool :=
  let n := nat_of_ascii c in
  ((48 <=? n) && (n <=? 57)) || ((65 <=? n) && (n <=? 90)) || (n =? 95)
  || ((97 <=? n) && (n <=? 122)).

(** [c === c.toUpperCase()] for a string of the one code unit [c]: false for
    the small letters, which are a to z, the micro sign, the sharp s, and the
    accented letters from U+00E0 on, the division sign apart. *)
Definition is_own_upper_case (c : ascii) : bool :=
  let n := nat_of_ascii c in
  negb (((97 <=? n) && (n <=? 122)) || (n =? 181)
        || ((223 <=? n) && (n <=? 246)) || ((248 <=? n) && (n <=? 255))).

(** [s.trimStart()] *)
Fixpoint trimStart (s : string) : string :=
  match s with
  | EmptyString => ""
  | String c s' => if is_space c then trimStart s' else s
  end.

(** [s.trimEnd()] *)
Fixpoint trimEnd (s : string) : string :=
  match s with
  | EmptyString => ""
  | String c s' =>
      match trimEnd s' with
      | EmptyString => if is_space c then "" else String c ""
      | t => String c t
      end
  end.

(** [s.trim()] *)
Definition trim (s : string) : string := trimEnd (trimStart s).

(** [s.replace(/\s+/g, ' ')]: every maximal run of white space becomes one
    space; [in_run] tells that the code unit before was white space. *)
Fixpoint replace_spaces_go (in_run : bool) (s : string) : string :=
  match s with
  | EmptyString => ""
  | String c s' =>
      if is_space c
      then if in_run then replace_spaces_go true s'
           else String " " (replace_spaces_go true s')
      else String c (replace_spaces_go false s')
  end.

Definition replace_spaces (s : string) : string := replace_spaces_go false s.

(** [s.replace(/[^\w\s]/g, ' ')] *)
Fixpoint replace_non_word (s : string) : string :=
  match s with
  | EmptyString => ""
  | String c s' =>
      String (if is_word c || is_space c then c else " "%char)
             (replace_non_word s')
  end.

(** [s.replace(/\n\s*\n/g, '\n')].  A match starts at a line feed and, the
    star being greedy, ends at the last line feed of the white space that
    follows it; the search goes on after the match.  [pending] is [None]
    outside such a stretch of white space; inside it is the white space read
    since its last line feed, which is given back, after one line feed, when
    the stretch ends: that line feed is the replacement when a second line
    feed was met, and the first line feed itself, not matched, when none
    was. *)
Fixpoint replace_blank_lines_go (pending : option string) (s : string)
  : string :=
  match s with
  | EmptyString =>
      match pending with
      | Some p => QuestionGenerator.LF +:+ p
      | None => ""
      end
  | String c s' =>
      match pending with
      | None =>
          if Ascii.eqb c "010"%char then replace_blank_lines_go (Some "") s'
          else String c (replace_blank_lines_go None s')
      | Some p =>
          if Ascii.eqb c "010"%char then replace_blank_lines_go (Some "") s'
          else if is_space c
          then replace_blank_lines_go (Some (p +:+ String c "")) s'
          else QuestionGenerator.LF +:+ p
               +:+ String c (replace_blank_lines_go None s')
      end
  end.

Definition replace_blank_lines (s : string) : string :=
  replace_blank_lines_go None s.

(** [s.padStart(targetLength, fill)] for a fill string of one code unit. *)
Definition padStart (s : string) (targetLength : nat) (fill : ascii) : string :=
  string_of_list_ascii (replicate (targetLength - String.length s) fill) +:+ s.

(** [Array.from(new Set(a))]: the entries of [a] in the order of their first
    occurrence. *)
Definition set_of (a : list string) : list string :=
  foldl (fun seen x => if bool_decide (x ∈ seen) then seen else seen ++ [x])
        [] a.

End Text.

(** ** The content analyzer ([src/services/contentAnalyzer.ts])

    The two functions that [Legacy.generateTest] reaches through the
    capability [searchQueriesOf], here in full. *)

Module ContentAnalyzer.

(** [interface ContentAnalysis] *)
Record ContentAnalysis : Type := mkContentAnalysis {
  keyTopics : list string;
  concepts : list string;
  summary : string
}.

(** The test of a trimmed line in [analyzeContent]: reading [trimmed[0]] of
    an empty string gives [undefined], and calling [toUpperCase] on it throws
    a TypeError. *)
Definition looks_like_topic (trimmed : string) : Exn + bool :=
  match trimmed with
  | EmptyString =>
      inl (JsError
             "undefined is not an object (evaluating 'trimmed[0].toUpperCase')")
  | String c _ =>
      inr (Text.is_own_upper_case c
           && negb (JS.endsWith trimmed ".")
           && negb (JS.endsWith trimmed "?")
           && (length (JS.split trimmed " ") <? 15))
  end.

(** The loop [for (const line of lines)], on the mutable [keyTopics]. *)
Fixpoint scan_lines (lines : list string) (keyTopics : list string)
  : Exn + list string :=
  match lines with
  | [] => inr keyTopics
  | line :: rest =>
      if (10 <? String.length line) && (String.length line <? 150) then
        let trimmed := Text.trim line in
        match looks_like_topic trimmed with
        | inl error => inl error
        | inr true =>
            scan_lines rest
              (if bool_decide (trimmed ∈ keyTopics) then keyTopics
               else keyTopics ++ [trimmed])
        | inr false => scan_lines rest keyTopics
        end
      else scan_lines rest keyTopics
  end.

Definition analyzeContent (content : string)
    (structuredContent : option Legacy.Structured) : Exn + ContentAnalysis :=
  (* Use headings as key topics, lists as concepts *)
  let keyTopics :=
    match structuredContent with
    | Some sc =>
        List.filter (fun heading => (5 <? String.length heading)
                                    && (String.length heading <? 100))
                    (Legacy.st_headings sc)
    | None => []
    end in
  let concepts :=
    match structuredContent with
    | Some sc =>
        List.filter (fun item => (10 <? String.length item)
                                 && (String.length item <? 200))
                    (Legacy.st_lists sc)
    | None => []
    end in
  (* Extract topics from content using simple heuristics *)
  let lines :=
    List.filter (fun line => 0 <? String.length (Text.trim line))
                (JS.split content QuestionGenerator.LF) in
  match scan_lines lines keyTopics with
  | inl error => inl error
  | inr keyTopics =>
      (* Limit to top 10-15 most relevant topics *)
      let uniqueTopics := take 15 (Text.set_of keyTopics) in
      (* Generate summary (first 500 characters) *)
      let summary :=
        Text.trim (Text.replace_spaces (String.substring 0 500 content)) in
      inr {| keyTopics := uniqueTopics;
             concepts := take 20 concepts;
             summary := summary |}
  end.

Definition extractSearchQueries (analysis : ContentAnalysis) : list string :=
  List.filter (fun query => 5 <? String.length query)
    (map (fun topic =>
            Text.trim (Text.replace_spaces (Text.replace_non_word topic)))
         (keyTopics analysis)).

End ContentAnalyzer.

(** ** The clean-up of extracted text ([ContentExtractor.extractContent])

    [extractContent] takes the text of the first element that one of its
    selectors finds (cheerio's work, not modelled) and cleans up its white
    space; the clean-up is the function below. *)

Module Cleanup.

Definition clean_whitespace (content : string) : string :=
  Text.trim (Text.replace_blank_lines (Text.replace_spaces content)).

End Cleanup.

(** ** The queries of the test repository that are placeholders
    ([TestStorage.listTests], [TestStorage.getLatestSession]) *)

Module TestStorageQueries.

Definition listTests : M (list (PracticeTest string)) :=
  let* _ := TestStorage.ensureDirectoryExists in
  let tests := [] in
  ret tests.

(** Both branches return [null].  Directories are not part of the state, so
    [existsSync(sessionsDir)] is answered from the files; the result does not
    depend on the answer. *)
Definition getLatestSession (env : Env) (testId : string)
  : M (option TestSession) :=
  let sessionsDir := path_join env TestStorage.storageDir "sessions" in
  let* found := existsSync sessionsDir in
  if negb found then ret None
  else ret None.

End TestStorageQueries.

(** ** The test-taking page ([TestTaking] in
    [src/frontend/components/TestGenerator.tsx]) *)

Module TestTaking.

(** The state update of [handleAnswerChange]: a check box toggles its option
    in the array of the question, a radio button replaces the array. *)
Definition handleAnswerChange (questionId option_ : string) (isMultiple : bool)
    (prev : Answers) : Answers :=
  let currentAnswers := default [] (prev !! questionId) in
  if isMultiple then
    (* Multiple select: toggle option *)
    if bool_decide (option_ ∈ currentAnswers)
    then <[questionId :=
             List.filter (fun a => negb (String.eqb a option_)) currentAnswers]>
           prev
    else <[questionId := currentAnswers ++ [option_]]> prev
  else
    (* Multiple choice: single selection *)
    <[questionId := [option_]]> prev.

(** [Object.keys(answers).length] *)
Definition answeredCount (answers : Answers) : nat := size answers.

(** [formatTime]: [seconds] is the counter [timeElapsed], a natural number,
    and [Math.floor(seconds / 60)] the quotient of natural numbers (compared
    with the division of the numbers in [minutes_match_1_hour] below). *)
Definition formatTime (seconds : N) : string :=
  let mins := (seconds / 60)%N in
  let secs := (seconds mod 60)%N in
  pretty mins +:+ ":" +:+ Text.padStart (pretty secs) 2 "0".

End TestTaking.

(** ** The search page, when a URL is entered ([handleSearch] of
    [SearchCertification]) *)

Module SearchCertification.

(** What [handleSearch] does with the component: it shows an error, or it
    passes a study guide and a name on through [onSelectCertification]. *)
Inductive Outcome : Type :=
  | setError (message : string)
  | onSelectCertification (url name : string).

(** [url.includes(part)] *)
Definition includes (url part : string) : bool :=
  match String.index 0 part url with
  | Some _ => true
  | None => false
  end.

(** [handleSearch] in the mode ['url']. *)
Definition handleSearch (url : string) : Outcome :=
  if String.eqb (Text.trim url) ""
  then setError "Please enter a Microsoft Learn URL"
  else
    (* validate it's a Microsoft Learn URL and use it directly *)
    if negb (includes url "learn.microsoft.com")
    then setError "Please enter a valid Microsoft Learn URL"
    else
      (* Extract certification name from URL or use a default *)
      let urlParts := JS.split url "/" in
      let name :=
        match last urlParts with
        | None | Some EmptyString => "Certification"
        | Some part => part
        end in
      onSelectCertification url name.

End SearchCertification.

(** ** Notions for the statements about these parts *)

(** The text has no white space at either end. *)
Definition no_outer_space (s : string) : bool :=
  match head (list_ascii_of_string s), last (list_ascii_of_string s) with
  | Some first, Some final =>
      negb (Text.is_space first) && negb (Text.is_space final)
  | _, _ => true
  end.

(** Every white space of the text is one space character that no white space
    follows. *)
Fixpoint single_spaced (s : string) : bool :=
  match s with
  | EmptyString => true
  | String c s' =>
      (if Text.is_space c
       then Ascii.eqb c " "
            && match s' with
               | String d _ => negb (Text.is_space d)
               | EmptyString => true
               end
       else true)
      && single_spaced s'
  end.

(** The text consists of word characters and space characters. *)
Definition words_and_spaces (s : string) : bool :=
  forallb (fun c => Text.is_word c || Ascii.eqb c " ")
          (list_ascii_of_string s).

(** The entries of [score.details] that a response carries. *)
Definition response_details (r : Server.Response) : option (list Server.JSON) :=
  match Server.body r with
  | Server.JsonBody (Server.JObject fields) =>
      match Server.obj_get "score" fields with
      | Some (Server.JObject score) =>
          match Server.obj_get "details" score with
          | Some (Server.JArray details) => Some details
          | _ => None
          end
      | _ => None
      end
  | _ => None
  end.

(** The id of the question and the answer key that an entry of
    [score.details] shows. *)
Definition disclosed (detail : Server.JSON)
  : option Server.JSON * option Server.JSON :=
  match detail with
  | Server.JObject fields =>
      (Server.obj_get "questionId" fields,
       Server.obj_get "correctAnswers" fields)
  | _ => (None, None)
  end.

(** The options [clicks] of a question are clicked one after the other. *)
Definition click_all (questionId : string) (isMultiple : bool)
    (clicks : list string) (prev : Answers) : Answers :=
  foldl (fun answers option_ =>
           TestTaking.handleAnswerChange questionId option_ isMultiple answers)
        prev clicks.

(** ** Auxiliary definitions for these statements and proofs *)

(** [n] right answers out of [n] give the score 100. *)
Definition full_marks (n : nat) : bool :=
  PrimFloat.Leibniz.eqb (score_of n n) 100.

(** The response the router makes of an exception. *)
Definition error_response (error : Exn) : Server.Response :=
  Server.sendError
    match error with
    | JsError message => message
    | Thrown _ => "Internal server error"
    end 500.

(** A request [POST /api/generate-test] with the JSON body [body]. *)
Definition generate_request (body : Server.RequestBody) : Server.Request :=
  Server.mkRequest "POST" "/api/generate-test" None (inr body).

(** A request [POST /api/test/<t>/submit] with the JSON body [body]. *)
Definition submit_request (t : string) (body : Exn + Server.RequestBody)
  : Server.Request :=
  Server.mkRequest "POST" ("/api/test/" +:+ t +:+ "/submit") None body.

(** Why a sub-batch of questions fails, given the reply of the completion
    service to its request and the parser of its array, and how often the
    clock has been read by then.  The call itself failed, the reply was
    missing or empty, the reply held no array, or the array did not parse:
    the clock has not been read.  Or the callback of [parsed.map] could not
    read an entry of the array: the clock has been read once for each entry
    up to this one. *)
Definition failure_cause {R} (reply : Exn + option string)
    (parse : string -> Exn + list (Exn + R)) (cause : Exn) (readings : nat)
  : Prop :=
  (reply = inl cause /\ readings = 0)
  \/ ((reply = inr None \/ reply = inr (Some ""))
      /\ cause = JsError "No response from OpenAI" /\ readings = 0)
  \/ (exists text,
        reply = inr (Some text) /\ text <> ""
        /\ QuestionGenerator.match_json_array text = None
        /\ cause = JsError "Invalid JSON response from OpenAI"
        /\ readings = 0)
  \/ (exists text jsonMatch,
        reply = inr (Some text) /\ text <> ""
        /\ QuestionGenerator.match_json_array text = Some jsonMatch
        /\ ((parse jsonMatch = inl cause /\ readings = 0)
            \/ exists records rest,
                 parse jsonMatch = inr ((inr <$> records) ++ inl cause :: rest)
                 /\ readings = S (length records))).

(** A key topic is a text of 1 to 149 code units. *)
Definition topic_sized (topic : string) : Prop :=
  0 < String.length topic < 150.

(** The world after [n] web searches. *)
Definition searched (n : nat) (w : World) : World :=
  mkWorld (w_files w) (w_fetches w) (w_chats w) (w_clock w) (w_randoms w)
          (w_searches w + n).

(** Every page that the web search finds has a url. *)
Definition pages_have_urls (senv : Legacy.SearchEnv) : Prop :=
  forall k query pages page,
    Legacy.web_search senv k query = inr (Some pages) ->
    page ∈ pages -> is_Some (Legacy.wp_url page).

(** [Math.floor(seconds / 60)], computed on numbers as [formatTime] does,
    is the quotient of the natural numbers. *)
Definition minutes_match (seconds : nat) : bool :=
  bool_decide
    (JS.to_index (JS.Math_floor (JS.of_nat seconds / 60)%float)
     = Some (seconds / 60)).

(** ** Further data for the examples *)

Module Fixture.

Definition url : string := "https://learn.microsoft.com/az-900".

(** A body that asks for a test and leaves the number of questions out. *)
Definition generate_body : Server.RequestBody :=
  Server.mkRequestBody (Some url) (Some "AZ-900") None None.

(** A body that names no study guide. *)
Definition generate_body_no_url : Server.RequestBody :=
  Server.mkRequestBody None (Some "AZ-900") None None.

(** The answers of a candidate who is right on both questions of
    [Sample.test1], the second ticked in another order than the key. *)
Definition right_answers : Answers :=
  {[ "mc-1700000000000-0" := ["Blob Storage"];
     "ms-1700000000001-0" := ["B"; "A"] ]}.


Definition submit_body_no_answers : Server.RequestBody :=
  Server.mkRequestBody None None None None.

(** The test that [generateTest] makes in [env_store] below, as it is read
    back from its file. *)
Definition stored_test : PracticeTest string :=
  mkPracticeTest "test-1700000000002-82mvyr" "AZ-900" (Some url)
    "2023-11-14T22:13:20.000Z" 2 [Sample.q1; Sample.q2].

(** [Sample.env] with a random suffix for the id of a test, and a parser
    that reads the document of the generated test. *)
Definition env_store : Env :=
  {| http_fetch := http_fetch Sample.env;
     extractContent := extractContent Sample.env;
     chat_create := chat_create Sample.env;
     JSON_parse_choices := JSON_parse_choices Sample.env;
     JSON_parse_selects := JSON_parse_selects Sample.env;
     Date_now := Date_now Sample.env;
     toISOString := toISOString Sample.env;
     Math_random := Math_random Sample.env;
     toString36 := fun _ => "0.4fzyo82mvyr";
     path_join := path_join Sample.env;
     JSON_stringify_test := JSON_stringify_test Sample.env;
     JSON_parse_test := fun s =>
       if String.eqb s "test-1700000000002-82mvyr document"
       then inr stored_test
       else inl (JsError "JSON Parse error: Unexpected identifier");
     JSON_stringify_session := JSON_stringify_session Sample.env;
     bing_searchCertification := None |}.

(** A web search that finds one page for every query, and an analysis that
    proposes one topic. *)
Definition senv : Legacy.SearchEnv :=
  {| Legacy.web_search := fun _ _ =>
       inr (Some [Legacy.mkWebPage (Some "Storage accounts")
                    (Some "https://learn.microsoft.com/storage")
                    (Some "About storage accounts")]);
     Legacy.extractStructuredContent := fun _ =>
       Legacy.mkStructured "Azure basics" [] [] [];
     Legacy.searchQueriesOf := fun _ _ => ["Storage accounts"] |}.

(** A web search that finds the same page once and fails from then on. *)
Definition senv_failing : Legacy.SearchEnv :=
  {| Legacy.web_search := fun k _ =>
       if k <? 1
       then inr (Some [Legacy.mkWebPage (Some "Storage accounts")
                         (Some "https://learn.microsoft.com/storage")
                         (Some "About storage accounts")])
       else inl (JsError "Too Many Requests");
     Legacy.extractStructuredContent := fun _ =>
       Legacy.mkStructured "Azure basics" [] [] [];
     Legacy.searchQueriesOf := fun _ _ => ["Storage accounts"] |}.

(** A study guide of 15000 code units. *)
Definition long_guide : string :=
  string_of_list_ascii (replicate 15000 "A"%char).

(** The text of a page as cheerio hands it over: lines, indentation, and
    more than 150 code units. *)
Definition page_text : string :=
  "  Describe cloud concepts" +:+ QuestionGenerator.LF +:+ QuestionGenerator.LF
  +:+ "    Describe the benefits of using cloud services, such as high "
  +:+ "availability, scalability, reliability and predictability."
  +:+ QuestionGenerator.LF
  +:+ "    Describe cloud service types:   infrastructure, platform and "
  +:+ "software as a service." +:+ QuestionGenerator.LF.

End Fixture.

(** * Properties *)

#[local] Arguments String.append : simpl nomatch.

(** ** The order on strings and [sort] *)

Section StringOrder.

Lemma sort_perm (a : list string) : JS.sort a ≡ₚ a.
Proof. apply merge_sort_Permutation. Qed.

Lemma sort_sorted (a : list string) : Sorted JS.str_le (JS.sort a).
Proof. apply (Sorted_merge_sort String.le). Qed.

(** Any sorted rearrangement of an array is the array [sort] returns: the
    result does not depend on the algorithm. *)
Lemma sort_unique (a l : list string) :
  Sorted JS.str_le l -> l ≡ₚ a -> l = JS.sort a.
Proof.
  intros Hs Hp. apply (Sorted_unique String.le); [done | apply sort_sorted |].
  by rewrite Hp, sort_perm.
Qed.

Lemma sort_eq_iff (a b : list string) : JS.sort a = JS.sort b <-> a ≡ₚ b.
Proof.
  split.
  - intros E. by rewrite <- (sort_perm a), E, sort_perm.
  - intros Hp. apply sort_unique; [apply sort_sorted |].
    by rewrite sort_perm.
Qed.

End StringOrder.

(** ** [join] reads back unambiguously on plain strings *)

Section Join.

Lemma append_empty_r (s : string) : s +:+ "" = s.
Proof. induction s as [|c s IH]; simpl; [done | by rewrite IH]. Qed.

Lemma join_cons (sep x : string) (rest : list string) :
  JS.join sep (x :: rest)
  = x +:+ match rest with [] => "" | _ :: _ => sep +:+ JS.join sep rest end.
Proof. destruct rest; simpl; [by rewrite append_empty_r | done]. Qed.

(** A piece without the separator is read back unambiguously. *)
Lemma lacks_prefix_unique (c : ascii) (a b r1 r2 : string) :
  lacks c a -> lacks c b -> after c r1 -> after c r2 ->
  a +:+ r1 = b +:+ r2 -> a = b /\ r1 = r2.
Proof.
  revert b. induction a as [|x a IH]; intros [|y b] Ha Hb H1 H2; simpl.
  - done.
  - intros ->. destruct Hb as [Hy _].
    destruct H1 as [?|[r' ?]]; simplify_eq.
  - intros <-. destruct Ha as [Hx _].
    destruct H2 as [?|[r' ?]]; simplify_eq.
  - intros [= -> E]. destruct Ha as [_ Ha], Hb as [_ Hb].
    destruct (IH b Ha Hb H1 H2 E) as [-> ->]. done.
Qed.

Lemma after_comma_tail (rest : list string) :
  after JS.comma
    match rest with [] => "" | _ :: _ => "," +:+ JS.join "," rest end.
Proof. destruct rest; [by left | right; eauto]. Qed.

Lemma join_plain_inj (a b : list string) :
  Forall plain a -> Forall plain b ->
  JS.join "," a = JS.join "," b -> a = b.
Proof.
  revert b. induction a as [|x a IH]; intros [|y b] Ha Hb.
  - done.
  - rewrite join_cons. simpl. intros E. apply Forall_cons in Hb as [[Hy _] _].
    destruct y; [done | discriminate].
  - rewrite join_cons. simpl. intros E. apply Forall_cons in Ha as [[Hx _] _].
    destruct x; [done | discriminate].
  - rewrite !join_cons. intros E.
    apply Forall_cons in Ha as [[_ Hx] Ha], Hb as [[_ Hy] Hb].
    apply (lacks_prefix_unique JS.comma) in E as [-> E];
      [| done | done | apply after_comma_tail..].
    f_equal. destruct a as [|x' a], b as [|y' b]; try done.
    injection E as E. by apply IH.
Qed.

End Join.

(** ** The scorer *)

Section ScorerFacts.

Import Scorer.

(** On plain answer strings the comparison of [calculateScore] holds exactly
    when the two arrays are rearrangements of each other. *)
Lemma isCorrect_iff_perm (userAnswers correctAnswers : list string) :
  Forall plain userAnswers -> Forall plain correctAnswers ->
  isCorrect userAnswers correctAnswers = true
  <-> userAnswers ≡ₚ correctAnswers.
Proof.
  intros Hu Hc. unfold isCorrect. rewrite String.eqb_eq, <- sort_eq_iff.
  split; [| by intros ->].
  apply join_plain_inj.
  - by rewrite sort_perm.
  - by rewrite sort_perm.
Qed.

(** On duplicate-free arrays of plain strings, it holds exactly when the two
    arrays are equal as sets: the order does not matter, and a subset of the
    answer key earns nothing. *)
Lemma isCorrect_iff_same_set (userAnswers correctAnswers : list string) :
  Forall plain userAnswers -> Forall plain correctAnswers ->
  NoDup userAnswers -> NoDup correctAnswers ->
  isCorrect userAnswers correctAnswers = true
  <-> same_set userAnswers correctAnswers.
Proof.
  intros Hu Hc Du Dc. rewrite isCorrect_iff_perm by done. split.
  - intros Hp x. by rewrite Hp.
  - intros Hs. by apply NoDup_Permutation.
Qed.

Example isCorrect_any_order :
  isCorrect ["B"; "A"; "C"] ["C"; "A"; "B"] = true.
Proof. reflexivity. Qed.

Example isCorrect_no_partial_credit : isCorrect ["A"] ["A"; "B"] = false.
Proof. reflexivity. Qed.

(** The arrays are compared entry by entry once sorted: a repeated entry
    counts. *)
Example isCorrect_repeated_entry : isCorrect ["A"; "A"] ["A"] = false.
Proof. reflexivity. Qed.

Lemma score_loop (answers : Answers) (qs : list (Question string))
    (st : nat * list Detail) :
  foldl (score_step answers) st qs
  = (fst st + length (filter (fun d => d_correct d = true)
                        (map (detail_of answers) qs)),
     snd st ++ map (detail_of answers) qs).
Proof.
  revert st. induction qs as [|q qs IH]; intros [correct details].
  - simpl. by rewrite Nat.add_0_r, app_nil_r.
  - simpl. rewrite IH. unfold score_step. simpl.
    rewrite <- app_assoc. simpl. f_equal.
    rewrite filter_cons. unfold detail_of at 2. simpl.
    destruct (isCorrect _ _); simpl; [lia | done].
Qed.

(** [details] has one entry per question, in the order of the test, and
    [correct] counts the entries marked correct. *)
Lemma calculateScore_details (test : PracticeTest string) (answers : Answers) :
  s_details (calculateScore test answers)
  = map (detail_of answers) (t_questions test)
  /\ s_correct (calculateScore test answers)
     = length (filter (fun d => d_correct d = true)
                 (s_details (calculateScore test answers))).
Proof.
  unfold calculateScore. simpl. rewrite score_loop. simpl. done.
Qed.

(** A question whose id is missing from the submission is scored against the
    empty array; nothing is thrown ([calculateScore] is a total function). *)
Lemma missing_id_is_empty (answers : Answers) (q : Question string) :
  answers !! q_id q = None ->
  detail_of answers q
  = mkDetail (q_id q) (isCorrect [] (q_correctAnswers q)) []
      (q_correctAnswers q).
Proof. intros Hm. unfold detail_of, userAnswersOf. by rewrite Hm. Qed.

(** The counts: [total] is the number of questions, [correct] is at most
    [total], and [incorrect] is the difference. *)
Lemma calculateScore_counts (test : PracticeTest string) (answers : Answers) :
  s_total (calculateScore test answers) = length (t_questions test)
  /\ s_correct (calculateScore test answers) <= length (t_questions test)
  /\ s_incorrect (calculateScore test answers)
     = (Z.of_nat (s_total (calculateScore test answers))
        - Z.of_nat (s_correct (calculateScore test answers)))%Z
  /\ s_score (calculateScore test answers)
     = JS.Math_round
         (JS.of_nat (s_correct (calculateScore test answers))
          / JS.of_nat (s_total (calculateScore test answers)) * 100)%float.
Proof.
  unfold calculateScore. simpl. rewrite score_loop. simpl.
  split; [done |]. split; [| done].
  etrans; [apply length_filter |]. by rewrite length_map.
Qed.

End ScorerFacts.

(** ** Claims about the scorer *)

Section ScorerClaims.

Import Scorer.

(** C1.  The specification marks a question correct exactly when the
    submitted answers and [correctAnswers] are equal as sets.
    [calculateScore] compares the comma-joined sorted arrays instead, so the
    single submitted string ["A,B"] is marked correct against the answer key
    [["A"; "B"]], although the two sets differ (the first question, whose id
    is missing from the submission, is scored against the empty array and
    marked wrong). *)
Theorem calculateScore_comma_collision :
  s_details (calculateScore Sample.test1 Sample.joined_answers)
  = [mkDetail (q_id Sample.q1) false [] (q_correctAnswers Sample.q1);
     mkDetail (q_id Sample.q2) true ["A,B"] ["A"; "B"]]
  /\ ~ same_set ["A,B"] ["A"; "B"].
Proof.
  split; [by vm_compute |].
  intros Hs. assert (Hin : "A" ∈ ["A,B"]) by (apply Hs; set_solver).
  apply list_elem_of_singleton in Hin. discriminate.
Qed.

(** C5.  The specification wants an integer score between 0 and 100 for
    every test.  For a test without questions [calculateScore] divides zero
    by zero and the score is NaN. *)
Theorem calculateScore_empty_test_nan
    (test : PracticeTest string) (answers : Answers) :
  t_questions test = [] ->
  s_total (calculateScore test answers) = 0
  /\ s_correct (calculateScore test answers) = 0
  /\ s_score (calculateScore test answers) = nan.
Proof. intros He. unfold calculateScore. rewrite He. by vm_compute. Qed.

Lemma calculateScore_empty_test_nan_witness :
  t_questions Sample.test0 = []
  /\ s_score (calculateScore Sample.test0 ∅) = nan.
Proof.
  split; [reflexivity |].
  apply (calculateScore_empty_test_nan Sample.test0 ∅). reflexivity.
Defined.

(** A test without questions can be generated and stored: a negative
    [questionCount] makes both sub-batch counts non-positive, no completion
    is requested, and the empty test is written. *)
Lemma generateTest_negative_count :
  let r := APIRoutes.generateTest Sample.env
             "https://learn.microsoft.com/az-900" "AZ-900" (-1) Sample.w0 in
  (exists test, fst r = inr test /\ t_questions test = [])
  /\ w_chats (snd r) = []
  /\ w_files (snd r)
     !! Sample.join TestStorage.storageDir "test-1700000000000-.json"
     = Some "test-1700000000000- document".
Proof. split; [eexists; split; by vm_compute | by vm_compute]. Qed.

(** The product [(correct / total) * 100] is computed in binary64: with 23
    of 40 questions right it is 57.49999999999999 and the score is 57,
    where rounding the exact 57.5 half-up gives 58. *)
Lemma calculateScore_23_of_40 :
  s_correct (calculateScore Sample.test40 (Sample.first_right 23)) = 23
  /\ s_total (calculateScore Sample.test40 (Sample.first_right 23)) = 40
  /\ s_score (calculateScore Sample.test40 (Sample.first_right 23)) = 57%float
  /\ ((2 * (23 * 100) + 40) / (2 * 40) = 58)%Z.
Proof. by vm_compute. Qed.

(** For tests of 1 to 200 questions the score is an integer between 0
    and 100 (by evaluation of all cases). *)
Lemma score_in_range_200 (correct total : nat) :
  1 <= total <= 200 -> correct <= total ->
  exists z, JS.to_index (score_of correct total) = Some z /\ z <= 100.
Proof.
  intros Ht Hc.
  assert (Hall : forallb (fun t => forallb (fun c => score_in_range c t)
                                     (seq 0 (S t))) (seq 1 200) = true)
    by (vm_compute; reflexivity).
  rewrite forallb_forall in Hall.
  specialize (Hall total). rewrite forallb_forall in Hall.
  assert (Hr : score_in_range correct total = true).
  { apply Hall; apply in_seq; lia. }
  unfold score_in_range in Hr.
  destruct (JS.to_index (score_of correct total)) as [z|]; [| done].
  exists z. split; [done |]. by apply Nat.leb_le.
Qed.

End ScorerClaims.

(** ** Computations *)

Section Computations.


Lemma bind_inl {A B} (m : M A) (k : A -> M B) (w w' : World) (e : Exn) :
  bind m k w = (inl e, w')
  <-> m w = (inl e, w')
      \/ exists a w1, m w = (inr a, w1) /\ k a w1 = (inl e, w').
Proof.
  unfold bind. destruct (m w) as [[e0|a] w1].
  - split; [intros [= -> ->]; by left |].
    intros [[= -> ->] | (a' & w2 & H & _)]; [done | discriminate H].
  - split; [eauto |]. intros [? | (a' & w2 & [= -> ->] & Hk)]; done.
Qed.

Lemma ticked_0 (w : World) : ticked 0 w = w.
Proof. destruct w. unfold ticked. simpl. by rewrite Nat.add_0_r. Qed.

Lemma ticked_ticked (n m : nat) (w : World) :
  ticked n (ticked m w) = ticked (m + n) w.
Proof. unfold ticked. simpl. f_equal. lia. Qed.

Lemma drew_0 (w : World) : drew 0 w = w.
Proof. destruct w. unfold drew. simpl. by rewrite Nat.add_0_r. Qed.

Lemma drew_drew (n m : nat) (w : World) :
  drew n (drew m w) = drew (m + n) w.
Proof. unfold drew. simpl. f_equal. lia. Qed.

(** The shape of the entries in terms of what can be read of them. *)
Lemma readable_shape {R} (parsed : list (Exn + R)) :
  match readable parsed with
  | (records, None) => parsed = inr <$> records
  | (records, Some e) =>
      exists rest, parsed = (inr <$> records) ++ inl e :: rest
  end.
Proof.
  induction parsed as [|[e|q] parsed IH]; cbn [readable];
    [done | by exists parsed |].
  destruct (readable parsed) as [records [e|]].
  - destruct IH as [rest ->]. by exists rest.
  - by rewrite IH.
Qed.

Lemma readable_stops {R} (records : list R) (e : Exn) (rest : list (Exn + R)) :
  readable ((inr <$> records) ++ inl e :: rest) = (records, Some e).
Proof.
  induction records as [|q records IH]; [done |].
  rewrite fmap_cons. cbn [readable app]. by rewrite IH.
Qed.

(** The callbacks of [parsed.map] run in order; each reads the clock once,
    and the first that cannot read its entry throws. *)
Lemma mapM_stamped {R Q} (env : Env) (build : N -> nat -> R -> Q)
    (parsed : list (Exn + R)) (i0 : nat) (w : World) :
  mapM_index (stamped env build) i0 parsed w
  = match readable parsed with
    | (records, None) =>
        (inr (imap (fun k q => build (Date_now env (w_clock w + k)) (i0 + k) q)
                   records),
         ticked (length records) w)
    | (records, Some e) => (inl e, ticked (S (length records)) w)
    end.
Proof.
  revert i0 w. induction parsed as [|[e|q] parsed IH]; intros i0 w.
  - simpl. unfold ret. by rewrite ticked_0.
  - simpl. unfold bind at 1, stamped at 1, bind at 1, now, lift.
    unfold bind. unfold ticked. simpl. do 2 f_equal. lia.
  - simpl. unfold bind at 1, stamped at 1, bind at 1, now, lift.
    unfold bind at 1, ret at 1. unfold bind at 1. rewrite IH.
    destruct (readable parsed) as [records [e|]]; unfold ret; simpl.
    + unfold ticked. simpl. do 2 f_equal. lia.
    + rewrite !Nat.add_0_r. f_equal.
      * f_equal. f_equal. apply imap_ext. intros k x _. simpl.
        by rewrite <- !Nat.add_succ_r.
      * unfold ticked. simpl. f_equal. lia.
Qed.

End Computations.

(** ** The question generator *)

Section GeneratorFacts.

Import QuestionGenerator.

Context (env : Env).

(** Whatever the reply, exactly the one request has been sent. *)
Lemma reply_json_world (request : ChatRequest) (w : World) :
  exists r, reply_json env request w = (r, sent request w).
Proof.
  unfold reply_json, bind, chat. fold (sent request w).
  destruct (chat_create env (length (w_chats w)) request) as [e|[content|]];
    [eauto | | unfold throw; eauto].
  destruct content as [|c content]; [unfold throw; eauto |].
  destruct (match_json_array (String c content));
    unfold ret, throw; eauto.
Qed.

(** The array is found inside prose; the match runs to the last closing
    bracket of the reply. *)
Example match_json_array_in_prose :
  match_json_array "Here you are: [1, [2]] Good luck!" = Some "[1, [2]]".
Proof. reflexivity. Qed.

Example match_json_array_greedy :
  match_json_array "[1] and then [2]." = Some "[1] and then [2]".
Proof. reflexivity. Qed.

Example match_json_array_none :
  match_json_array "I cannot help with that." = None.
Proof. reflexivity. Qed.

(** A sub-batch generator sends its request, then either throws an [Error]
    whose message starts with "Failed to generate questions: ", or returns
    one question per entry of the parsed array, the [k]-th with index [k];
    the clock is read once for each entry tried.  What it returns is built
    from the entries that it has read in the reply. *)
Lemma batch_spec {R} (kind : QuestionType)
    (parse : string -> Exn + list (Exn + R))
    (build : N -> nat -> R -> Question Entry)
    (content : string) (count : float) (w : World) :
  let request := mkChatRequest kind count (String.substring 0 15000 content) in
  (exists e n,
     batch env kind parse build content count w
     = (inl (JsError ("Failed to generate questions: " +:+ error_message e)),
        ticked n (sent request w)))
  \/ (exists jsonMatch parsed,
        reply_json env request w = (inr jsonMatch, sent request w)
        /\ parse jsonMatch = inr (inr <$> parsed)
        /\ batch env kind parse build content count w
           = (inr (imap (fun k q =>
                           build (Date_now env (w_clock w + k)) k q) parsed),
              ticked (length parsed) (sent request w))).
Proof.
  intros request. unfold batch. fold request. unfold try_catch, bind.
  destruct (reply_json_world request w) as [[e|jsonMatch] Hreply];
    rewrite Hreply.
  { left. exists e, 0. by rewrite ticked_0. }
  unfold lift. destruct (parse jsonMatch) as [e|parsed] eqn:Hp.
  { left. exists e, 0. by rewrite ticked_0. }
  rewrite mapM_stamped. pose proof (readable_shape parsed) as Hshape.
  destruct (readable parsed) as [records [e|]].
  - left. by exists e, (S (length records)).
  - right. exists jsonMatch, records. by rewrite <- Hshape.
Qed.

Lemma generateMultipleChoiceQuestions_batch (content : string) (count : float) :
  generateMultipleChoiceQuestions env content count
  = batch env multiple_choice (JSON_parse_choices env) mk_choice content count.
Proof. reflexivity. Qed.

Lemma generateMultipleSelectQuestions_batch (content : string) (count : float) :
  generateMultipleSelectQuestions env content count
  = batch env multiple_select (JSON_parse_selects env) mk_select content count.
Proof. reflexivity. Qed.

(** The exchange of two entries rearranges the array. *)
Lemma swap_perm {T} (shuffled : list T) (i j : nat) :
  swap shuffled i j ≡ₚ shuffled.
Proof.
  unfold swap.
  destruct (shuffled !! i) as [x|] eqn:Hi; [| done].
  destruct (shuffled !! j) as [y|] eqn:Hj; [| done].
  by apply Permutation_insert_swap.
Qed.

Lemma random_spec (w : World) :
  random env w = (inr (Math_random env (w_randoms w)), drew 1 w).
Proof. unfold random, drew. do 2 f_equal. lia. Qed.

(** The loop of the shuffle draws once per iteration, never throws, and
    rearranges the array. *)
Lemma shuffle_loop_spec {T} (n : nat) (shuffled : list T) (w : World) :
  exists result,
    shuffle_loop env n shuffled w = (inr result, drew n w)
    /\ result ≡ₚ shuffled.
Proof.
  revert shuffled w. induction n as [|n IH]; intros shuffled w.
  - exists shuffled. simpl. unfold ret. by rewrite drew_0.
  - simpl. unfold bind. rewrite random_spec.
    match goal with
    | |- context [shuffle_loop env n ?l (drew 1 w)] =>
        destruct (IH l (drew 1 w)) as (result & -> & Hp); exists result;
        rewrite drew_drew; split; [done |]; rewrite Hp
    end.
    destruct (random_index _ _); [apply swap_perm | done].
Qed.

Lemma shuffleArray_spec {T} (array : list T) (w : World) :
  exists result,
    shuffleArray env array w = (inr result, drew (length array - 1) w)
    /\ result ≡ₚ array.
Proof. apply shuffle_loop_spec. Qed.

End GeneratorFacts.

(** ** The structure of [generateQuestions] *)

Section GenerateQuestions.

Import QuestionGenerator.

Context (env : Env).

(** [generateQuestions] runs the two sub-batches in order and shuffles what
    they return. *)
Lemma generateQuestions_unfold (studyGuideContent : string)
    (webContent : list WebContent) (questionCount : float) (w : World) :
  generateQuestions env studyGuideContent webContent questionCount w
  = (let combinedContent := combinedContentOf studyGuideContent webContent in
     let* mcQuestions :=
       sub_batch (multipleChoiceCountOf questionCount)
         (generateMultipleChoiceQuestions env combinedContent) in
     let* msQuestions :=
       sub_batch (multipleSelectCountOf questionCount)
         (generateMultipleSelectQuestions env combinedContent) in
     shuffleArray env (mcQuestions ++ msQuestions)) w.
Proof.
  unfold generateQuestions, sub_batch. cbv zeta.
  generalize (generateMultipleChoiceQuestions env
                (combinedContentOf studyGuideContent webContent)
                (multipleChoiceCountOf questionCount)).
  generalize (generateMultipleSelectQuestions env
                (combinedContentOf studyGuideContent webContent)
                (multipleSelectCountOf questionCount)).
  intros ms mc. unfold bind, ret.
  destruct (0 <? multipleChoiceCountOf questionCount)%float.
  - destruct (mc w) as [[e|mcq] w1]; [done |].
    destruct (0 <? multipleSelectCountOf questionCount)%float;
      [| by rewrite app_nil_r].
    by destruct (ms w1) as [[e|msq] w2].
  - destruct (0 <? multipleSelectCountOf questionCount)%float; [| done].
    by destruct (ms w) as [[e|msq] w2].
Qed.

(** The outcome of a sub-batch, whatever its kind: it changes no file and
    draws no random number; it sends its request exactly when its count is
    positive; what it returns is built, in order, from the entries read in
    the reply. *)
Lemma sub_batch_spec {R} (kind : QuestionType)
    (parse : string -> Exn + list (Exn + R))
    (build : N -> nat -> R -> Question Entry)
    (content : string) (count : float) (w w' : World)
    (r : Exn + list (Question Entry)) :
  let request := mkChatRequest kind count (String.substring 0 15000 content) in
  sub_batch count (batch env kind parse build content) w = (r, w') ->
  w_files w' = w_files w
  /\ w_randoms w' = w_randoms w
  /\ w_fetches w' = w_fetches w
  /\ match r with
     | inl e =>
         w_chats w' = w_chats w ++ [request]
         /\ (0 <? count)%float = true
         /\ exists e0,
              e = JsError ("Failed to generate questions: "
                           +:+ error_message e0)
     | inr qs =>
         w_chats w'
         = w_chats w ++ (if (0 <? count)%float then [request] else [])
         /\ exists parsed,
              qs = imap (fun k q =>
                           build (Date_now env (w_clock w + k)) k q) parsed
              /\ entries_read env parse kind content count w
                 = inr <$> parsed
     end.
Proof.
  intros request. unfold sub_batch, entries_read. fold request.
  destruct (0 <? count)%float.
  - destruct (batch_spec env kind parse build content count w)
      as [(e & n & ->) | (jsonMatch & parsed & Hreply & Hp & ->)];
      intros [= <- <-].
    + repeat split; eauto.
    + repeat split; try done. exists parsed. split; [done |].
      fold request in Hreply. by rewrite Hreply, Hp.
  - intros [= <- <-]. repeat split; try done.
    + by rewrite app_nil_r.
    + by exists [].
Qed.

(** Everything a run of [generateQuestions] does.  No file is touched in
    either case.  When it throws, the error is the wrapped error of a
    sub-batch, and the requests sent are the first of those planned.  When it
    returns, all planned requests have been sent and the result is a
    rearrangement of the questions built from the entries read in the two
    replies, the multiple-choice ones with indices 0, 1, ... and the
    multiple-select ones with indices 0, 1, ... *)
Lemma generateQuestions_spec (studyGuideContent : string)
    (webContent : list WebContent) (questionCount : float) (w w' : World)
    (r : Exn + list (Question Entry)) :
  let content :=
    String.substring 0 15000
      (combinedContentOf studyGuideContent webContent) in
  generateQuestions env studyGuideContent webContent questionCount w = (r, w')
  ->
  w_files w' = w_files w
  /\ w_fetches w' = w_fetches w
  /\ match r with
     | inl e =>
         (exists e0,
            e = JsError ("Failed to generate questions: "
                         +:+ error_message e0))
         /\ exists requests,
              w_chats w' = w_chats w ++ requests
              /\ requests `prefix_of` planned_requests questionCount content
     | inr qs =>
         w_chats w' = w_chats w ++ planned_requests questionCount content
         /\ exists choices selects t1 t2,
              qs ≡ₚ imap (fun k q => mk_choice (t1 k) k q) choices
                    ++ imap (fun k q => mk_select (t2 k) k q) selects
              /\ choices_read env studyGuideContent webContent questionCount w
                 = inr <$> choices
              /\ selects_read env studyGuideContent webContent questionCount w
                 = inr <$> selects
     end.
Proof.
  intros content. rewrite generateQuestions_unfold. cbv zeta.
  unfold planned_requests, choices_read, selects_read. cbv zeta.
  fold content.
  set (mc := multipleChoiceCountOf questionCount).
  set (ms := multipleSelectCountOf questionCount).
  unfold bind.
  destruct (sub_batch mc _ w) as [[e|mcq] w1] eqn:H1;
    apply (sub_batch_spec multiple_choice (JSON_parse_choices env) mk_choice)
      in H1 as (Hf1 & Hr1 & Hn1 & H1); fold content in H1.
  { intros [= <- <-]. destruct H1 as (Hc & Hpos & He).
    repeat split; try done. exists [mkChatRequest multiple_choice mc content].
    split; [done |]. rewrite Hpos. by apply prefix_app_r. }
  destruct H1 as (Hc1 & choices & -> & Hchoices).
  destruct (sub_batch ms _ w1) as [[e|msq] w2] eqn:H2;
    apply (sub_batch_spec multiple_select (JSON_parse_selects env) mk_select)
      in H2 as (Hf2 & Hr2 & Hn2 & H2); fold content in H2.
  { intros [= <- <-]. destruct H2 as (Hc & Hpos & He).
    repeat split; try congruence.
    eexists. split; [by rewrite Hc, Hc1, <- app_assoc |]. by rewrite Hpos. }
  destruct H2 as (Hc2 & selects & -> & Hselects).
  match goal with
  | |- context [shuffleArray env ?l w2] =>
      destruct (shuffleArray_spec env l w2) as (result & -> & Hp)
  end.
  intros [= <- <-]. simpl. repeat split; try congruence.
  - by rewrite Hc2, Hc1, <- app_assoc.
  - exists choices, selects,
      (fun k => Date_now env (w_clock w + k)),
      (fun k => Date_now env (w_clock w1 + k)).
    done.
Qed.

End GenerateQuestions.

(** ** Question ids *)

Section Ids.

(** The decimal text of a number consists of digits. *)
Lemma pretty_N_go_lacks (c : ascii) (x : N) (s : string) :
  (forall d, pretty_N_char d <> c) -> lacks c s -> lacks c (pretty_N_go x s).
Proof.
  intros Hc. revert s. induction (N.lt_wf_0 x) as [x _ IH]; intros s Hs.
  destruct (decide (x = 0)%N) as [-> | Hx].
  - by rewrite pretty_N_go_0.
  - rewrite pretty_N_go_step by lia. apply IH.
    + apply N.div_lt; lia.
    + by split.
Qed.

Lemma pretty_N_lacks (c : ascii) (n : N) :
  (forall d, pretty_N_char d <> c) -> lacks c (pretty n).
Proof.
  intros Hc. unfold pretty, pretty_N. case_decide.
  - split; [| done]. apply (Hc 0%N).
  - by apply pretty_N_go_lacks.
Qed.

Lemma digit_not_dash (d : N) : pretty_N_char d <> dash.
Proof. unfold pretty_N_char, dash. by repeat case_match. Qed.

Lemma digit_not_slash (d : N) : pretty_N_char d <> JS.slash.
Proof. unfold pretty_N_char, JS.slash. by repeat case_match. Qed.

(** The decimal text of a number has no dash. *)
Lemma pretty_N_lacks_dash (n : N) : lacks dash (pretty n).
Proof. apply pretty_N_lacks, digit_not_dash. Qed.

Lemma lacks_append (c : ascii) (a b : string) :
  lacks c a -> lacks c b -> lacks c (a +:+ b).
Proof. induction a as [|x a IH]; simpl; [done | intros [? ?] ?; auto]. Qed.

Lemma lacks_substring (c : ascii) (n m : nat) (s : string) :
  lacks c s -> lacks c (String.substring n m s).
Proof.
  revert n m. induction s as [|x s IH]; intros [|n] [|m]; simpl; try done.
  - intros [? ?]. auto.
  - intros [? ?]. auto.
  - intros [? ?]. auto.
Qed.

(** An id determines the index it ends with. *)
Lemma id_index_inj (prefix : string) (t1 t2 : N) (i j : nat) :
  prefix +:+ pretty t1 +:+ "-" +:+ pretty i
  = prefix +:+ pretty t2 +:+ "-" +:+ pretty j ->
  i = j.
Proof.
  intros E. apply (inj (String.append prefix)) in E.
  apply (lacks_prefix_unique dash) in E as [_ E];
    [| apply pretty_N_lacks_dash.. | right; eauto | right; eauto].
  injection E as E. by apply (inj pretty) in E.
Qed.

(** The ids of a sub-batch are pairwise distinct. *)
Lemma batch_ids_NoDup {R} (prefix : string) (t : nat -> N)
    (build : N -> nat -> R -> Question Entry) (parsed : list R) :
  (forall t k q, q_id (build t k q) = prefix +:+ pretty t +:+ "-" +:+ pretty k) ->
  NoDup (map q_id (imap (fun k q => build (t k) k q) parsed)).
Proof.
  intros Hid. apply NoDup_alt. intros i j x.
  rewrite !list_lookup_fmap, !list_lookup_imap.
  destruct (parsed !! i) as [qi|]; [| done].
  destruct (parsed !! j) as [qj|]; [| done].
  simpl. rewrite !Hid. intros [= <-] [= E]. symmetry. by eapply id_index_inj.
Qed.

Lemma batch_ids_prefix {R} (prefix : string) (t : nat -> N)
    (build : N -> nat -> R -> Question Entry) (parsed : list R)
    (x : string) :
  (forall t k q, q_id (build t k q) = prefix +:+ pretty t +:+ "-" +:+ pretty k) ->
  x ∈ map q_id (imap (fun k q => build (t k) k q) parsed) ->
  exists (t : N) (k : nat), x = prefix +:+ pretty t +:+ "-" +:+ pretty k.
Proof.
  intros Hid (q & -> & Hq)%list_elem_of_fmap.
  apply elem_of_lookup_imap_1 in Hq as (k & r & -> & _).
  rewrite Hid. eauto.
Qed.

End Ids.

(** ** Claims about the question generator *)

Section GeneratorClaims.

Import QuestionGenerator.

(** C8.  [generateQuestions] asks for [Math.floor(questionCount * 0.6)]
    single-answer questions and for the rest of [questionCount] as
    multi-answer questions, in this order; a sub-batch whose count is not
    positive is skipped: no completion request is sent for it.  Whatever the
    outcome of the run, the requests sent are the first of the planned ones,
    and all of them when the run returns. *)
Theorem generateQuestions_requests (env : Env) (studyGuideContent : string)
    (webContent : list WebContent) (questionCount : float) (w w' : World)
    (r : Exn + list (Question Entry)) :
  generateQuestions env studyGuideContent webContent questionCount w = (r, w')
  ->
  let content :=
    String.substring 0 15000
      (combinedContentOf studyGuideContent webContent) in
  let mc := JS.Math_floor (questionCount * 0x1.3333333333333p-1)%float in
  let ms := (questionCount - mc)%float in
  let planned :=
    (if (0 <? mc)%float then [mkChatRequest multiple_choice mc content]
     else [])
    ++ (if (0 <? ms)%float then [mkChatRequest multiple_select ms content]
        else []) in
  exists requests,
    w_chats w' = w_chats w ++ requests
    /\ requests `prefix_of` planned
    /\ match r with inr _ => requests = planned | inl _ => True end.
Proof.
  intros Hrun. apply generateQuestions_spec in Hrun as (_ & _ & Hrun).
  cbv zeta. destruct r as [e|qs].
  - destruct Hrun as (_ & requests & Hc & Hp). by exists requests.
  - destruct Hrun as (Hc & _). eexists. split; [exact Hc |]. done.
Qed.

Lemma generateQuestions_requests_witness :
  generateQuestions Sample.env "guide" [] 2 Sample.w0
  = (inr Sample.generated, Sample.w_generated)
  /\ exists requests,
       w_chats Sample.w_generated = w_chats Sample.w0 ++ requests
       /\ requests `prefix_of` planned_requests 2 Sample.prompt_content
       /\ requests = planned_requests 2 Sample.prompt_content.
Proof.
  assert (Hrun : generateQuestions Sample.env "guide" [] 2 Sample.w0
                 = (inr Sample.generated, Sample.w_generated))
    by (vm_compute; reflexivity).
  split; [exact Hrun |].
  exact (generateQuestions_requests _ _ _ _ _ _ _ Hrun).
Defined.

(** One question: the single-answer count is 0 and its sub-batch is
    skipped; the one request asks for a multi-answer question. *)
Example generateQuestions_one_question :
  w_chats (snd (generateQuestions Sample.env "guide" [] 1 Sample.w0))
  = [mkChatRequest multiple_select 1 Sample.prompt_content].
Proof. vm_compute. reflexivity. Qed.

(** For a count of 0 to 1000 questions the two numbers asked for are the
    integers 3n/5 (rounded down) and n - 3n/5 (by evaluation of all
    cases). *)
Lemma split_matches_1000 (n : nat) :
  n <= 1000 ->
  requested (multipleChoiceCountOf (JS.of_nat n)) = Some (3 * n / 5)
  /\ requested (multipleSelectCountOf (JS.of_nat n)) = Some (n - 3 * n / 5).
Proof.
  intros Hn.
  assert (Hall : forallb split_matches (seq 0 1001) = true)
    by (vm_compute; reflexivity).
  rewrite forallb_forall in Hall.
  assert (Hm : split_matches n = true) by (apply Hall, in_seq; lia).
  by apply bool_decide_eq_true in Hm.
Qed.



(** *** The Fisher-Yates procedure reaches every rearrangement once *)













(** C10.  Within a generated test the question ids are pairwise distinct:
    a single-answer id is "mc-", the clock reading, a dash and the index of
    the record in its sub-batch; a multi-answer id is the same with "ms-";
    the prefix separates the sub-batches and the index the questions of a
    sub-batch.  (The draws of the shuffle are taken in range, as for C9.) *)
Theorem generateQuestions_ids_distinct (env : Env)
    (studyGuideContent : string) (webContent : list WebContent)
    (questionCount : float) (w w' : World)
    (qs : list (Question Entry)) :
  generateQuestions env studyGuideContent webContent questionCount w
  = (inr qs, w') ->
  draws_in_range env w (length qs) ->
  NoDup (map q_id qs)
  /\ Forall (fun q =>
               exists (t : N) (index : nat),
                 q_id q = match q_type q with
                          | multiple_choice => "mc-"
                          | multiple_select => "ms-"
                          end +:+ pretty t +:+ "-" +:+ pretty index) qs.
Proof.
  intros Hrun _. apply generateQuestions_spec in Hrun as (_ & _ & _ & Hrun).
  destruct Hrun as (choices & selects & t1 & t2 & Hp & _ & _).
  rewrite Hp. split.
  - rewrite map_app. apply NoDup_app. split_and!.
    + by apply (batch_ids_NoDup "mc-").
    + intros x Hmc Hms.
      apply (batch_ids_prefix "mc-") in Hmc as (t & k & ->); [| done].
      apply (batch_ids_prefix "ms-") in Hms as (t' & k' & Hx); [| done].
      discriminate Hx.
    + by apply (batch_ids_NoDup "ms-").
  - apply Forall_app. split; apply Forall_forall; intros q Hq;
      apply elem_of_lookup_imap_1 in Hq as (k & r & -> & _); simpl; eauto.
Qed.

Lemma generateQuestions_ids_distinct_witness :
  generateQuestions Sample.env "guide" [] 2 Sample.w0
  = (inr Sample.generated, Sample.w_generated)
  /\ draws_in_range Sample.env Sample.w0 (length Sample.generated)
  /\ NoDup (map q_id Sample.generated).
Proof.
  assert (Hrun : generateQuestions Sample.env "guide" [] 2 Sample.w0
                 = (inr Sample.generated, Sample.w_generated))
    by (vm_compute; reflexivity).
  assert (Hdraws : draws_in_range Sample.env Sample.w0
                     (length Sample.generated)).
  { intros m Hm. simpl in Hm. exists 1.
    destruct m as [|m]; [vm_compute; split; [reflexivity | lia] | lia]. }
  split; [exact Hrun |]. split; [exact Hdraws |].
  exact (proj1 (generateQuestions_ids_distinct _ _ _ _ _ _ _ Hrun Hdraws)).
Defined.

(** A key that denotes an index of the options selects the option at this
    index. *)
Lemma at_index_in_range (options : list string) (key : Key) :
  in_range options key ->
  exists i s,
    index_of key = Some i /\ options !! i = Some s
    /\ at_index options key = element s /\ s ∈ options.
Proof.
  intros (i & Hi & Hlt).
  destruct (lookup_lt_is_Some_2 options i Hlt) as [s Hs].
  exists i, s. unfold at_index. rewrite Hi, Hs. split_and!; try done.
  by eapply list_elem_of_lookup_2.
Qed.

(** An index out of range leaves [undefined] in [correctAnswers]. *)
Example mk_choice_out_of_range :
  q_correctAnswers
    (mk_choice 1700000000000 0
       (mkRawChoice "Which?" ["A"; "B"; "C"; "D"] (key_number 7) ""))
  = [undefined].
Proof. reflexivity. Qed.

(** A string selects what the number it writes selects; a string that is no
    numeral selects no option. *)
Example at_index_of_strings :
  at_index ["A"; "B"; "C"; "D"] (key_string "1") = element "B"
  /\ at_index ["A"; "B"; "C"; "D"] (key_number 1) = element "B"
  /\ at_index ["A"; "B"; "C"; "D"] (key_string "01") = inherited "01"
  /\ at_index ["A"; "B"; "C"; "D"] (key_string "length") = length_of 4
  /\ at_index ["A"; "B"; "C"; "D"] (key_number (-1)) = undefined
  /\ at_index ["A"; "B"; "C"; "D"] (key_number 0x1.8p+0) = undefined.
Proof. repeat split; reflexivity. Qed.

(** A single-answer question always has exactly one entry in
    [correctAnswers], whatever the record. *)
Lemma mk_choice_one_answer (t : N) (k : nat) (q : RawChoice) :
  length (q_correctAnswers (mk_choice t k q)) = 1.
Proof. reflexivity. Qed.

Lemma mk_choice_invariant (t : N) (k : nat) (q : RawChoice) :
  choice_in_range q -> question_invariant (mk_choice t k q).
Proof.
  intros Hr. destruct (at_index_in_range _ _ Hr) as (i & s & _ & _ & Hs & Hin).
  unfold question_invariant. simpl. rewrite Hs. split_and!; try done.
  - apply NoDup_singleton.
  - intros a ->%list_elem_of_singleton. eauto.
Qed.

Lemma mk_select_invariant (t : N) (k : nat) (q : RawSelect) :
  select_follows_prompt q -> question_invariant (mk_select t k q).
Proof.
  intros (Dopts & Didx & Hr & Hlen & Hless).
  rewrite Forall_forall in Hr.
  unfold question_invariant. simpl. split_and!.
  - intros E. apply (f_equal length) in E. rewrite length_map in E.
    simpl in E. lia.
  - apply NoDup_fmap_2_strong.
    + intros x y Hx Hy E.
      destruct (at_index_in_range _ _ (Hr x Hx)) as (i & s & Hi & Hs & Hx' & _).
      destruct (at_index_in_range _ _ (Hr y Hy))
        as (j & s' & Hj & Hs' & Hy' & _).
      rewrite Hx', Hy' in E. injection E as <-.
      pose proof (NoDup_lookup _ _ _ _ Dopts Hs Hs') as <-.
      apply (NoDup_fmap_1 index_of) in Didx as Hkeys.
      apply list_elem_of_lookup_1 in Hx as [a Ha].
      apply list_elem_of_lookup_1 in Hy as [b Hb].
      assert (a = b) as ->; [| congruence].
      apply (NoDup_lookup _ a b (Some i) Didx);
        rewrite list_lookup_fmap; [by rewrite Ha, <- Hi | by rewrite Hb, <- Hj].
    + by apply (NoDup_fmap_1 index_of).
  - intros a (idx & -> & Hidx)%list_elem_of_fmap.
    destruct (at_index_in_range _ _ (Hr idx Hidx))
      as (i & s & _ & _ & Hs & Hin).
    eauto.
  - by rewrite length_map.
  - intros Hall.
    assert (Hsub : element <$> rs_options q
                   ⊆+ map (fun idx => at_index (rs_options q) idx)
                          (rs_correctAnswers q)).
    { assert (Inj (=) (=) element) by (by intros x y [= ->]).
      apply NoDup_submseteq; [by apply (NoDup_fmap_2 element) |].
      intros a (o & -> & Ho)%list_elem_of_fmap. by apply Hall. }
    apply submseteq_length in Hsub.
    rewrite length_fmap, length_map in Hsub. lia.
Qed.

(** C2 (amended).  The generator does not validate the entries of a reply.
    A single-answer question always has exactly one entry in
    [correctAnswers], whatever the reply holds.  Every entry that a run which
    returns has read in its two replies is a record; and when, of these
    records, every single-answer one has its index within its options and
    every multi-answer one follows the prompt (distinct options, 2 or 3
    distinct indices within the options, fewer than the options), every
    question delivered satisfies the Question invariant. *)
Theorem generateQuestions_invariant (env : Env)
    (studyGuideContent : string) (webContent : list WebContent)
    (questionCount : float) (w w' : World)
    (qs : list (Question Entry)) :
  generateQuestions env studyGuideContent webContent questionCount w
  = (inr qs, w') ->
  Forall (fun q => q_type q = multiple_choice ->
                   length (q_correctAnswers q) = 1) qs
  /\ exists choices selects,
       choices_read env studyGuideContent webContent questionCount w
       = inr <$> choices
       /\ selects_read env studyGuideContent webContent questionCount w
          = inr <$> selects
       /\ (Forall choice_in_range choices ->
           Forall select_follows_prompt selects ->
           Forall question_invariant qs).
Proof.
  intros Hrun.
  apply generateQuestions_spec in Hrun as (_ & _ & _ & Hrun).
  destruct Hrun as (choices & selects & t1 & t2 & Hp & Hc & Hs).
  split.
  - rewrite Hp. apply Forall_app; split; apply Forall_forall; intros q Hq;
      apply elem_of_lookup_imap_1 in Hq as (k & r & -> & _); done.
  - exists choices, selects. split; [done |]. split; [done |].
    intros Hc' Hs'. rewrite Forall_forall in Hc'. rewrite Forall_forall in Hs'.
    rewrite Hp. apply Forall_app; split; apply Forall_forall; intros q Hq;
      apply elem_of_lookup_imap_1 in Hq as (k & r & -> & Hr);
      apply list_elem_of_lookup_2 in Hr.
    + by apply mk_choice_invariant, Hc'.
    + by apply mk_select_invariant, Hs'.
Qed.

Lemma generateQuestions_invariant_witness :
  generateQuestions Sample.env "guide" [] 2 Sample.w0
  = (inr Sample.generated, Sample.w_generated)
  /\ choices_read Sample.env "guide" [] 2 Sample.w0 = [inr Sample.raw_choice]
  /\ selects_read Sample.env "guide" [] 2 Sample.w0 = [inr Sample.raw_select]
  /\ choice_in_range Sample.raw_choice
  /\ select_follows_prompt Sample.raw_select
  /\ Forall question_invariant Sample.generated.
Proof.
  assert (Hrun : generateQuestions Sample.env "guide" [] 2 Sample.w0
                 = (inr Sample.generated, Sample.w_generated))
    by (vm_compute; reflexivity).
  assert (Hc : choices_read Sample.env "guide" [] 2 Sample.w0
               = [inr Sample.raw_choice]) by (vm_compute; reflexivity).
  assert (Hs : selects_read Sample.env "guide" [] 2 Sample.w0
               = [inr Sample.raw_select]) by (vm_compute; reflexivity).
  assert (Hchoice : choice_in_range Sample.raw_choice).
  { exists 0. split; [reflexivity | simpl; lia]. }
  assert (Hselect : select_follows_prompt Sample.raw_select).
  { unfold select_follows_prompt. simpl. split_and!.
    - apply (bool_decide_unpack _). by vm_compute.
    - apply (bool_decide_unpack _). by vm_compute.
    - repeat constructor; [exists 0 | exists 1];
        (split; [reflexivity | simpl; lia]).
    - by left.
    - lia. }
  refine (conj Hrun (conj Hc (conj Hs (conj Hchoice (conj Hselect _))))).
  destruct (generateQuestions_invariant _ _ _ _ _ _ _ Hrun)
    as (_ & choices & selects & Hc' & Hs' & Hinv).
  rewrite Hc in Hc'. rewrite Hs in Hs'.
  destruct choices as [|c [|c' choices]]; try discriminate Hc'.
  destruct selects as [|s [|s' selects]]; try discriminate Hs'.
  injection Hc' as <-. injection Hs' as <-.
  apply Hinv; (constructor; [assumption | constructor]).
Defined.

(** C2 (as stated) fails: a reply whose multi-answer record names a single
    correct index is turned into a multi-answer question with one entry in
    [correctAnswers]. *)
Lemma generateQuestions_invariant_counterexample :
  ~ (forall (env : Env) (studyGuideContent : string)
       (webContent : list WebContent) (questionCount : float) (w w' : World)
       (qs : list (Question Entry)),
       generateQuestions env studyGuideContent webContent questionCount w
       = (inr qs, w') ->
       Forall question_invariant qs).
Proof.
  intros Hall.
  pose (env := Sample.env_with [Sample.raw_choice] [Sample.raw_select_single]).
  assert (Hrun : generateQuestions env "guide" [] 2 Sample.w0
                 = (inr [mk_choice 1700000000000 0 Sample.raw_choice;
                         mk_select 1700000000001 0 Sample.raw_select_single],
                    Sample.w_generated))
    by (vm_compute; reflexivity).
  apply Hall in Hrun.
  apply Forall_cons in Hrun as [_ Hrun].
  apply Forall_cons in Hrun as [(_ & _ & _ & [Hlen | Hlen] & _) _];
    discriminate Hlen.
Qed.

End GeneratorClaims.

(** ** Splitting a path *)

Section Paths.

Lemma append_assoc (a b c : string) : (a +:+ b) +:+ c = a +:+ (b +:+ c).
Proof. induction a as [|x a IH]; simpl; [done | by rewrite IH]. Qed.

Lemma prefix_cons (c d : ascii) (p s : string) :
  String.prefix (String c p) (String d s)
  = if ascii_dec c d then String.prefix p s else false.
Proof. reflexivity. Qed.

Lemma split_go_other (c d : ascii) (p acc s : string) :
  d <> c ->
  JS.split_go (String c p) 0 acc (String d s)
  = JS.split_go (String c p) 0 (acc +:+ String d "") s.
Proof.
  intros Hd.
  change (JS.split_go (String c p) 0 acc (String d s))
    with (if String.prefix (String c p) (String d s)
          then acc :: JS.split_go (String c p)
                        (String.length (String c p) - 1) "" s
          else JS.split_go (String c p) 0 (acc +:+ String d "") s).
  rewrite prefix_cons. by destruct (ascii_dec c d) as [-> | _].
Qed.

Lemma replace_go_other (c d : ascii) (p by_ s : string) :
  d <> c ->
  JS.replace_go (String c p) by_ (String d s)
  = String d (JS.replace_go (String c p) by_ s).
Proof.
  intros Hd.
  change (JS.replace_go (String c p) by_ (String d s))
    with (if String.prefix (String c p) (String d s)
          then by_ +:+ String.substring (String.length (String c p))
                         (String.length (String d s)
                          - String.length (String c p)) (String d s)
          else String d (JS.replace_go (String c p) by_ s)).
  rewrite prefix_cons. by destruct (ascii_dec c d) as [-> | _].
Qed.

(** A piece without a slash is passed over when splitting at a separator
    that starts with a slash. *)
Lemma split_go_lacks (p acc t rest : string) :
  lacks JS.slash t ->
  JS.split_go (String JS.slash p) 0 acc (t +:+ rest)
  = JS.split_go (String JS.slash p) 0 (acc +:+ t) rest.
Proof.
  revert acc. induction t as [|c t IH]; intros acc Ht.
  - simpl. by rewrite append_empty_r.
  - destruct Ht as [Hc Ht].
    change (String c t +:+ rest) with (String c (t +:+ rest)).
    rewrite split_go_other by done.
    rewrite IH by done. by rewrite append_assoc.
Qed.

Lemma replace_go_lacks (p by_ t rest : string) :
  lacks JS.slash t ->
  JS.replace_go (String JS.slash p) by_ (t +:+ rest)
  = t +:+ JS.replace_go (String JS.slash p) by_ rest.
Proof.
  induction t as [|c t IH]; intros Ht; [done |].
  destruct Ht as [Hc Ht].
  change (String c t +:+ rest) with (String c (t +:+ rest)).
  rewrite replace_go_other by done. by rewrite IH.
Qed.

Lemma prefix_empty (s : string) : String.prefix "" s = true.
Proof. by destruct s. Qed.

Lemma split_go_last (p acc t : string) :
  lacks JS.slash t ->
  JS.split_go (String JS.slash p) 0 acc t = [acc +:+ t].
Proof.
  intros Ht. rewrite <- (append_empty_r t) at 1.
  by rewrite split_go_lacks.
Qed.

(** The id read from the path of [GET /api/test/<id>]. *)
Lemma split_test_path (t : string) :
  lacks JS.slash t ->
  JS.split ("/api/test/" +:+ t) "/api/test/" !! 1 = Some t.
Proof.
  intros Ht. unfold JS.split. simpl. rewrite prefix_empty.
  by rewrite (split_go_last "api/test/" "" t Ht
              : JS.split_go "/api/test/" 0 "" t = _).
Qed.

(** The id read by the first route from the path of
    [GET /api/test/<id>/answers]. *)
Lemma split_answers_path (t : string) :
  lacks JS.slash t ->
  JS.split ("/api/test/" +:+ t +:+ "/answers") "/api/test/" !! 1
  = Some (t +:+ "/answers").
Proof.
  intros Ht. unfold JS.split. simpl. rewrite prefix_empty.
  rewrite (split_go_lacks "api/test/" "" t "/answers" Ht
           : JS.split_go "/api/test/" 0 "" (t +:+ "/answers") = _).
  simpl. by rewrite !append_assoc.
Qed.

Lemma replace_answers (t : string) :
  lacks JS.slash t -> JS.replace (t +:+ "/answers") "/answers" "" = t.
Proof.
  intros Ht. unfold JS.replace.
  rewrite (replace_go_lacks "answers" "" t "/answers" Ht
           : JS.replace_go "/answers" "" (t +:+ "/answers") = _).
  simpl. apply append_empty_r.
Qed.

End Paths.

(** ** The test repository and the routes that read it *)

Section StorageClaims.

Context (env : Env).

(** What [loadTest] returns: it reads no more than the one file, changes
    nothing, and turns every failure into [null]. *)
Lemma loadTest_spec (testId : string) (w : World) :
  TestStorage.loadTest env testId w
  = (inr match w_files w
               !! path_join env TestStorage.storageDir (testId +:+ ".json")
         with
         | None => None
         | Some content =>
             match JSON_parse_test env content with
             | inr test => Some test
             | inl _ => None
             end
         end, w).
Proof.
  unfold TestStorage.loadTest, try_catch, bind, existsSync, readFile, lift, ret.
  destruct (w_files w !! _) as [content|] eqn:Hl; simpl.
  - rewrite Hl. by destruct (JSON_parse_test env content).
  - done.
Qed.

(** C7.  For an id without a stored document, [loadTest] returns [null]
    (here [None]), and it never throws, whatever the id and the files. *)
Theorem loadTest_not_found (testId : string) (w : World) :
  w_files w !! path_join env TestStorage.storageDir (testId +:+ ".json") = None
  ->
  TestStorage.loadTest env testId w = (inr None, w)
  /\ forall testId' w', exists r, TestStorage.loadTest env testId' w' = (inr r, w').
Proof.
  intros Hmiss. split.
  - by rewrite loadTest_spec, Hmiss.
  - intros testId' w'. rewrite loadTest_spec. eauto.
Qed.

End StorageClaims.

Lemma loadTest_not_found_witness :
  w_files Sample.w1
  !! path_join Sample.env TestStorage.storageDir ("nonexistent" +:+ ".json")
  = None
  /\ TestStorage.loadTest Sample.env "nonexistent" Sample.w1
     = (inr None, Sample.w1).
Proof.
  assert (Hmiss : w_files Sample.w1
                  !! path_join Sample.env TestStorage.storageDir
                       ("nonexistent" +:+ ".json") = None)
    by (vm_compute; reflexivity).
  split; [exact Hmiss |].
  exact (proj1 (loadTest_not_found Sample.env "nonexistent" Sample.w1 Hmiss)).
Defined.

Section ServerClaims.

Context (env : Env).

Lemma getTest_spec (testId : string) (w : World) (r : Exn + option (PracticeTest string))
    (w' : World) :
  APIRoutes.getTest env testId w = (r, w') ->
  w' = w /\ exists found, r = inr found.
Proof.
  unfold APIRoutes.getTest. rewrite loadTest_spec. intros [= <- <-]. eauto.
Qed.

(** The first route for [GET /api/test/...] answers every GET request whose
    path starts with "/api/test/". *)
Lemma fetch_get_test (path : string) (q : option string)
    (body : Exn + Server.RequestBody) (w : World) :
  JS.startsWith path "/api/test/" = true ->
  Server.fetch env (Server.mkRequest "GET" path q body) w
  = try_catch (Server.handle_get_test env path)
      (fun error =>
         ret (Server.sendError
                match error with
                | JsError message => message
                | Thrown _ => "Internal server error"
                end 500)) w.
Proof.
  intros Hs. unfold Server.fetch. simpl. rewrite Hs. simpl.
  rewrite andb_false_r, andb_true_r.
  destruct (String.eqb path "/api/search") eqn:E1; [| done].
  apply String.eqb_eq in E1. subst path. discriminate Hs.
Qed.

Lemma startsWith_api_test (s : string) :
  JS.startsWith ("/api/test/" +:+ s) "/api/test/" = true.
Proof. unfold JS.startsWith. simpl. apply prefix_empty. Qed.

(** What the first route answers: an error, or a stored test in the form
    made for test-taking.  It never throws and changes nothing. *)
Lemma handle_get_test_outcome (path : string) (w : World) :
  exists response,
    Server.handle_get_test env path w = (inr response, w)
    /\ (response = Server.sendError "Test ID is required" 400
        \/ response = Server.sendError "Test not found" 404
        \/ exists test,
             response
             = Server.sendJSON
                 (Server.JObject [("test", Server.testForTaking test)]) 200).
Proof.
  unfold Server.handle_get_test.
  destruct (Server.truthy _) as [testId|]; [| unfold ret; eauto].
  unfold bind, APIRoutes.getTest. rewrite loadTest_spec.
  destruct (w_files w !! _) as [content|]; [| unfold ret; eauto].
  destruct (JSON_parse_test env content) as [e|test]; unfold ret; eauto 6.
Qed.

(** The questions of the form made for test-taking. *)
Lemma testForTaking_questions (test : PracticeTest string) :
  response_questions
    (Server.sendJSON (Server.JObject [("test", Server.testForTaking test)])
       200)
  = Some (map Server.question_for_taking (t_questions test)).
Proof.
  unfold response_questions, Server.testForTaking, Server.test_fields. simpl.
  by destruct (t_certificationUrl test).
Qed.

Lemma question_for_taking_redacted (q : Question string) :
  redacted (Server.question_for_taking q).
Proof.
  unfold redacted. simpl.
  split_and!; [done | apply (bool_decide_unpack _); by vm_compute..].
Qed.

(** C4.  Whatever [GET /api/test/...] returns, the questions of the test it
    carries show only their id, type, question text and options: there is
    no [correctAnswers] and no [explanation] field.  For a stored test
    whose id [t] is not empty and has no slash (as the ids made by
    [generateTest]), the response to [GET /api/test/t] is that test with
    every question so reduced. *)
Theorem get_test_is_redacted (path : string) (q : option string)
    (body : Exn + Server.RequestBody) (w w' : World)
    (response : Server.Response) :
  JS.startsWith path "/api/test/" = true ->
  Server.fetch env (Server.mkRequest "GET" path q body) w = (inr response, w')
  ->
  (forall questions,
     response_questions response = Some questions ->
     Forall redacted questions)
  /\ (forall t test,
        path = "/api/test/" +:+ t -> t <> "" -> lacks JS.slash t ->
        APIRoutes.getTest env t w = (inr (Some test), w) ->
        response
        = Server.sendJSON
            (Server.JObject [("test", Server.testForTaking test)]) 200
        /\ response_questions response
           = Some (map Server.question_for_taking (t_questions test))).
Proof.
  intros Hs Hfetch. rewrite fetch_get_test in Hfetch by done.
  unfold try_catch in Hfetch. split.
  - destruct (handle_get_test_outcome path w) as (r & Hr & Hcases).
    rewrite Hr in Hfetch. injection Hfetch as <- _.
    intros questions Hq.
    destruct Hcases as [-> | [-> | [test ->]]]; try discriminate Hq.
    rewrite testForTaking_questions in Hq. injection Hq as <-.
    apply Forall_forall. intros j (x & -> & _)%list_elem_of_fmap.
    apply question_for_taking_redacted.
  - intros t test -> Hne Ht Hget.
    unfold Server.handle_get_test in Hfetch.
    rewrite split_test_path in Hfetch by done.
    destruct t as [|c t]; [done |]. simpl in Hfetch. unfold bind in Hfetch.
    rewrite Hget in Hfetch. injection Hfetch as <- _.
    split; [done | apply testForTaking_questions].
Qed.

(** C3.  The route for [GET /api/test/<id>/answers] comes after the route
    for [GET /api/test/...], which answers first: the id it reads is
    "<id>/answers", for which nothing is stored, and the response is 404
    "Test not found" instead of the unredacted test. *)
Theorem get_answers_is_shadowed (t : string) (q : option string)
    (body : Exn + Server.RequestBody) (w : World) :
  lacks JS.slash t ->
  w_files w
  !! path_join env TestStorage.storageDir ((t +:+ "/answers") +:+ ".json")
  = None ->
  Server.fetch env
    (Server.mkRequest "GET" ("/api/test/" +:+ t +:+ "/answers") q body) w
  = (inr (Server.sendError "Test not found" 404), w).
Proof.
  intros Ht Hmiss. rewrite fetch_get_test by apply startsWith_api_test.
  unfold try_catch, Server.handle_get_test.
  rewrite split_answers_path by done.
  assert (Htruthy : Server.truthy (Some (t +:+ "/answers"))
                    = Some (t +:+ "/answers")) by (by destruct t).
  rewrite Htruthy. unfold bind, APIRoutes.getTest.
  by rewrite loadTest_spec, Hmiss.
Qed.

(** The route that is never reached would return the stored test as it is,
    answers and explanations included. *)
Lemma handle_get_answers_unredacted (t : string) (test : PracticeTest string)
    (w : World) :
  t <> "" -> lacks JS.slash t ->
  APIRoutes.getTest env t w = (inr (Some test), w) ->
  Server.handle_get_answers env ("/api/test/" +:+ t +:+ "/answers") w
  = (inr (Server.sendJSON (Server.JObject [("test", Server.json_test test)])
            200), w).
Proof.
  intros Hne Ht Hget. unfold Server.handle_get_answers.
  rewrite split_answers_path by done. simpl.
  rewrite replace_answers by done.
  destruct t as [|c t]; [done |]. simpl. unfold bind. by rewrite Hget.
Qed.

End ServerClaims.

Lemma get_test_is_redacted_witness :
  let response :=
    Server.sendJSON
      (Server.JObject [("test", Server.testForTaking Sample.test1)]) 200 in
  JS.startsWith "/api/test/test-1" "/api/test/" = true
  /\ Server.fetch Sample.env (Sample.get "/api/test/test-1") Sample.w1
     = (inr response, Sample.w1)
  /\ forall questions,
       response_questions response = Some questions ->
       Forall redacted questions.
Proof.
  intros response.
  assert (Hs : JS.startsWith "/api/test/test-1" "/api/test/" = true)
    by reflexivity.
  assert (Hfetch : Server.fetch Sample.env (Sample.get "/api/test/test-1")
                     Sample.w1 = (inr response, Sample.w1))
    by (vm_compute; reflexivity).
  refine (conj Hs (conj Hfetch _)).
  exact (proj1 (get_test_is_redacted Sample.env "/api/test/test-1" None
                  (inl (JsError "Unexpected end of JSON input")) Sample.w1
                  Sample.w1 response Hs Hfetch)).
Defined.

Lemma get_answers_is_shadowed_witness :
  lacks JS.slash "test-1"
  /\ w_files Sample.w1
     !! path_join Sample.env TestStorage.storageDir
          (("test-1" +:+ "/answers") +:+ ".json") = None
  /\ Server.fetch Sample.env (Sample.get "/api/test/test-1/answers") Sample.w1
     = (inr (Server.sendError "Test not found" 404), Sample.w1).
Proof.
  assert (Ht : lacks JS.slash "test-1") by (vm_compute; intuition congruence).
  assert (Hmiss : w_files Sample.w1
                  !! path_join Sample.env TestStorage.storageDir
                       (("test-1" +:+ "/answers") +:+ ".json") = None)
    by (vm_compute; reflexivity).
  refine (conj Ht (conj Hmiss _)).
  exact (get_answers_is_shadowed Sample.env "test-1" None
           (inl (JsError "Unexpected end of JSON input")) Sample.w1 Ht Hmiss).
Defined.

(** ** The assembly of a test *)

Section AssemblerClaims.

Context (env : Env).

(** [fetchContent] requests the page once and touches nothing else; what
    it throws is what was thrown inside it. *)
Lemma fetchContent_world (url : string) (w : World) :
  exists r, ContentExtractor.fetchContent env url w = (r, fetched w).
Proof.
  unfold ContentExtractor.fetchContent, try_catch, bind, fetch_url.
  fold (fetched w).
  destruct (http_fetch env (w_fetches w) url) as [e|response];
    [unfold throw; eauto |].
  destruct (r_ok response); simpl; [| unfold throw; eauto].
  unfold lift. destruct (r_text response); unfold throw, ret; eauto.
Qed.

(** Once both stages have returned, the test is stamped, written under its
    id and returned. *)
Lemma generateTest_unfold (studyGuideUrl certificationName : string)
    (questionCount : float) (w : World) :
  APIRoutes.generateTest env studyGuideUrl certificationName questionCount w
  = match ContentExtractor.fetchContent env studyGuideUrl w with
    | (inl e, w1) => (inl e, w1)
    | (inr studyGuideContent, w1) =>
        match QuestionGenerator.generateQuestions env studyGuideContent []
                questionCount w1 with
        | (inl e, w2) => (inl e, w2)
        | (inr questions, w2) =>
            let test :=
              {| t_id := "test-" +:+ pretty (Date_now env (w_clock w2))
                         +:+ "-"
                         +:+ APIRoutes.substring_from 7
                               (toString36 env
                                  (Math_random env (w_randoms w2)));
                 t_certificationName := certificationName;
                 t_certificationUrl := Some studyGuideUrl;
                 t_generatedAt :=
                   toISOString env (Date_now env (S (w_clock w2)));
                 t_questionCount := length questions;
                 t_questions := questions |} in
            (inr test,
             mkWorld
               (<[path_join env TestStorage.storageDir
                    (t_id test +:+ ".json")
                  := JSON_stringify_test env test]> (w_files w2))
               (w_fetches w2) (w_chats w2) (S (S (w_clock w2)))
               (S (w_randoms w2)) (w_searches w2))
        end
    end.
Proof.
  unfold APIRoutes.generateTest. unfold bind at 1.
  destruct (ContentExtractor.fetchContent env studyGuideUrl w)
    as [[e|content] w1]; [done |].
  unfold bind at 1.
  by destruct (QuestionGenerator.generateQuestions env content []
                 questionCount w1) as [[e|questions] w2].
Qed.

(** C6.  [generateTest] fails exactly when a stage fails, with the error of
    that stage as it is, and then no file has been written. *)
Theorem generateTest_propagates (studyGuideUrl certificationName : string)
    (questionCount : float) (w : World) (e : Exn) (w' : World) :
  (stage_fails env studyGuideUrl questionCount w e w'
   <-> APIRoutes.generateTest env studyGuideUrl certificationName
         questionCount w = (inl e, w'))
  /\ (stage_fails env studyGuideUrl questionCount w e w' ->
      w_files w' = w_files w).
Proof.
  rewrite generateTest_unfold. unfold stage_fails.
  destruct (fetchContent_world studyGuideUrl w) as [[e1|content] H1];
    rewrite H1.
  { split; [split |].
    - intros [[= -> ->] | (c & w1 & H & _)]; [done | discriminate H].
    - intros [= -> ->]. by left.
    - intros [[= _ <-] | (c & w1 & H & _)]; [done | discriminate H]. }
  destruct (QuestionGenerator.generateQuestions env content [] questionCount
              (fetched w)) as [[e2|questions] w2] eqn:H2.
  - pose proof (generateQuestions_spec env _ _ _ _ _ _ H2) as (Hf & _).
    split; [split |].
    + intros [H | (c & w1 & [= <- <-] & H)]; [discriminate H |].
      rewrite H2 in H. by injection H as -> ->.
    + intros [= <- <-]. right. eauto.
    + intros [H | (c & w1 & [= <- <-] & H)]; [discriminate H |].
      rewrite H2 in H. by injection H as _ <-.
  - split; [split |].
    + intros [H | (c & w1 & [= <- <-] & H)]; [discriminate H |].
      rewrite H2 in H. discriminate H.
    + intros H. discriminate H.
    + intros [H | (c & w1 & [= <- <-] & H)]; [discriminate H |].
      rewrite H2 in H. discriminate H.
Qed.

(** A test that [generateTest] returns has been written under its id
    before, counts its questions, and has an id made of "test-", the clock
    reading, a dash and the tail of a random number in base 36. *)
Lemma generateTest_stores (studyGuideUrl certificationName : string)
    (questionCount : float) (w w' : World)
    (test : PracticeTest Entry) :
  APIRoutes.generateTest env studyGuideUrl certificationName questionCount w
  = (inr test, w') ->
  w_files w' !! path_join env TestStorage.storageDir (t_id test +:+ ".json")
  = Some (JSON_stringify_test env test)
  /\ t_questionCount test = length (t_questions test)
  /\ exists (t : N) (r : float),
       t_id test = "test-" +:+ pretty t +:+ "-"
                   +:+ APIRoutes.substring_from 7 (toString36 env r).
Proof.
  rewrite generateTest_unfold.
  destruct (ContentExtractor.fetchContent env studyGuideUrl w)
    as [[e|content] w1]; [done |].
  destruct (QuestionGenerator.generateQuestions env content [] questionCount
              w1) as [[e|questions] w2]; [done |].
  intros [= <- <-]. simpl. split_and!; [| done | eauto].
  apply lookup_insert_eq.
Qed.

(** Such an id is not empty and has no slash, when the base-36 text of a
    number has none. *)
Lemma generateTest_id_lacks_slash (studyGuideUrl certificationName : string)
    (questionCount : float) (w w' : World)
    (test : PracticeTest Entry) :
  (forall r, lacks JS.slash (toString36 env r)) ->
  APIRoutes.generateTest env studyGuideUrl certificationName questionCount w
  = (inr test, w') ->
  t_id test <> "" /\ lacks JS.slash (t_id test).
Proof.
  intros H36 Hrun. apply generateTest_stores in Hrun as (_ & _ & t & r & ->).
  split; [done |].
  apply (lacks_append _ "test-"); [by vm_compute; intuition congruence |].
  apply lacks_append; [apply pretty_N_lacks, digit_not_slash |].
  apply (lacks_append _ "-"); [by vm_compute; intuition congruence |].
  apply lacks_substring, H36.
Qed.

End AssemblerClaims.

Lemma generateTest_propagates_witness :
  let url := "https://learn.microsoft.com/az-900" in
  (stage_fails Sample.env_offline url 2 Sample.w0
     (JsError "Unable to connect") (fetched Sample.w0)
   /\ APIRoutes.generateTest Sample.env_offline url "AZ-900" 2 Sample.w0
      = (inl (JsError "Unable to connect"), fetched Sample.w0)
   /\ w_files (fetched Sample.w0) = w_files Sample.w0)
  /\ (let e := JsError ("Failed to generate questions: "
                        +:+ "Invalid JSON response from OpenAI") in
      let w' := sent (mkChatRequest multiple_choice 1
                        (String.substring 0 15000
                           (QuestionGenerator.combinedContentOf
                              "Azure basics" [])))
                  (fetched Sample.w0) in
      stage_fails Sample.env_prose url 2 Sample.w0 e w'
      /\ APIRoutes.generateTest Sample.env_prose url "AZ-900" 2 Sample.w0
         = (inl e, w')
      /\ w_files w' = w_files Sample.w0).
Proof.
  intros url. split.
  - assert (Hfail : stage_fails Sample.env_offline url 2 Sample.w0
                      (JsError "Unable to connect") (fetched Sample.w0))
      by (left; vm_compute; reflexivity).
    destruct (generateTest_propagates Sample.env_offline url "AZ-900" 2
                Sample.w0 (JsError "Unable to connect") (fetched Sample.w0))
      as [[Hto _] Hfiles].
    exact (conj Hfail (conj (Hto Hfail) (Hfiles Hfail))).
  - intros e w'.
    assert (Hfail : stage_fails Sample.env_prose url 2 Sample.w0 e w').
    { right. exists "Azure basics", (fetched Sample.w0).
      split; vm_compute; reflexivity. }
    destruct (generateTest_propagates Sample.env_prose url "AZ-900" 2
                Sample.w0 e w') as [[Hto _] Hfiles].
    exact (conj Hfail (conj (Hto Hfail) (Hfiles Hfail))).
Defined.

(** ** The earlier revision of [generateTest] *)

Section LegacyAssembler.

Context (env : Env) (senv : Legacy.SearchEnv).

(** The related-content search never throws and writes no file: when a
    search fails, what has been found so far is returned. *)
Lemma search_topics_total (topics : list string)
    (allResults : list Legacy.Related) (w : World) :
  exists results w',
    Legacy.search_topics senv topics allResults w = (inr results, w')
    /\ w_files w' = w_files w.
Proof.
  revert allResults w. induction topics as [|topic rest IH];
    intros allResults w.
  - by exists allResults, w.
  - simpl. unfold try_catch, bind, Legacy.search.
    destruct (Legacy.web_search senv (w_searches w) _) as [e|value].
    + unfold ret. eauto.
    + match goal with
      | |- context [Legacy.search_topics senv rest ?a ?w1] =>
          destruct (IH a w1) as (results & w' & -> & Hf)
      end.
      eauto.
Qed.

(** A page of the related content that cannot be fetched does not abort the
    enrichment. *)
Lemma with_full_text_total (item : Legacy.Related) (index : nat) (w : World) :
  exists r, Legacy.with_full_text env item index w = (inr r, fetched w).
Proof.
  unfold Legacy.with_full_text, try_catch, bind.
  destruct (fetchContent_world env (Legacy.rel_url item) w) as [[e|c] ->];
    unfold ret; eauto.
Qed.

Lemma enrichment_total (items : list Legacy.Related) (index : nat)
    (w : World) :
  exists results w',
    mapM_index (Legacy.with_full_text env) index items w = (inr results, w')
    /\ w_files w' = w_files w.
Proof.
  revert index w. induction items as [|item items IH]; intros index w.
  - by exists [], w.
  - simpl. unfold bind at 1.
    destruct (with_full_text_total item index w) as [r ->].
    unfold bind at 1.
    destruct (IH (S index) (fetched w)) as (results & w' & -> & Hf).
    unfold ret. eauto.
Qed.

(** In the earlier revision too, [generateTest] fails only with the error
    of a failing stage, passed on as it is (the extraction of the study
    guide, the second request for the page, or the synthesis of the
    questions), and then no file has been written; a failing web search or
    a related page that cannot be fetched does not make it fail. *)
Lemma legacy_generateTest_propagates
    (studyGuideUrl certificationName : string) (questionCount : float)
    (w : World) (e : Exn) (w' : World) :
  Legacy.generateTest env senv studyGuideUrl certificationName questionCount w
  = (inl e, w') ->
  w_files w' = w_files w
  /\ (ContentExtractor.fetchContent env studyGuideUrl w = (inl e, w')
      \/ (exists w1,
            (let* response := fetch_url env studyGuideUrl in
             lift (r_text response)) w1 = (inl e, w'))
      \/ (exists studyGuideContent webContent w1,
            QuestionGenerator.generateQuestions env studyGuideContent
              webContent questionCount w1 = (inl e, w'))).
Proof.
  unfold Legacy.generateTest. intros Hrun.
  apply bind_inl in Hrun as [Hrun | (content & w1 & H1 & Hrun)].
  { destruct (fetchContent_world env studyGuideUrl w) as [r H].
    rewrite H in Hrun. injection Hrun as -> <-. split; [done |]. by left. }
  destruct (fetchContent_world env studyGuideUrl w) as [r H].
  rewrite H in H1. injection H1 as -> <-. clear H.
  apply bind_inl in Hrun as [Hrun | (response & w2 & H2 & Hrun)].
  { split.
    - unfold fetch_url in Hrun. by injection Hrun as _ <-.
    - right. left. exists (fetched w). unfold bind. by rewrite Hrun. }
  assert (Hw2 : w2 = fetched (fetched w))
    by (unfold fetch_url in H2; by injection H2 as _ <-).
  apply bind_inl in Hrun as [Hrun | (html & w3 & H3 & Hrun)].
  { unfold lift in Hrun. injection Hrun as Ht <-. subst w2.
    split; [done |]. right. left. exists (fetched w).
    unfold bind. rewrite H2. unfold lift. by rewrite Ht. }
  unfold lift in H3. injection H3 as _ <-.
  apply bind_inl in Hrun as [Hrun | (webContent & w4 & H4 & Hrun)].
  { unfold Legacy.searchRelatedContent in Hrun.
    destruct (search_topics_total
                (take 10 (Legacy.searchQueriesOf senv content
                            (Legacy.extractStructuredContent senv html)))
                [] w2) as (results & w5 & H & _).
    rewrite H in Hrun. discriminate Hrun. }
  unfold Legacy.searchRelatedContent in H4.
  match type of H4 with
  | Legacy.search_topics senv ?t ?a ?w0 = _ =>
      destruct (search_topics_total t a w0) as (results & w5 & H & Hf4)
  end.
  rewrite H in H4. injection H4 as -> ->. clear H.
  apply bind_inl in Hrun as [Hrun | (enriched & w6 & H6 & Hrun)].
  { destruct (enrichment_total (take 5 webContent) 0 w4)
      as (results & w7 & H & _).
    rewrite H in Hrun. discriminate Hrun. }
  destruct (enrichment_total (take 5 webContent) 0 w4)
    as (results & w7 & H & Hf6).
  rewrite H in H6. injection H6 as -> ->. clear H.
  apply bind_inl in Hrun as [Hrun | (questions & w8 & H8 & Hrun)].
  { pose proof (generateQuestions_spec env _ _ _ _ _ _ Hrun) as (Hf & _).
    split; [| right; right; eauto].
    rewrite Hf, Hf6, Hf4. by subst w2. }
  unfold bind, now, random, TestStorage.saveTest, TestStorage.ensureDirectoryExists,
    writeFile, ret in Hrun.
  discriminate Hrun.
Qed.

End LegacyAssembler.

(** * Further properties of the code *)

(** ** The scorer *)

Section ScorerMore.

Import Scorer.

Lemma isCorrect_perm (u u' c c' : list string) :
  u ≡ₚ u' -> c ≡ₚ c' -> isCorrect u c = isCorrect u' c'.
Proof.
  intros Hu Hc. unfold isCorrect.
  by rewrite (proj2 (sort_eq_iff u u') Hu), (proj2 (sort_eq_iff c c') Hc).
Qed.

Lemma isCorrect_refl (c : list string) : isCorrect c c = true.
Proof. unfold isCorrect. apply String.eqb_refl. Qed.

Lemma correct_count (answers answers' : Answers) (qs : list (Question string)) :
  (forall q, q ∈ qs ->
     userAnswersOf answers q ≡ₚ userAnswersOf answers' q) ->
  map d_correct (map (detail_of answers) qs)
  = map d_correct (map (detail_of answers') qs).
Proof.
  induction qs as [|q qs IH]; intros H; [done|].
  simpl. f_equal.
  - apply isCorrect_perm; [apply H; left|done].
  - apply IH. intros q' Hq'. apply H. by right.
Qed.

Lemma filter_correct_length (ds : list Detail) :
  length (filter (fun d => d_correct d = true) ds)
  = length (filter (fun b => b = true) (map d_correct ds)).
Proof.
  induction ds as [|d ds IH]; [done|].
  simpl. rewrite !filter_cons. simpl.
  destruct (decide (d_correct d = true)); simpl; by rewrite IH.
Qed.

(** X1.  The score does not depend on the order in which the answers of a
    question were submitted, nor on the order of its answer key. *)
Theorem calculateScore_order_independent
    (test : PracticeTest string) (answers answers' : Answers) :
  (forall q, q ∈ t_questions test ->
     userAnswersOf answers q ≡ₚ userAnswersOf answers' q) ->
  s_correct (calculateScore test answers)
  = s_correct (calculateScore test answers')
  /\ s_score (calculateScore test answers)
     = s_score (calculateScore test answers')
  /\ map d_correct (s_details (calculateScore test answers))
     = map d_correct (s_details (calculateScore test answers'))
  /\ (forall u c c', c ≡ₚ c' -> isCorrect u c = isCorrect u c').
Proof.
  intros H.
  destruct (calculateScore_details test answers) as [Hd Hc].
  destruct (calculateScore_details test answers') as [Hd' Hc'].
  pose proof (correct_count answers answers' (t_questions test) H) as Heq.
  assert (s_correct (calculateScore test answers)
          = s_correct (calculateScore test answers')) as Hcorrect.
  { rewrite Hc, Hc', Hd, Hd', !filter_correct_length. by rewrite Heq. }
  split; [done|]. split.
  - destruct (calculateScore_counts test answers) as (Ht & _ & _ & Hs).
    destruct (calculateScore_counts test answers') as (Ht' & _ & _ & Hs').
    by rewrite Hs, Hs', Ht, Ht', Hcorrect.
  - split; [by rewrite Hd, Hd'|].
    intros u c c' Hcc. by apply isCorrect_perm.
Qed.

Lemma all_correct_details (answers : Answers) (qs : list (Question string)) :
  (forall q, q ∈ qs -> userAnswersOf answers q ≡ₚ q_correctAnswers q) ->
  Forall (fun d => d_correct d = true) (map (detail_of answers) qs).
Proof.
  intros H. apply Forall_forall. intros d Hd.
  apply list_elem_of_fmap in Hd as (q & -> & Hq). simpl.
  rewrite (isCorrect_perm _ (q_correctAnswers q) _ (q_correctAnswers q));
    [apply isCorrect_refl|by apply H|done].
Qed.

Lemma filter_all {A} (P : A -> Prop) `{forall x, Decision (P x)} (l : list A) :
  Forall P l -> filter P l = l.
Proof.
  induction 1 as [|x l Hx Hl IH]; [done|].
  rewrite filter_cons. destruct (decide (P x)); [by rewrite IH|done].
Qed.

Lemma full_marks_1000 (n : nat) : 1 <= n <= 1000 -> score_of n n = 100%float.
Proof.
  intros Hn.
  assert (forallb full_marks (seq 1 1000) = true) as Hall by (by vm_compute).
  rewrite forallb_forall in Hall.
  apply FloatAxioms.Leibniz.eqb_spec, (Hall n), in_seq. lia.
Qed.

(** X2.  A submission that gives, for every question, the answers of its
    key in some order gets every question right; on a test of 1 to 1000
    questions the score is 100. *)
Theorem calculateScore_all_correct
    (test : PracticeTest string) (answers : Answers) :
  (forall q, q ∈ t_questions test ->
     userAnswersOf answers q ≡ₚ q_correctAnswers q) ->
  s_correct (calculateScore test answers) = length (t_questions test)
  /\ s_incorrect (calculateScore test answers) = 0%Z
  /\ Forall (fun d => d_correct d = true)
            (s_details (calculateScore test answers))
  /\ (1 <= length (t_questions test) <= 1000 ->
      s_score (calculateScore test answers) = 100%float).
Proof.
  intros H.
  destruct (calculateScore_details test answers) as [Hd Hc].
  destruct (calculateScore_counts test answers) as (Ht & _ & Hi & Hs).
  pose proof (all_correct_details answers (t_questions test) H) as Hall.
  assert (s_correct (calculateScore test answers) = length (t_questions test))
    as Hcorrect.
  { rewrite Hc, Hd, filter_all by done. by rewrite length_map. }
  split; [done|]. split; [rewrite Hi, Ht, Hcorrect; lia|].
  split; [by rewrite Hd|].
  intros Hn. rewrite Hs, Ht, Hcorrect. by apply full_marks_1000.
Qed.

End ScorerMore.

Lemma calculateScore_order_independent_witness :
  Scorer.s_score
    (Scorer.calculateScore Sample.test1 {[ "ms-1700000000001-0" := ["B"; "A"] ]})
  = Scorer.s_score
      (Scorer.calculateScore Sample.test1
         {[ "ms-1700000000001-0" := ["A"; "B"] ]}).
Proof.
  refine (proj1 (proj2 (calculateScore_order_independent Sample.test1 _ _ _))).
  intros q Hq. apply list_elem_of_In in Hq. simpl in Hq.
  destruct Hq as [<-|[<-|[]]]; vm_compute; [reflexivity|apply perm_swap].
Defined.

Lemma calculateScore_all_correct_witness :
  Scorer.s_correct
    (Scorer.calculateScore Sample.test1
       {[ "mc-1700000000000-0" := ["Blob Storage"];
          "ms-1700000000001-0" := ["B"; "A"] ]})
  = 2.
Proof.
  refine (proj1 (calculateScore_all_correct Sample.test1 _ _)).
  intros q Hq. apply list_elem_of_In in Hq. simpl in Hq.
  destruct Hq as [<-|[<-|[]]]; vm_compute; [reflexivity|apply perm_swap].
Defined.

(** ** The question generator *)

Section GeneratorMore.

Import QuestionGenerator.

Lemma from_first_open_sound (s t : string) :
  from_first_open s = Some t ->
  exists pre rest,
    s = pre +:+ t /\ t = String "[" rest /\ lacks "["%char pre.
Proof.
  induction s as [|c s IH]; [done|]. simpl.
  destruct (Ascii.eqb_spec c "["%char) as [->|Hc].
  - intros [= <-]. by exists "", s.
  - intros H. destruct (IH H) as (pre & rest & -> & -> & Hpre).
    by exists (String c pre), rest.
Qed.

Lemma from_first_open_complete (pre rest : string) :
  lacks "["%char pre ->
  from_first_open (pre +:+ String "[" rest) = Some (String "[" rest).
Proof.
  induction pre as [|c pre IH]; [done|]. simpl. intros [Hc Hpre].
  destruct (Ascii.eqb_spec c "["%char) as [->|_]; [done|by apply IH].
Qed.

Lemma upto_last_close_none (post : string) :
  lacks "]"%char post -> upto_last_close post = None.
Proof.
  induction post as [|c post IH]; [done|]. simpl. intros [Hc Hpost].
  rewrite IH by done. by destruct (Ascii.eqb_spec c "]"%char).
Qed.

Lemma upto_last_close_sound (s p : string) :
  upto_last_close s = Some p ->
  exists mid post,
    s = mid +:+ String "]" post /\ p = mid +:+ "]" /\ lacks "]"%char post.
Proof.
  revert p. induction s as [|c s IH]; [done|]. intros p. simpl.
  destruct (upto_last_close s) as [p'|] eqn:Hs.
  - intros [= <-]. destruct (IH p' eq_refl) as (mid & post & -> & -> & Hpost).
    by exists (String c mid), post.
  - destruct (Ascii.eqb_spec c "]"%char) as [->|_]; [|done].
    intros [= <-]. exists "", s. split; [done|]. split; [done|].
    clear IH. induction s as [|d s IH]; [done|]. simpl in Hs.
    destruct (upto_last_close s); [done|].
    destruct (Ascii.eqb_spec d "]"%char); [done|]. split; [done|by apply IH].
Qed.

Lemma upto_last_close_complete (mid post : string) :
  lacks "]"%char post ->
  upto_last_close (mid +:+ String "]" post) = Some (mid +:+ "]").
Proof.
  intros Hpost. induction mid as [|c mid IH]; simpl.
  - by rewrite upto_last_close_none.
  - by rewrite IH.
Qed.

(** X3.  The text taken from a completion reply is the stretch from the
    first opening bracket of the reply to the last closing bracket after it,
    and there is none exactly when no closing bracket follows an opening
    one. *)
Theorem match_json_array_spec (content m : string) :
  match_json_array content = Some m
  <-> exists pre mid post,
        content = pre +:+ "[" +:+ mid +:+ "]" +:+ post
        /\ m = "[" +:+ mid +:+ "]"
        /\ lacks "["%char pre
        /\ lacks "]"%char post.
Proof.
  unfold match_json_array. split.
  - destruct (from_first_open content) as [t|] eqn:Ht; [|done].
    intros Hm.
    destruct (from_first_open_sound _ _ Ht) as (pre & rest & -> & -> & Hpre).
    destruct (upto_last_close_sound _ _ Hm) as (mid & post & Heq & -> & Hpost).
    destruct mid as [|c mid]; [done|]. simpl in Heq.
    injection Heq as <- ->.
    by exists pre, mid, post.
  - intros (pre & mid & post & -> & -> & Hpre & Hpost). simpl.
    rewrite from_first_open_complete by done.
    apply (upto_last_close_complete (String "[" mid) post Hpost).
Qed.

End GeneratorMore.

(** ** The request router *)

Section ServerMore.

Context (env : Env).

Lemma length_append (a b : string) :
  String.length (a +:+ b) = String.length a + String.length b.
Proof. induction a as [|c a IH]; simpl; [done|by rewrite IH]. Qed.

Lemma substring_all (s : string) : String.substring 0 (String.length s) s = s.
Proof. induction s as [|c s IH]; simpl; [done|by rewrite IH]. Qed.

Lemma substring_append_right (a b : string) :
  String.substring (String.length a) (String.length b) (a +:+ b) = b.
Proof. induction a as [|c a IH]; simpl; [apply substring_all|done]. Qed.

Lemma endsWith_append (a p : string) : JS.endsWith (a +:+ p) p = true.
Proof.
  unfold JS.endsWith. rewrite length_append.
  replace (String.length a + String.length p - String.length p)
    with (String.length a) by lia.
  rewrite substring_append_right, String.eqb_refl, andb_true_r.
  apply Nat.leb_le. lia.
Qed.

Lemma fetch_unfold_handler (req : Server.Request) (w : World)
    (handler : M Server.Response) :
  try_catch handler
    (fun error =>
       ret (Server.sendError
              match error with
              | JsError message => message
              | Thrown _ => "Internal server error"
              end 500)) w
  = match handler w with
    | (inr response, w') => (inr response, w')
    | (inl e, w') => (inr (error_response e), w')
    end.
Proof. unfold try_catch. by destruct (handler w) as [[e|r] w']. Qed.

Lemma fetch_generate (body : Server.RequestBody) (w : World) :
  Server.fetch env (generate_request body) w
  = match Server.handle_generate env (generate_request body) w with
    | (inr response, w') => (inr response, w')
    | (inl e, w') => (inr (error_response e), w')
    end.
Proof.
  unfold Server.fetch, generate_request. simpl.
  apply (fetch_unfold_handler (generate_request body)).
Qed.

Lemma handle_generate_unfold (body : Server.RequestBody) (w : World) :
  Server.handle_generate env (generate_request body) w
  = match Server.truthy (Server.b_studyGuideUrl body),
          Server.truthy (Server.b_certificationName body) with
    | Some studyGuideUrl, Some certificationName =>
        match APIRoutes.generateTest env studyGuideUrl certificationName
                (JS.number_or (Server.b_questionCount body) 40) w with
        | (inr test, w') =>
            (inr (Server.sendJSON
                    (Server.JObject [("test", Server.json_generated_test test)])
                    200), w')
        | (inl e, w') => (inl e, w')
        end
    | _, _ =>
        (inr (Server.sendError
                "studyGuideUrl and certificationName are required" 400), w)
    end.
Proof.
  unfold Server.handle_generate, generate_request, bind, lift, ret. simpl.
  destruct (Server.truthy (Server.b_studyGuideUrl body)); [|done].
  destruct (Server.truthy (Server.b_certificationName body)); [|done].
  by destruct (APIRoutes.generateTest _ _ _ _ _) as [[e|test] w'].
Qed.

(** X4.  A request to generate a test that names no study guide or no
    certification is refused with status 400 before anything is fetched,
    asked or stored. *)
Theorem generate_requires_fields (body : Server.RequestBody) (w : World) :
  Server.b_studyGuideUrl body = None \/ Server.b_studyGuideUrl body = Some ""
  \/ Server.b_certificationName body = None
  \/ Server.b_certificationName body = Some "" ->
  Server.fetch env (generate_request body) w
  = (inr (Server.sendError
            "studyGuideUrl and certificationName are required" 400), w).
Proof.
  intros H. rewrite fetch_generate, handle_generate_unfold.
  destruct H as [-> | [-> | [-> | ->]]]; simpl; try done;
    by destruct (Server.truthy (Server.b_studyGuideUrl body)).
Qed.

Lemma generateTest_outcome (studyGuideUrl certificationName : string)
    (questionCount : float) (w w' : World)
    (r : Exn + PracticeTest Entry) :
  APIRoutes.generateTest env studyGuideUrl certificationName questionCount w
  = (r, w') ->
  match r with
  | inl _ => w_files w' = w_files w
  | inr test =>
      exists studyGuideContent,
        ContentExtractor.fetchContent env studyGuideUrl w
        = (inr studyGuideContent, fetched w)
        /\ w_chats w'
           = w_chats w
             ++ planned_requests questionCount
                  (String.substring 0 15000
                     (QuestionGenerator.combinedContentOf studyGuideContent []))
  end.
Proof.
  rewrite generateTest_unfold.
  destruct (fetchContent_world env studyGuideUrl w) as [r1 H1]. rewrite H1.
  destruct r1 as [e|studyGuideContent]; [by intros [= <- <-]|].
  destruct (QuestionGenerator.generateQuestions env studyGuideContent []
              questionCount (fetched w)) as [[e|questions] w2] eqn:H2;
    apply generateQuestions_spec in H2 as (Hfiles & _ & H2).
  - intros [= <- <-]. by rewrite Hfiles.
  - intros [= <- <-]. exists studyGuideContent. split; [done|].
    simpl. by destruct H2 as [-> _].
Qed.

(** X5.  A request to generate a test whose question count is missing or
    zero is served as one with 40 questions: when it succeeds, the
    completion service has been asked for 24 single-answer and then for 16
    multi-answer questions. *)
Theorem generate_default_count (body : Server.RequestBody) (w w' : World)
    (response : Server.Response) :
  Server.b_questionCount body = None
  \/ Server.b_questionCount body = Some 0%float ->
  Server.fetch env (generate_request body) w = (inr response, w') ->
  Server.status response = 200 ->
  exists content,
    w_chats w'
    = w_chats w ++ [mkChatRequest multiple_choice 24 content;
                    mkChatRequest multiple_select 16 content].
Proof.
  intros Hcount. rewrite fetch_generate, handle_generate_unfold.
  assert (JS.number_or (Server.b_questionCount body) 40 = 40%float) as ->
    by (by destruct Hcount as [-> | ->]).
  destruct (Server.truthy (Server.b_studyGuideUrl body)) as [url|];
    [|by intros [= <- <-]].
  destruct (Server.truthy (Server.b_certificationName body)) as [name|];
    [|by intros [= <- <-]].
  destruct (APIRoutes.generateTest env url name 40 w) as [[e|test] w1] eqn:H;
    [by intros [= <- <-]|].
  intros [= <- <-] _.
  apply generateTest_outcome in H as (content & _ & ->). by eexists.
Qed.


Lemma split_submit_path (t : string) :
  lacks JS.slash t ->
  JS.split ("/api/test/" +:+ t +:+ "/submit") "/api/test/" !! 1
  = Some (t +:+ "/submit").
Proof.
  intros Ht. unfold JS.split. simpl. rewrite prefix_empty.
  rewrite (split_go_lacks "api/test/" "" t "/submit" Ht
           : JS.split_go "/api/test/" 0 "" (t +:+ "/submit") = _).
  simpl. by rewrite !append_assoc.
Qed.

Lemma replace_submit (t : string) :
  lacks JS.slash t -> JS.replace (t +:+ "/submit") "/submit" "" = t.
Proof.
  intros Ht. unfold JS.replace.
  rewrite (replace_go_lacks "submit" "" t "/submit" Ht
           : JS.replace_go "/submit" "" (t +:+ "/submit") = _).
  simpl. apply append_empty_r.
Qed.

Lemma fetch_submit (t : string) (body : Exn + Server.RequestBody) (w : World) :
  Server.fetch env (submit_request t body) w
  = match Server.handle_submit env (submit_request t body) w with
    | (inr response, w') => (inr response, w')
    | (inl e, w') => (inr (error_response e), w')
    end.
Proof.
  unfold Server.fetch, submit_request.
  cbn [Server.req_pathname Server.req_method].
  set (path := "/api/test/" +:+ t +:+ "/submit").
  assert ((path =? "/api/search")%string = false) as -> by reflexivity.
  assert ((path =? "/api/generate-test")%string = false) as -> by reflexivity.
  assert (JS.startsWith path "/api/test/" = true) as ->
    by apply startsWith_api_test.
  assert (JS.endsWith path "/submit" = true) as ->.
  { unfold path. rewrite <- append_assoc. apply endsWith_append. }
  change ("POST" =? "OPTIONS")%string with false.
  change ("POST" =? "GET")%string with false.
  change ("POST" =? "POST")%string with true.
  rewrite !andb_false_r. cbn [andb].
  apply (fetch_unfold_handler (submit_request t body)).
Qed.

Lemma handle_submit_id (t : string) (body : Exn + Server.RequestBody) :
  t <> "" -> lacks JS.slash t ->
  Server.truthy
    (option_map (fun s => JS.replace s "/submit" "")
       (JS.split (Server.req_pathname (submit_request t body)) "/api/test/"
        !! 1))
  = Some t.
Proof.
  intros Hne Ht. unfold submit_request. cbn [Server.req_pathname].
  rewrite split_submit_path by done. cbn [option_map].
  rewrite replace_submit by done. by destruct t.
Qed.


(** X8.  A submission that cannot be scored stores no session and changes
    nothing: a body that is no JSON gets status 500 with the message of the
    parser, an unknown test gets 404, and a body without [answers] for a
    test that has questions gets 500. *)
Theorem submit_failures (t : string) (w : World) :
  t <> "" -> lacks JS.slash t ->
  (forall e,
     Server.fetch env (submit_request t (inl e)) w
     = (inr (error_response e), w))
  /\ (forall body,
        APIRoutes.getTest env t w = (inr None, w) ->
        Server.fetch env (submit_request t (inr body)) w
        = (inr (Server.sendError "Test not found" 404), w))
  /\ (forall body test,
        APIRoutes.getTest env t w = (inr (Some test), w) ->
        Server.b_answers body = None ->
        t_questions test <> [] ->
        Server.fetch env (submit_request t (inr body)) w
        = (inr (Server.sendError
                  "undefined is not an object (evaluating 'answers[question.id]')"
                  500), w)).
Proof.
  intros Hne Ht. repeat split.
  - intros e. rewrite fetch_submit. unfold Server.handle_submit.
    by rewrite handle_submit_id.
  - intros body Hget. rewrite fetch_submit. unfold Server.handle_submit.
    rewrite handle_submit_id by done.
    unfold bind, lift, submit_request. cbn [Server.req_json].
    by rewrite Hget.
  - intros body test Hget Ha Hq. rewrite fetch_submit.
    unfold Server.handle_submit. rewrite handle_submit_id by done.
    unfold bind, lift, submit_request. cbn [Server.req_json].
    rewrite Hget, Ha. unfold Server.score_request.
    by destruct (t_questions test).
Qed.

Ltac run_handlers :=
  unfold try_catch, Server.handle_search, Server.handle_get_test,
    Server.handle_get_answers, Server.handle_index,
    APIRoutes.searchCertifications, APIRoutes.getTest, bind, lift, ret, throw,
    try_catch, existsSync, readFile;
  repeat rewrite loadTest_spec.

(** X9.  A request whose method is not POST changes nothing: no file is
    written, no page is fetched, no completion is asked for, and neither the
    clock nor the random generator is read. *)
Theorem fetch_read_only (req : Server.Request) (w w' : World)
    (r : Exn + Server.Response) :
  Server.req_method req <> "POST" ->
  Server.fetch env req w = (r, w') ->
  w' = w.
Proof.
  intros Hm. unfold Server.fetch.
  destruct (String.eqb (Server.req_method req) "OPTIONS");
    [by intros [= <- <-]|].
  apply String.eqb_neq in Hm. rewrite Hm, !andb_false_r.
  run_handlers.
  repeat case_match; simplify_eq;
    repeat match goal with
           | H : TestStorage.loadTest _ _ _ = _ |- _ =>
               rewrite loadTest_spec in H; simplify_eq
           end;
    by intros [= <- <-].
Qed.

Ltac run_all_handlers :=
  unfold try_catch, Server.handle_search, Server.handle_generate,
    Server.handle_get_test, Server.handle_get_answers, Server.handle_submit,
    Server.handle_index, Server.score_request,
    APIRoutes.searchCertifications, APIRoutes.getTest, bind, lift, ret, throw,
    try_catch, existsSync, readFile, now.

(** X10.  Every request is answered: whatever a handler throws becomes a
    response, and the status of a response is 200, 400, 404 or 500. *)
Theorem fetch_always_responds (req : Server.Request) (w : World) :
  exists response w',
    Server.fetch env req w = (inr response, w')
    /\ Server.status response ∈ [200; 400; 404; 500].
Proof.
  unfold Server.fetch. run_all_handlers.
  repeat case_match; simplify_eq; eexists _, _;
    (split; [reflexivity|]); apply list_elem_of_In; simpl; auto 6.
Qed.

Lemma prefix_append (p s : string) :
  String.prefix p s = true -> exists rest, s = p +:+ rest.
Proof.
  revert s. induction p as [|c p IH]; intros s; [by exists s|].
  destruct s as [|d s]; [done|]. rewrite prefix_cons.
  destruct (ascii_dec c d) as [->|]; [|done].
  intros [rest ->]%IH. by exists rest.
Qed.

(** X11.  Every response to a request below [/api/] carries the three CORS
    headers, whatever the method, the route and the outcome. *)
Theorem api_responses_carry_cors (req : Server.Request) (w w' : World)
    (response : Server.Response) :
  JS.startsWith (Server.req_pathname req) "/api/" = true ->
  Server.fetch env req w = (inr response, w') ->
  Server.corsHeaders `prefix_of` Server.headers response.
Proof.
  intros [rest Hpath]%prefix_append. unfold Server.fetch. rewrite Hpath.
  assert (("/api/" +:+ rest =? "/")%string = false) as -> by reflexivity.
  assert (("/api/" +:+ rest =? "/index.html")%string = false) as ->
    by reflexivity.
  assert (JS.startsWith ("/api/" +:+ rest) "/src/" = false) as ->
    by reflexivity.
  run_all_handlers.
  repeat case_match; simplify_eq; intros [= <- <-];
    first [done | by eexists].
Qed.

End ServerMore.

Lemma generate_requires_fields_witness :
  Server.fetch Sample.env (generate_request Fixture.generate_body_no_url)
    Sample.w0
  = (inr (Server.sendError
            "studyGuideUrl and certificationName are required" 400),
     Sample.w0).
Proof.
  apply (generate_requires_fields Sample.env Fixture.generate_body_no_url).
  left. reflexivity.
Defined.

Lemma generate_default_count_witness :
  let r := Server.fetch Sample.env (generate_request Fixture.generate_body)
             Sample.w0 in
  exists content,
    w_chats (snd r)
    = w_chats Sample.w0 ++ [mkChatRequest multiple_choice 24 content;
                            mkChatRequest multiple_select 16 content].
Proof.
  intros r.
  assert (exists response,
            r = (inr response, snd r) /\ Server.status response = 200)
    as (response & Hr & Hstatus)
    by (vm_compute; eexists; split; reflexivity).
  exact (generate_default_count Sample.env Fixture.generate_body Sample.w0
           (snd r) response (or_introl eq_refl) Hr Hstatus).
Defined.



Lemma submit_failures_witness :
  Server.fetch Sample.env
    (submit_request "test-1" (inr Fixture.submit_body_no_answers)) Sample.w1
  = (inr (Server.sendError
            "undefined is not an object (evaluating 'answers[question.id]')"
            500), Sample.w1).
Proof.
  assert (Ht : lacks JS.slash "test-1") by (vm_compute; intuition congruence).
  assert (Hne : "test-1" <> "") by discriminate.
  apply (proj2 (proj2 (submit_failures Sample.env "test-1" Sample.w1 Hne Ht))
           Fixture.submit_body_no_answers Sample.test1);
    first [discriminate | (vm_compute; reflexivity)].
Defined.

Lemma fetch_read_only_witness :
  snd (Server.fetch Sample.env (Sample.get "/api/test/test-1") Sample.w1)
  = Sample.w1.
Proof.
  apply (fetch_read_only Sample.env (Sample.get "/api/test/test-1") Sample.w1
           _ (fst (Server.fetch Sample.env (Sample.get "/api/test/test-1")
                     Sample.w1))).
  - discriminate.
  - apply surjective_pairing.
Defined.

Lemma api_responses_carry_cors_witness :
  Server.corsHeaders
  `prefix_of` Server.headers
                (Server.sendError "Test not found" 404).
Proof.
  apply (api_responses_carry_cors Sample.env
           (Sample.get "/api/test/test-1/answers") Sample.w1 Sample.w1);
    vm_compute; reflexivity.
Defined.


(** ** The test repository *)

Section StorageMore.

Context (env : Env).

(** X12.  A test that has been saved is read back, by its id, as what the
    parser makes of its document; the tests kept in other files are read as
    before. *)
Theorem saveTest_then_loadTest (test : PracticeTest Entry)
    (w : World) :
  let w' := snd (TestStorage.saveTest env test w) in
  TestStorage.loadTest env (t_id test) w'
  = (inr match JSON_parse_test env (JSON_stringify_test env test) with
         | inr stored => Some stored
         | inl _ => None
         end, w')
  /\ forall testId,
       path_join env TestStorage.storageDir (testId +:+ ".json")
       <> path_join env TestStorage.storageDir (t_id test +:+ ".json") ->
       fst (TestStorage.loadTest env testId w')
       = fst (TestStorage.loadTest env testId w).
Proof.
  intros w'. rewrite !loadTest_spec. subst w'. simpl. split.
  - by rewrite lookup_insert_eq.
  - intros testId Hne. rewrite !loadTest_spec. simpl.
    by rewrite lookup_insert_ne.
Qed.

(** X13.  A test that [generateTest] has returned can be taken: the request
    [GET /api/test/<id>] for its id is answered with status 200 and the
    stored document of the test in the form made for test-taking. *)
Theorem generated_test_can_be_taken (studyGuideUrl certificationName : string)
    (questionCount : float) (w w1 : World)
    (test : PracticeTest Entry) (stored : PracticeTest string)
    (q : option string) (body : Exn + Server.RequestBody) :
  (forall r, lacks JS.slash (toString36 env r)) ->
  APIRoutes.generateTest env studyGuideUrl certificationName questionCount w
  = (inr test, w1) ->
  JSON_parse_test env (JSON_stringify_test env test) = inr stored ->
  Server.fetch env
    (Server.mkRequest "GET" ("/api/test/" +:+ t_id test) q body) w1
  = (inr (Server.sendJSON
            (Server.JObject [("test", Server.testForTaking stored)]) 200),
     w1).
Proof.
  intros Hslash Hgen Hparse.
  destruct (generateTest_id_lacks_slash env _ _ _ _ _ _ Hslash Hgen)
    as [Hne Hid].
  apply generateTest_stores in Hgen as (Hfile & _).
  rewrite fetch_get_test by apply startsWith_api_test.
  unfold try_catch, Server.handle_get_test.
  rewrite split_test_path by done.
  assert (Server.truthy (Some (t_id test)) = Some (t_id test)) as ->
    by (by destruct (t_id test)).
  unfold bind, APIRoutes.getTest.
  by rewrite loadTest_spec, Hfile, Hparse.
Qed.

End StorageMore.

Lemma generated_test_can_be_taken_witness :
  Server.fetch Fixture.env_store (Sample.get "/api/test/test-1700000000002-82mvyr")
    (snd (APIRoutes.generateTest Fixture.env_store Fixture.url "AZ-900" 2
            Sample.w0))
  = (inr (Server.sendJSON
            (Server.JObject [("test", Server.testForTaking Fixture.stored_test)])
            200),
     snd (APIRoutes.generateTest Fixture.env_store Fixture.url "AZ-900" 2
            Sample.w0)).
Proof.
  assert (exists test,
            APIRoutes.generateTest Fixture.env_store Fixture.url "AZ-900" 2
              Sample.w0
            = (inr test,
               snd (APIRoutes.generateTest Fixture.env_store Fixture.url
                      "AZ-900" 2 Sample.w0))
            /\ t_id test = "test-1700000000002-82mvyr"
            /\ JSON_parse_test Fixture.env_store
                 (JSON_stringify_test Fixture.env_store test)
               = inr Fixture.stored_test)
    as (test & Hgen & Hid & Hparse)
    by (vm_compute; eexists; repeat split; reflexivity).
  assert (forall r, lacks JS.slash (toString36 Fixture.env_store r)) as Hslash
    by (intros r; vm_compute; intuition congruence).
  unfold Sample.get. rewrite <- Hid.
  exact (generated_test_can_be_taken Fixture.env_store Fixture.url "AZ-900" 2
           Sample.w0 _ test Fixture.stored_test None _ Hslash Hgen Hparse).
Defined.

(** ** The causes of a failed generation *)

Section FailureCauses.

Context (env : Env).

Import QuestionGenerator.

Lemma batch_failure_causes {R} (kind : QuestionType)
    (parse : string -> Exn + list (Exn + R))
    (build : N -> nat -> R -> Question Entry)
    (content : string) (count : float) (w w' : World) (e : Exn) :
  let request := mkChatRequest kind count (String.substring 0 15000 content) in
  batch env kind parse build content count w = (inl e, w')
  <-> exists cause readings,
        w' = ticked readings (sent request w)
        /\ e = JsError ("Failed to generate questions: "
                        +:+ error_message cause)
        /\ failure_cause (chat_create env (length (w_chats w)) request)
             parse cause readings.
Proof.
  intros request. unfold batch. fold request.
  unfold reply_json, try_catch, bind, chat, lift, rethrow_failed, throw, ret,
    failure_cause.
  cbv beta. fold (sent request w). split.
  - destruct (chat_create env (length (w_chats w)) request)
      as [e0|[[|c text]|]] eqn:Hreply.
    + intros [= <- <-]. exists e0, 0. rewrite ticked_0. auto.
    + intros [= <- <-]. exists (JsError "No response from OpenAI"), 0.
      rewrite ticked_0. split; [done|]. split; [reflexivity|auto].
    + destruct (match_json_array (String c text)) as [jsonMatch|] eqn:Hm.
      * destruct (parse jsonMatch) as [e1|parsed] eqn:Hp.
        -- intros [= <- <-]. exists e1, 0. rewrite ticked_0.
           split; [done|]. split; [reflexivity|].
           do 3 right. exists (String c text), jsonMatch.
           split_and!; try done. by left.
        -- rewrite mapM_stamped. pose proof (readable_shape parsed) as Hshape.
           destruct (readable parsed) as [records [e1|]]; [|done].
           destruct Hshape as [rest ->].
           intros [= <- <-]. exists e1, (S (length records)).
           split; [done|]. split; [reflexivity|].
           do 3 right. exists (String c text), jsonMatch.
           split_and!; try done. right. by exists records, rest.
      * intros [= <- <-].
        exists (JsError "Invalid JSON response from OpenAI"), 0.
        rewrite ticked_0. split; [done|]. split; [reflexivity|].
        do 2 right. left. by exists (String c text).
    + intros [= <- <-]. exists (JsError "No response from OpenAI"), 0.
      rewrite ticked_0. split; [done|]. split; [reflexivity|auto].
  - intros (cause & readings & -> & -> & Hcause).
    destruct Hcause
      as [[H ->] | [[[H | H] [-> ->]]
                   | [(text & H & Hne & Hm & -> & ->)
                     | (text & jsonMatch & H & Hne & Hm & Hp)]]];
      rewrite H; rewrite ?ticked_0; try done.
    + destruct text; [done|]. by rewrite Hm.
    + destruct text; [done|]. rewrite Hm.
      destruct Hp as [[Hp ->] | (records & rest & Hp & ->)]; rewrite Hp.
      * by rewrite ticked_0.
      * by rewrite mapM_stamped, readable_stops.
Qed.

(** X14.  A sub-batch of questions fails exactly when the completion call
    fails, its reply is missing or empty, the reply holds no bracketed array,
    the array does not parse, or the callback of [parsed.map] cannot read one
    of its entries.  The error is then an Error whose message is
    "Failed to generate questions: " followed by the message of the cause.
    One request has been sent, and the clock has been read once for every
    entry up to the one that could not be read, and not at all in the other
    cases. *)
Theorem generation_failure_causes (content : string) (count : float)
    (w w' : World) (e : Exn) :
  let request kind :=
    mkChatRequest kind count (String.substring 0 15000 content) in
  let reply kind := chat_create env (length (w_chats w)) (request kind) in
  (generateMultipleChoiceQuestions env content count w = (inl e, w')
   <-> exists cause readings,
         w' = ticked readings (sent (request multiple_choice) w)
         /\ e = JsError ("Failed to generate questions: "
                         +:+ error_message cause)
         /\ failure_cause (reply multiple_choice)
              (JSON_parse_choices env) cause readings)
  /\ (generateMultipleSelectQuestions env content count w = (inl e, w')
      <-> exists cause readings,
            w' = ticked readings (sent (request multiple_select) w)
            /\ e = JsError ("Failed to generate questions: "
                            +:+ error_message cause)
            /\ failure_cause (reply multiple_select)
                 (JSON_parse_selects env) cause readings).
Proof.
  intros request reply. split.
  - rewrite generateMultipleChoiceQuestions_batch. apply batch_failure_causes.
  - rewrite generateMultipleSelectQuestions_batch. apply batch_failure_causes.
Qed.

End FailureCauses.

(** ** The search for related content *)

Section RelatedContent.

Context (senv : Legacy.SearchEnv).

Lemma searched_0 (w : World) : searched 0 w = w.
Proof. destruct w. unfold searched. simpl. by rewrite Nat.add_0_r. Qed.

Lemma searched_S (n : nat) (w : World) :
  searched n (searched 1 w) = searched (S n) w.
Proof. unfold searched. simpl. f_equal. lia. Qed.

Lemma search_spec (searchQuery : string) (w : World) :
  Legacy.search senv searchQuery w
  = (Legacy.web_search senv (w_searches w) searchQuery, searched 1 w).
Proof.
  unfold Legacy.search, searched. do 2 f_equal. lia.
Qed.

Lemma add_pages_keeps (allResults : list Legacy.Related)
    (pages : list Legacy.WebPage) :
  Forall (fun r => Legacy.rel_content r = None) allResults ->
  Forall (fun r => Legacy.rel_content r = None)
         (Legacy.add_pages allResults pages).
Proof.
  unfold Legacy.add_pages. revert allResults.
  induction pages as [|page pages IH]; intros allResults H; [done|].
  simpl. apply IH. destruct (Legacy.known allResults page); [done|].
  apply Forall_app. split; [done|]. by constructor.
Qed.

Lemma add_pages_distinct (allResults : list Legacy.Related)
    (pages : list Legacy.WebPage) :
  Forall (fun page => is_Some (Legacy.wp_url page)) pages ->
  NoDup (map Legacy.rel_url allResults) ->
  NoDup (map Legacy.rel_url (Legacy.add_pages allResults pages)).
Proof.
  unfold Legacy.add_pages. revert allResults.
  induction pages as [|page pages IH]; intros allResults Hp H; [done|].
  apply Forall_cons in Hp as [[url Hurl] Hp].
  simpl. apply IH; [done|].
  destruct (Legacy.known allResults page) eqn:Hk; [done|].
  rewrite map_app. simpl. rewrite Hurl. simpl.
  apply NoDup_app. split; [done|]. split; [|apply NoDup_singleton].
  intros x Hx ->%list_elem_of_singleton.
  unfold Legacy.known in Hk. rewrite Hurl in Hk.
  apply list_elem_of_fmap in Hx as (r & -> & Hr).
  assert (existsb (fun r0 => String.eqb (Legacy.rel_url r0) (Legacy.rel_url r))
                  allResults = true); [|congruence].
  apply existsb_exists. exists r. split; [by apply list_elem_of_In|].
  apply String.eqb_refl.
Qed.

Lemma search_topics_spec (topics : list string)
    (allResults : list Legacy.Related) (w : World) :
  exists results n,
    Legacy.search_topics senv topics allResults w
    = (inr results, searched n w)
    /\ n <= length topics
    /\ (Forall (fun r => Legacy.rel_content r = None) allResults ->
        Forall (fun r => Legacy.rel_content r = None) results)
    /\ (pages_have_urls senv ->
        NoDup (map Legacy.rel_url allResults) ->
        NoDup (map Legacy.rel_url results)).
Proof.
  revert allResults w.
  induction topics as [|topic rest IH]; intros allResults w.
  - exists allResults, 0. by rewrite searched_0.
  - simpl. unfold try_catch, bind. rewrite search_spec.
    destruct (Legacy.web_search senv (w_searches w)
                (topic +:+ " Microsoft Azure certification"))
      as [e|value] eqn:Hsearch.
    + exists allResults, 1. unfold ret. repeat split; [lia|done|done].
    + destruct (IH (Legacy.add_pages allResults (default [] value))
                  (searched 1 w)) as (results & n & Hrun & Hn & Hc & Hd).
      rewrite Hrun. exists results, (S n). rewrite searched_S.
      repeat split; [lia| |].
      * intros H. by apply Hc, add_pages_keeps.
      * intros Hurls H. apply Hd; [done|]. apply add_pages_distinct; [|done].
        destruct value as [pages|]; [|by constructor]. simpl.
        apply Forall_forall. intros page Hpage. by eapply Hurls.
Qed.





End RelatedContent.


(** The second search fails: the third topic is not searched for, and the
    page of the first search is returned. *)
Example searchRelatedContent_stops :
  Legacy.searchRelatedContent Fixture.senv_failing
    ["Storage accounts"; "Blob storage"; "Queues"] 5 Sample.w0
  = (inr [Legacy.mkRelated "Storage accounts"
            "https://learn.microsoft.com/storage" "About storage accounts"
            None],
     searched 2 Sample.w0).
Proof. vm_compute. reflexivity. Qed.

(** ** What the earlier revision of [generateTest] may cost *)

Section LegacyCost.

Context (env : Env) (senv : Legacy.SearchEnv).

Import QuestionGenerator.

Lemma sub_batch_searches {R} (kind : QuestionType)
    (parse : string -> Exn + list (Exn + R))
    (build : N -> nat -> R -> Question Entry)
    (content : string) (count : float) (w w' : World)
    (r : Exn + list (Question Entry)) :
  sub_batch count (batch env kind parse build content) w = (r, w') ->
  w_searches w' = w_searches w.
Proof.
  unfold sub_batch. destruct (0 <? count)%float; [|by intros [= <- <-]].
  destruct (batch_spec env kind parse build content count w)
    as [(e & n & ->) | (jsonMatch & parsed & _ & Hp & ->)];
    by intros [= <- <-].
Qed.

Lemma generateQuestions_searches (studyGuideContent : string)
    (webContent : list WebContent) (questionCount : float) (w w' : World)
    (r : Exn + list (Question Entry)) :
  generateQuestions env studyGuideContent webContent questionCount w = (r, w')
  -> w_searches w' = w_searches w.
Proof.
  rewrite generateQuestions_unfold. cbv zeta. unfold bind.
  destruct (sub_batch (multipleChoiceCountOf questionCount) _ w)
    as [[e|mcq] w1] eqn:H1;
    apply (sub_batch_searches multiple_choice (JSON_parse_choices env)
             mk_choice) in H1.
  { by intros [= <- <-]. }
  destruct (sub_batch (multipleSelectCountOf questionCount) _ w1)
    as [[e|msq] w2] eqn:H2;
    apply (sub_batch_searches multiple_select (JSON_parse_selects env)
             mk_select) in H2.
  { intros [= <- <-]. congruence. }
  match goal with
  | |- context [shuffleArray env ?l w2] =>
      destruct (shuffleArray_spec env l w2) as (result & -> & Hp)
  end.
  intros [= <- <-]. simpl. congruence.
Qed.

Lemma enrichment_cost (items : list Legacy.Related) (index : nat) (w : World) :
  exists results w',
    mapM_index (Legacy.with_full_text env) index items w = (inr results, w')
    /\ w_fetches w' = w_fetches w + length items
    /\ w_searches w' = w_searches w.
Proof.
  revert index w. induction items as [|item items IH]; intros index w.
  - exists [], w. simpl. unfold ret. repeat split; lia.
  - simpl. unfold bind.
    destruct (with_full_text_total env item index w) as [r ->].
    destruct (IH (S index) (fetched w)) as (results & w' & -> & Hf & Hs).
    exists (r :: results), w'. unfold ret. repeat split.
    + rewrite Hf. simpl. lia.
    + by rewrite Hs.
Qed.

(** X16.  One run of the earlier [generateTest], whether it returns or
    throws, makes at most 10 web searches and fetches at most 7 pages: the
    study guide twice and the first five pages found. *)
Theorem legacy_generateTest_cost
    (studyGuideUrl certificationName : string) (questionCount : float)
    (w w' : World) (r : Exn + PracticeTest Entry) :
  Legacy.generateTest env senv studyGuideUrl certificationName questionCount w
  = (r, w') ->
  w_searches w' <= w_searches w + 10
  /\ w_fetches w' <= w_fetches w + 7.
Proof.
  unfold Legacy.generateTest, bind.
  destruct (fetchContent_world env studyGuideUrl w) as [r1 ->].
  destruct r1 as [e|studyGuideContent];
    [intros [= <- <-]; simpl; lia|].
  unfold fetch_url at 1. cbn [w_fetches].
  set (w2 := mkWorld _ (S (w_fetches (fetched w))) _ _ _ _).
  assert (w_fetches w2 = w_fetches w + 2 /\ w_searches w2 = w_searches w)
    as [Hf2 Hs2] by (subst w2; simpl; split; lia).
  clearbody w2.
  destruct (http_fetch env _ studyGuideUrl) as [e|response];
    [intros [= <- <-]; lia|].
  unfold lift.
  destruct (r_text response) as [e|html]; [intros [= <- <-]; lia|].
  unfold Legacy.searchRelatedContent.
  destruct (search_topics_spec senv
              (take 10 (Legacy.searchQueriesOf senv studyGuideContent
                          (Legacy.extractStructuredContent senv html)))
              [] w2)
    as (webContent & n & -> & Hn & _).
  rewrite length_take in Hn.
  destruct (enrichment_cost (take 5 webContent) 0 (searched n w2))
    as (enriched & w3 & -> & Hf3 & Hs3).
  rewrite length_take in Hf3. unfold searched in Hf3, Hs3.
  cbn [w_fetches w_searches] in Hf3, Hs3.
  destruct (generateQuestions env studyGuideContent
              (map Legacy.as_web_content enriched) questionCount w3)
    as [[e|questions] w4] eqn:Hq.
  - intros [= <- <-]. pose proof (generateQuestions_searches _ _ _ _ _ _ Hq).
    apply generateQuestions_spec in Hq as (_ & Hq & _). lia.
  - pose proof (generateQuestions_searches _ _ _ _ _ _ Hq).
    apply generateQuestions_spec in Hq as (_ & Hq & _).
    unfold now, random, TestStorage.saveTest, TestStorage.ensureDirectoryExists,
      bind, ret, writeFile.
    intros [= <- <-]. simpl. lia.
Qed.

End LegacyCost.

Lemma legacy_generateTest_cost_witness :
  let r := Legacy.generateTest Sample.env Fixture.senv Fixture.url "AZ-900" 2
             Sample.w0 in
  w_searches (snd r) <= w_searches Sample.w0 + 10
  /\ w_fetches (snd r) <= w_fetches Sample.w0 + 7.
Proof.
  intros r.
  assert (exists test w',
            r = (inr test, w') /\ w_searches w' = 1 /\ w_fetches w' = 3)
    as (test & w' & Hr & _) by (vm_compute; eexists _, _; repeat split).
  rewrite Hr.
  exact (legacy_generateTest_cost Sample.env Fixture.senv Fixture.url "AZ-900"
           2 Sample.w0 w' (inr test) Hr).
Defined.

(** ** The placeholders of the test repository *)

(** [listTests] returns no test and [getLatestSession] no session, whatever
    has been stored: also right after the test or the session asked for has
    been saved. *)
Lemma placeholders_find_nothing (env : Env)
    (test : PracticeTest Entry) (session : TestSession) (w : World) :
  fst (TestStorageQueries.listTests (snd (TestStorage.saveTest env test w)))
  = inr []
  /\ fst (TestStorageQueries.getLatestSession env (ts_testId session)
            (snd (TestStorage.saveSession env session w)))
     = inr None.
Proof.
  split; [done|].
  unfold TestStorageQueries.getLatestSession, bind, existsSync, ret.
  by case_match.
Qed.

(** ** The test-taking page *)

Section TestTakingPage.

Import TestTaking.

Lemma filter_out_last (option_ : string) (a : list string) :
  option_ ∉ a ->
  List.filter (fun x => negb (String.eqb x option_)) (a ++ [option_]) = a.
Proof.
  induction a as [|x a IH]; intros H; simpl.
  - by rewrite String.eqb_refl.
  - apply not_elem_of_cons in H as [Hx Ha].
    destruct (String.eqb_spec x option_) as [->|_]; [done|].
    simpl. by rewrite IH.
Qed.

(** X17.  Ticking an option of a multiple-select question and unticking it
    again leaves the answers of the question as they were, except that a
    question not answered before now has the empty array and is counted as
    answered. *)
Theorem toggle_twice (questionId option_ : string) (prev : Answers) :
  option_ ∉ default [] (prev !! questionId) ->
  let next :=
    handleAnswerChange questionId option_ true
      (handleAnswerChange questionId option_ true prev) in
  next = <[questionId := default [] (prev !! questionId)]> prev
  /\ (prev !! questionId = None ->
      next !! questionId = Some []
      /\ answeredCount next = S (answeredCount prev)).
Proof.
  intros Hnot next.
  assert (next = <[questionId := default [] (prev !! questionId)]> prev)
    as Hnext.
  { unfold next, handleAnswerChange.
    rewrite (bool_decide_eq_false_2 _ Hnot).
    rewrite lookup_insert_eq. simpl.
    rewrite bool_decide_eq_true_2
      by (apply elem_of_app; right; apply list_elem_of_here).
    by rewrite filter_out_last, insert_insert_eq. }
  split; [done|]. intros Hnone. rewrite Hnext, Hnone. simpl. split.
  - apply lookup_insert_eq.
  - unfold answeredCount. by apply map_size_insert_None.
Qed.

Lemma filter_NoDup (f : string -> bool) (a : list string) :
  NoDup a -> NoDup (List.filter f a).
Proof.
  induction 1 as [|x a Hx Ha IH]; simpl; [constructor|].
  destruct (f x); [|done]. constructor; [|done].
  intros Hin. apply Hx. apply list_elem_of_In in Hin.
  apply filter_In in Hin as [Hin _]. by apply list_elem_of_In.
Qed.

(** X18.  One change of an answer touches the array of its question only,
    leaves that question with an array, which a radio button makes the one
    option chosen, and keeps every array free of repeated entries. *)
Theorem handleAnswerChange_keeps (questionId option_ : string)
    (isMultiple : bool) (prev : Answers) :
  (forall id a, prev !! id = Some a -> NoDup a) ->
  let next := handleAnswerChange questionId option_ isMultiple prev in
  (forall id a, next !! id = Some a -> NoDup a)
  /\ (forall id, id <> questionId -> next !! id = prev !! id)
  /\ is_Some (next !! questionId)
  /\ (isMultiple = false -> next !! questionId = Some [option_]).
Proof.
  intros Hprev next.
  assert (NoDup (default [] (prev !! questionId))) as Hcur.
  { destruct (prev !! questionId) as [a|] eqn:Ha; [by eapply Hprev|].
    constructor. }
  unfold next, handleAnswerChange.
  destruct isMultiple; [case_bool_decide as Hin|]; repeat split;
    try (intros id a; destruct (decide (id = questionId)) as [->|Hne];
         [rewrite lookup_insert_eq; intros [= <-]
         |rewrite lookup_insert_ne by done; apply Hprev]);
    try (intros id Hne; by rewrite lookup_insert_ne);
    try (rewrite lookup_insert_eq; eauto; done);
    try done.
  - by apply filter_NoDup.
  - apply NoDup_app. split; [done|]. split; [|apply NoDup_singleton].
    by intros x Hx ->%list_elem_of_singleton.
  - apply NoDup_singleton.
Qed.

Lemma click_all_snoc (questionId : string) (clicks : list string)
    (prev : Answers) :
  NoDup clicks ->
  (forall o, o ∈ clicks -> o ∉ default [] (prev !! questionId)) ->
  default [] (click_all questionId true clicks prev !! questionId)
  = default [] (prev !! questionId) ++ clicks.
Proof.
  unfold click_all. revert prev.
  induction clicks as [|o clicks IH]; intros prev Hnd Hnew; cbn [foldl].
  - by rewrite app_nil_r.
  - apply NoDup_cons in Hnd as [Ho Hnd].
    assert (o ∉ default [] (prev !! questionId)) as Hnot
      by (apply Hnew; left).
    assert (handleAnswerChange questionId o true prev
            = <[questionId := default [] (prev !! questionId) ++ [o]]> prev)
      as -> by (unfold handleAnswerChange;
                by rewrite (bool_decide_eq_false_2 _ Hnot)).
    rewrite IH; [|done|].
    + rewrite lookup_insert_eq. simpl. by rewrite <- app_assoc.
    + intros o' Ho'. rewrite lookup_insert_eq. simpl.
      apply not_elem_of_app. split; [apply Hnew; by right|].
      intros ->%list_elem_of_singleton. done.
Qed.

(** X19.  A candidate who ticks, on a question not answered yet, exactly
    the options of its answer key, each once and in any order, has that
    question marked correct by the scorer. *)
Theorem ticking_the_key_is_correct (question : Question string)
    (clicks : list string) (prev : Answers) :
  prev !! q_id question = None ->
  clicks ≡ₚ q_correctAnswers question ->
  NoDup clicks ->
  let answers := click_all (q_id question) true clicks prev in
  Scorer.userAnswersOf answers question = clicks
  /\ Scorer.isCorrect (Scorer.userAnswersOf answers question)
       (q_correctAnswers question) = true.
Proof.
  intros Hnone Hperm Hnd answers.
  assert (Scorer.userAnswersOf answers question = clicks) as Hu.
  { unfold Scorer.userAnswersOf, answers.
    rewrite click_all_snoc; [by rewrite Hnone|done|].
    intros o _. rewrite Hnone. apply not_elem_of_nil. }
  split; [done|]. rewrite Hu.
  rewrite (isCorrect_perm _ (q_correctAnswers question) _
             (q_correctAnswers question)); [apply isCorrect_refl|done|done].
Qed.

End TestTakingPage.

Lemma toggle_twice_witness :
  let next :=
    TestTaking.handleAnswerChange "ms-1700000000001-0" "A" true
      (TestTaking.handleAnswerChange "ms-1700000000001-0" "A" true ∅) in
  next !! "ms-1700000000001-0" = Some []
  /\ TestTaking.answeredCount next = 1.
Proof.
  intros next.
  assert ("A" ∉ default [] ((∅ : Answers) !! "ms-1700000000001-0")) as Hnot
    by (apply (bool_decide_unpack _); by vm_compute).
  exact (proj2 (toggle_twice "ms-1700000000001-0" "A" ∅ Hnot) eq_refl).
Defined.

Lemma handleAnswerChange_keeps_witness :
  TestTaking.handleAnswerChange "mc-1700000000000-0" "Files" false
    Fixture.right_answers !! "mc-1700000000000-0"
  = Some ["Files"].
Proof.
  assert (forall id a, Fixture.right_answers !! id = Some a -> NoDup a) as Hnd.
  { change (map_Forall (fun _ a => NoDup a) Fixture.right_answers).
    apply (bool_decide_unpack _). by vm_compute. }
  exact (proj2 (proj2 (proj2 (handleAnswerChange_keeps "mc-1700000000000-0"
                                "Files" false Fixture.right_answers Hnd)))
           eq_refl).
Defined.

Lemma ticking_the_key_is_correct_witness :
  Scorer.isCorrect
    (Scorer.userAnswersOf
       (click_all (q_id Sample.q2) true ["B"; "A"] ∅) Sample.q2)
    (q_correctAnswers Sample.q2) = true.
Proof.
  assert (NoDup ["B"; "A"]) as Hnd
    by (apply (bool_decide_unpack _); by vm_compute).
  exact (proj2 (ticking_the_key_is_correct Sample.q2 ["B"; "A"] ∅ eq_refl
                  (perm_swap "A" "B" []) Hnd)).
Defined.


(** ** White space *)

Section WhiteSpace.

Import Text.

Lemma trimStart_suffix (s : string) : exists a, s = a +:+ trimStart s.
Proof.
  induction s as [|c s [a IH]]; [by exists ""|]. simpl.
  destruct (is_space c); [|by exists ""].
  exists (String c a). simpl. by rewrite <- IH.
Qed.

Lemma trimEnd_prefix (s : string) : exists b, s = trimEnd s +:+ b.
Proof.
  induction s as [|c s [b IH]]; [by exists ""|]. simpl.
  destruct (trimEnd s) as [|d t] eqn:Ht.
  - destruct (is_space c); [by exists (String c s)|].
    exists s. done.
  - exists b. simpl. by rewrite IH at 1.
Qed.

Lemma trim_middle (s : string) : exists a b, s = a +:+ trim s +:+ b.
Proof.
  destruct (trimStart_suffix s) as [a Ha].
  destruct (trimEnd_prefix (trimStart s)) as [b Hb].
  exists a, b. unfold trim. by rewrite <- Hb.
Qed.

Lemma length_trim (s : string) : String.length (trim s) <= String.length s.
Proof.
  destruct (trim_middle s) as (a & b & H). rewrite H at 2.
  rewrite !length_append. lia.
Qed.

Lemma trimStart_head (s : string) :
  match trimStart s with
  | String c _ => is_space c = false
  | EmptyString => True
  end.
Proof.
  induction s as [|c s IH]; [done|]. simpl.
  by destruct (is_space c) eqn:Hc.
Qed.

Lemma trimEnd_head (c : ascii) (s : string) :
  is_space c = false -> exists t, trimEnd (String c s) = String c t.
Proof.
  intros Hc. simpl. rewrite Hc. destruct (trimEnd s); eauto.
Qed.

Lemma trimEnd_last (s : string) (c : ascii) :
  last (list_ascii_of_string (trimEnd s)) = Some c -> is_space c = false.
Proof.
  induction s as [|d s IH]; [done|]. simpl.
  destruct (trimEnd s) as [|x t] eqn:Ht.
  - destruct (is_space d) eqn:Hd; [done|]. simpl. by intros [= <-].
  - simpl. simpl in IH. done.
Qed.

Lemma trim_no_outer_space (s : string) : no_outer_space (trim s) = true.
Proof.
  unfold no_outer_space, trim.
  pose proof (trimStart_head s) as Hhead.
  destruct (trimStart s) as [|c t] eqn:Hs; [done|].
  destruct (trimEnd_head c t Hhead) as [t' Ht']. rewrite Ht'.
  cbn [list_ascii_of_string head].
  destruct (last (c :: list_ascii_of_string t')) as [final|] eqn:Hlast;
    [|done].
  rewrite Hhead. simpl. apply negb_true_iff.
  apply (trimEnd_last (String c t)). by rewrite Ht'.
Qed.

Lemma single_spaced_suffix (a b : string) :
  single_spaced (a +:+ b) = true -> single_spaced b = true.
Proof.
  induction a as [|c a IH]; [done|]. simpl.
  intros [_ H]%andb_true_iff. by apply IH.
Qed.

Lemma single_spaced_prefix (a b : string) :
  single_spaced (a +:+ b) = true -> single_spaced a = true.
Proof.
  induction a as [|c a IH]; [done|]. simpl.
  intros [Hc H]%andb_true_iff. apply andb_true_iff. split; [|by apply IH].
  destruct (is_space c); [|done].
  apply andb_true_iff in Hc as [Hc Hd]. apply andb_true_iff. split; [done|].
  by destruct a.
Qed.

Lemma single_spaced_trim (s : string) :
  single_spaced s = true -> single_spaced (trim s) = true.
Proof.
  destruct (trim_middle s) as (a & b & H). rewrite H at 1.
  intros Hs. apply single_spaced_suffix in Hs.
  by apply single_spaced_prefix in Hs.
Qed.

Lemma list_ascii_of_string_append (a b : string) :
  list_ascii_of_string (a +:+ b)
  = list_ascii_of_string a ++ list_ascii_of_string b.
Proof. induction a as [|c a IH]; simpl; [done|by rewrite IH]. Qed.

Lemma words_and_spaces_trim (s : string) :
  words_and_spaces s = true -> words_and_spaces (trim s) = true.
Proof.
  destruct (trim_middle s) as (a & b & H). rewrite H at 1.
  unfold words_and_spaces.
  rewrite !list_ascii_of_string_append, !forallb_app.
  intros [_ [H' _]%andb_true_iff]%andb_true_iff. done.
Qed.

Lemma lacks_append_inv (c : ascii) (a b : string) :
  lacks c (a +:+ b) -> lacks c a /\ lacks c b.
Proof.
  induction a as [|d a IH]; [done|]. simpl. intros [Hd H].
  destruct (IH H). done.
Qed.

Lemma lacks_trim (c : ascii) (s : string) : lacks c s -> lacks c (trim s).
Proof.
  destruct (trim_middle s) as (a & b & H). rewrite H at 1.
  intros [_ [H' _]%lacks_append_inv]%lacks_append_inv. done.
Qed.

Lemma replace_spaces_go_spec (in_run : bool) (s : string) :
  single_spaced (replace_spaces_go in_run s) = true
  /\ (in_run = true ->
      match replace_spaces_go in_run s with
      | String d _ => is_space d = false
      | EmptyString => True
      end).
Proof.
  revert in_run. induction s as [|c s IH]; intros in_run; [done|]. simpl.
  destruct (is_space c) eqn:Hc.
  - destruct in_run; [apply IH|]. split; [|done].
    destruct (IH true) as [Hs Hhead]. specialize (Hhead eq_refl).
    simpl. rewrite Hs, andb_true_r.
    destruct (replace_spaces_go true s); [done|]. by rewrite Hhead.
  - split; [|done]. simpl. rewrite Hc. apply IH.
Qed.

Lemma replace_spaces_single_spaced (s : string) :
  single_spaced (replace_spaces s) = true.
Proof. apply replace_spaces_go_spec. Qed.

Lemma length_replace_spaces_go (in_run : bool) (s : string) :
  String.length (replace_spaces_go in_run s) <= String.length s.
Proof.
  revert in_run. induction s as [|c s IH]; intros in_run; [done|]. simpl.
  pose proof (IH true). pose proof (IH false).
  destruct (is_space c); [destruct in_run|]; simpl; lia.
Qed.

Lemma single_spaced_lacks (c : ascii) (s : string) :
  is_space c = true -> c <> " "%char ->
  single_spaced s = true -> lacks c s.
Proof.
  intros Hc Hne. induction s as [|d s IH]; [done|]. simpl.
  intros [Hd H]%andb_true_iff. split; [|by apply IH].
  intros ->. rewrite Hc in Hd. apply andb_true_iff in Hd as [Hd _].
  by apply Ascii.eqb_eq in Hd.
Qed.

Lemma replace_blank_lines_lacks (s : string) :
  lacks "010"%char s -> replace_blank_lines s = s.
Proof.
  unfold replace_blank_lines. induction s as [|c s IH]; [done|]. simpl.
  intros [Hc H]. destruct (Ascii.eqb_spec c "010"%char); [done|].
  by rewrite IH.
Qed.

Lemma replace_non_word_chars (s : string) :
  forallb (fun c => is_word c || is_space c)
          (list_ascii_of_string (replace_non_word s)) = true.
Proof.
  induction s as [|c s IH]; [done|]. simpl. rewrite IH, andb_true_r.
  by destruct (is_word c || is_space c) eqn:Hc.
Qed.

Lemma replace_spaces_go_words (in_run : bool) (s : string) :
  forallb (fun c => is_word c || is_space c) (list_ascii_of_string s) = true ->
  words_and_spaces (replace_spaces_go in_run s) = true.
Proof.
  unfold words_and_spaces. revert in_run.
  induction s as [|c s IH]; intros in_run; [done|]. simpl.
  intros [Hc H]%andb_true_iff.
  destruct (is_space c) eqn:Hs; [destruct in_run|]; simpl.
  - by apply IH.
  - by apply IH.
  - rewrite orb_false_r in Hc. rewrite Hc. simpl. by apply IH.
Qed.

Lemma length_substring (n m : nat) (s : string) :
  String.length (String.substring n m s) <= m.
Proof.
  revert n m. induction s as [|c s IH]; intros [|n] [|m]; simpl;
    try lia; [specialize (IH 0 m)|specialize (IH n 0)|specialize (IH n (S m))];
    lia.
Qed.

End WhiteSpace.

(** ** The clean-up of extracted text *)

Lemma replace_spaces_lacks_line_feed (content : string) :
  lacks "010"%char (Text.replace_spaces content).
Proof.
  apply single_spaced_lacks; [done|done|]. apply replace_spaces_single_spaced.
Qed.

Lemma clean_whitespace_unfold (content : string) :
  Cleanup.clean_whitespace content = Text.trim (Text.replace_spaces content).
Proof.
  unfold Cleanup.clean_whitespace.
  by rewrite replace_blank_lines_lacks
    by apply replace_spaces_lacks_line_feed.
Qed.

(** X20.  The text that [extractContent] returns has no line feed and no
    other white space than single space characters between its words, so
    that the second of its three steps, which joins blank lines, never
    changes anything. *)
Theorem clean_whitespace_spec (content : string) :
  Cleanup.clean_whitespace content = Text.trim (Text.replace_spaces content)
  /\ single_spaced (Cleanup.clean_whitespace content) = true
  /\ no_outer_space (Cleanup.clean_whitespace content) = true
  /\ lacks "010"%char (Cleanup.clean_whitespace content).
Proof.
  rewrite clean_whitespace_unfold. split; [done|]. split; [|split].
  - apply single_spaced_trim, replace_spaces_single_spaced.
  - apply trim_no_outer_space.
  - apply lacks_trim, replace_spaces_lacks_line_feed.
Qed.

(** ** The content analyzer *)

Section Analyzer.

Import ContentAnalyzer.

Lemma scan_lines_spec (lines keyTopics : list string) :
  Forall (fun line => Text.trim line <> "") lines ->
  Forall topic_sized keyTopics ->
  exists topics,
    scan_lines lines keyTopics = inr topics /\ Forall topic_sized topics.
Proof.
  revert keyTopics.
  induction lines as [|line lines IH]; intros keyTopics Hl Hk; [by eexists|].
  apply Forall_cons in Hl as [Hline Hl]. simpl.
  destruct ((10 <? String.length line) && (String.length line <? 150))
    eqn:Hsize; [|by apply IH].
  apply andb_true_iff in Hsize as [_ Hsize%Nat.ltb_lt].
  unfold looks_like_topic.
  destruct (Text.trim line) as [|c t] eqn:Ht; [done|].
  match goal with |- context [if ?b then _ else _] => destruct b end;
    [|by apply IH].
  apply IH; [done|]. case_bool_decide; [done|].
  apply Forall_app. split; [done|]. constructor; [|done].
  unfold topic_sized. pose proof (length_trim line) as Hlen.
  rewrite Ht in Hlen. simpl in *. lia.
Qed.

Lemma set_of_spec (a seen : list string) :
  NoDup seen ->
  NoDup (foldl (fun seen x => if bool_decide (x ∈ seen) then seen
                              else seen ++ [x]) seen a)
  /\ forall x,
       x ∈ foldl (fun seen x => if bool_decide (x ∈ seen) then seen
                                else seen ++ [x]) seen a ->
       x ∈ seen \/ x ∈ a.
Proof.
  revert seen. induction a as [|y a IH]; intros seen Hseen; simpl; [auto|].
  case_bool_decide as Hy.
  - destruct (IH seen Hseen) as [Hnd Hin]. split; [done|].
    intros x Hx. destruct (Hin x Hx); [by left|right; by right].
  - destruct (IH (seen ++ [y])) as [Hnd Hin].
    { apply NoDup_app. split; [done|]. split; [|apply NoDup_singleton].
      by intros x Hx ->%list_elem_of_singleton. }
    split; [done|]. intros x Hx.
    destruct (Hin x Hx) as [Hx'|Hx']; [|right; by right].
    apply elem_of_app in Hx' as [?|Hx']; [by left|].
    apply list_elem_of_singleton in Hx' as ->. right. by left.
Qed.

Lemma filter_sized (lo hi : nat) (a : list string) :
  Forall (fun s => lo < String.length s < hi)
         (List.filter (fun s => (lo <? String.length s)
                                && (String.length s <? hi)) a).
Proof.
  apply Forall_forall. intros s Hs%list_elem_of_In.
  apply filter_In in Hs as [_ [H1%Nat.ltb_lt H2%Nat.ltb_lt]%andb_true_iff].
  done.
Qed.

Lemma nonblank_lines (a : list string) :
  Forall (fun line => Text.trim line <> "")
         (List.filter (fun line => 0 <? String.length (Text.trim line)) a).
Proof.
  apply Forall_forall. intros s Hs%list_elem_of_In.
  apply filter_In in Hs as [_ H%Nat.ltb_lt]. intros Heq. rewrite Heq in H.
  simpl in H. lia.
Qed.

(** X21.  The analysis of a text never fails, for the lines whose first
    character it reads are not blank; it gives at most 15 key topics, no
    two of them equal and each of 1 to 149 code units, at most 20 concepts,
    each of 11 to 199 code units, and a summary of at most 500 code units
    whose only white space is single spaces between its words. *)
Theorem analyzeContent_bounds (content : string)
    (structuredContent : option Legacy.Structured) :
  exists analysis,
    analyzeContent content structuredContent = inr analysis
    /\ length (keyTopics analysis) <= 15
    /\ NoDup (keyTopics analysis)
    /\ Forall topic_sized (keyTopics analysis)
    /\ length (concepts analysis) <= 20
    /\ Forall (fun concept => 10 < String.length concept < 200)
              (concepts analysis)
    /\ String.length (summary analysis) <= 500
    /\ single_spaced (summary analysis) = true
    /\ no_outer_space (summary analysis) = true.
Proof.
  unfold analyzeContent.
  set (headings := match structuredContent with
                   | Some sc => List.filter _ (Legacy.st_headings sc)
                   | None => []
                   end).
  set (items := match structuredContent with
                | Some sc => List.filter _ (Legacy.st_lists sc)
                | None => []
                end).
  assert (Forall topic_sized headings) as Hh.
  { subst headings. destruct structuredContent as [sc|]; [|constructor].
    eapply Forall_impl; [apply (filter_sized 5 100)|].
    intros s Hs. unfold topic_sized. simpl in Hs. lia. }
  assert (Forall (fun c => 10 < String.length c < 200) items) as Hi.
  { subst items. destruct structuredContent as [sc|]; [|constructor].
    apply (filter_sized 10 200). }
  destruct (scan_lines_spec _ headings
              (nonblank_lines (JS.split content QuestionGenerator.LF)) Hh)
    as (topics & -> & Ht).
  destruct (set_of_spec topics [] (NoDup_nil_2)) as [Hnd Hin].
  eexists. split; [done|]. simpl. repeat split.
  - rewrite length_take. lia.
  - eapply sublist_NoDup; [exact Hnd|]. apply sublist_take.
  - apply Forall_take, Forall_forall. intros x Hx.
    destruct (Hin x Hx) as [Hx'|Hx']; [by apply elem_of_nil in Hx'|].
    by eapply Forall_forall in Ht.
  - rewrite length_take. lia.
  - by apply Forall_take.
  - etrans; [apply length_trim|].
    etrans; [apply length_replace_spaces_go|]. apply length_substring.
  - apply single_spaced_trim, replace_spaces_single_spaced.
  - apply trim_no_outer_space.
Qed.

(** X22.  Every search query is a text of more than 5 code units that
    consists of word characters and single spaces between them, and there
    are no more queries than key topics. *)
Theorem extractSearchQueries_shape (analysis : ContentAnalysis) :
  Forall (fun query =>
            5 < String.length query
            /\ words_and_spaces query = true
            /\ single_spaced query = true
            /\ no_outer_space query = true)
         (extractSearchQueries analysis)
  /\ length (extractSearchQueries analysis) <= length (keyTopics analysis).
Proof.
  unfold extractSearchQueries. split.
  - apply Forall_forall. intros query Hq%list_elem_of_In.
    apply filter_In in Hq as [Hq Hlen%Nat.ltb_lt].
    apply in_map_iff in Hq as (topic & <- & _).
    split; [done|]. split; [|split].
    + apply words_and_spaces_trim, replace_spaces_go_words,
        replace_non_word_chars.
    + apply single_spaced_trim, replace_spaces_single_spaced.
    + apply trim_no_outer_space.
  - etrans; [apply filter_length_le|]. by rewrite length_map.
Qed.

Lemma split_go_lacks_sep (c : ascii) (p acc t : string) :
  lacks c t -> JS.split_go (String c p) 0 acc t = [acc +:+ t].
Proof.
  revert acc. induction t as [|d t IH]; intros acc Ht.
  - simpl. by rewrite append_empty_r.
  - destruct Ht as [Hd Ht]. rewrite split_go_other by done.
    rewrite IH by done. by rewrite append_assoc.
Qed.

(** X23.  A text as [extractContent] cleans it is one line to the
    analyzer; when it has 150 code units or more, it adds nothing to the key
    topics, which are then those that the headings alone give. *)
Theorem analyzeContent_of_clean_text (raw : string)
    (structuredContent : option Legacy.Structured) :
  let content := Cleanup.clean_whitespace raw in
  150 <= String.length content ->
  JS.split content QuestionGenerator.LF = [content]
  /\ exists analysis headings_only,
       analyzeContent content structuredContent = inr analysis
       /\ analyzeContent "" structuredContent = inr headings_only
       /\ keyTopics analysis = keyTopics headings_only
       /\ concepts analysis = concepts headings_only.
Proof.
  intros content Hlong.
  assert (lacks "010"%char content) as Hlacks.
  { unfold content. rewrite clean_whitespace_unfold.
    apply lacks_trim, replace_spaces_lacks_line_feed. }
  assert (JS.split content QuestionGenerator.LF = [content]) as Hsplit
    by (apply (split_go_lacks_sep "010"%char "" "" content Hlacks)).
  split; [done|].
  assert (forall topics,
            scan_lines
              (List.filter (fun line => 0 <? String.length (Text.trim line))
                           [content]) topics = inr topics) as Hscan.
  { intros topics. cbn [List.filter].
    destruct (0 <? String.length (Text.trim content)); cbn [scan_lines];
      [|done].
    assert ((String.length content <? 150) = false) as ->
      by (apply Nat.ltb_ge; lia).
    by rewrite andb_false_r. }
  assert (forall topics,
            scan_lines
              (List.filter (fun line => 0 <? String.length (Text.trim line))
                           (JS.split "" QuestionGenerator.LF)) topics
            = inr topics) as Hscan0 by done.
  unfold analyzeContent. rewrite Hsplit, Hscan, Hscan0.
  by eexists _, _.
Qed.

End Analyzer.

Lemma analyzeContent_of_clean_text_witness :
  exists analysis,
    ContentAnalyzer.analyzeContent
      (Cleanup.clean_whitespace Fixture.page_text) None = inr analysis
    /\ ContentAnalyzer.keyTopics analysis = [].
Proof.
  assert (150 <= String.length (Cleanup.clean_whitespace Fixture.page_text))
    as Hlong by (apply Nat.leb_le; vm_compute; reflexivity).
  destruct (analyzeContent_of_clean_text Fixture.page_text None Hlong)
    as (_ & analysis & headings_only & Ha & H0 & Hk & _).
  exists analysis. split; [exact Ha|].
  rewrite Hk. vm_compute in H0. injection H0 as <-. reflexivity.
Defined.

(** ** The clock of the test-taking page *)

Lemma two_digits (r : nat) :
  r < 60 ->
  Text.padStart (pretty (N.of_nat r)) 2 "0"
  = pretty (N.of_nat r / 10)%N +:+ pretty (N.of_nat r mod 10)%N.
Proof.
  intros Hr. do 60 (destruct r as [|r]; [by vm_compute|]). lia.
Qed.

Lemma minutes_match_1_hour (seconds : nat) :
  seconds < 3600 ->
  JS.to_index (JS.Math_floor (JS.of_nat seconds / 60)%float)
  = Some (seconds / 60).
Proof.
  intros H.
  assert (forallb minutes_match (seq 0 3600) = true) as Hall
    by (vm_compute; reflexivity).
  rewrite forallb_forall in Hall.
  assert (minutes_match seconds = true) as Hm by (apply Hall, in_seq; lia).
  by apply bool_decide_eq_true in Hm.
Qed.

(** X24.  The clock shows the whole minutes, a colon and the remaining
    seconds in exactly two digits, so that the time elapsed can be read back
    from it. *)
Theorem formatTime_spec (seconds : N) :
  exists tens units : N,
    (tens < 6)%N /\ (units < 10)%N
    /\ TestTaking.formatTime seconds
       = pretty (seconds / 60)%N +:+ ":" +:+ pretty tens +:+ pretty units
    /\ (seconds = 60 * (seconds / 60) + 10 * tens + units)%N.
Proof.
  exists ((seconds mod 60) / 10)%N, ((seconds mod 60) mod 10)%N.
  assert (seconds mod 60 < 60)%N as Hr by (by apply N.mod_lt).
  split; [apply N.Div0.div_lt_upper_bound; lia|].
  split; [by apply N.mod_lt|]. split.
  - unfold TestTaking.formatTime. cbv zeta. do 2 f_equal.
    rewrite <- (N2Nat.id (seconds mod 60)). apply two_digits. lia.
  - pose proof (N.div_mod seconds 60).
    pose proof (N.div_mod (seconds mod 60) 10). lia.
Qed.

(** ** The files of the frontend *)

(** X25.  The page and the source files of the frontend are served from
    the working directory: the page as HTML, or status 404 in HTML when it is
    missing; a source file with the content type of its extension, or the
    JSON 404 of the router when it is missing. *)
Theorem frontend_files_are_served (env : Env) (req : Server.Request)
    (w : World) :
  Server.req_method req <> "OPTIONS" ->
  let path := Server.req_pathname req in
  (path = "/" \/ path = "/index.html" ->
   Server.fetch env req w
   = (inr match w_files w !! "./index.html" with
          | Some html =>
              Server.mkResponse 200 [("Content-Type", "text/html")]
                (Server.TextBody html)
          | None =>
              Server.mkResponse 404 [("Content-Type", "text/html")]
                (Server.TextBody
                   "Frontend not found. Please ensure index.html exists.")
          end, w))
  /\ (JS.startsWith path "/src/" = true ->
      Server.fetch env req w
      = (inr match w_files w !! ("." +:+ path) with
             | Some file =>
                 Server.mkResponse 200
                   [("Content-Type", Server.getContentType path)]
                   (Server.TextBody file)
             | None => Server.sendError "Not found" 404
             end, w)).
Proof.
  intros Hm%String.eqb_neq path. subst path. unfold Server.fetch.
  rewrite Hm. split.
  - intros Hpath.
    assert ((Server.req_pathname req =? "/api/search")%string = false
            /\ (Server.req_pathname req =? "/api/generate-test")%string = false
            /\ JS.startsWith (Server.req_pathname req) "/api/test/" = false
            /\ (Server.req_pathname req =? "/")%string
               || (Server.req_pathname req =? "/index.html")%string = true)
      as (-> & -> & -> & ->) by (by destruct Hpath as [-> | ->]).
    cbn [andb].
    unfold Server.handle_index, try_catch, bind, readFile, ret.
    by destruct (w_files w !! "./index.html").
  - intros [rest ->]%prefix_append.
    assert (("/src/" +:+ rest =? "/api/search")%string = false) as ->
      by reflexivity.
    assert (("/src/" +:+ rest =? "/api/generate-test")%string = false) as ->
      by reflexivity.
    assert (JS.startsWith ("/src/" +:+ rest) "/api/test/" = false) as ->
      by reflexivity.
    assert (("/src/" +:+ rest =? "/")%string = false) as -> by reflexivity.
    assert (("/src/" +:+ rest =? "/index.html")%string = false) as ->
      by reflexivity.
    assert (JS.startsWith ("/src/" +:+ rest) "/src/" = true) as ->
      by (unfold JS.startsWith; simpl; apply prefix_empty).
    cbn [andb orb].
    unfold try_catch, bind, existsSync, readFile, ret.
    destruct (w_files w !! ("." +:+ "/src/" +:+ rest)) as [file|] eqn:Hfile.
    + rewrite bool_decide_eq_true_2 by eauto. by rewrite Hfile.
    + rewrite bool_decide_eq_false_2; [done|]. by intros [? ?].
Qed.

Lemma frontend_files_are_served_witness :
  Server.fetch Sample.env (Sample.get "/src/frontend/App.tsx") Sample.w1
  = (inr (Server.sendError "Not found" 404), Sample.w1).
Proof.
  assert (Server.req_method (Sample.get "/src/frontend/App.tsx") <> "OPTIONS")
    as Hm by discriminate.
  exact (proj2 (frontend_files_are_served Sample.env
                  (Sample.get "/src/frontend/App.tsx") Sample.w1 Hm)
           eq_refl).
Defined.

(** ** The search page *)

Section SearchPage.

Import SearchCertification.

Lemma split_pieces_lack (acc s : string) :
  lacks JS.slash acc -> Forall (lacks JS.slash) (JS.split_go "/" 0 acc s).
Proof.
  revert acc. induction s as [|c s IH]; intros acc Hacc; [by constructor|].
  destruct (decide (c = JS.slash)) as [->|Hc].
  - change (JS.split_go "/" 0 acc (String JS.slash s))
      with (if String.prefix "" s then acc :: JS.split_go "/" 0 "" s
            else JS.split_go "/" 0 (acc +:+ "/") s).
    rewrite prefix_empty. constructor; [done|]. by apply IH.
  - rewrite (split_go_other JS.slash c "" acc s Hc
             : JS.split_go "/" 0 acc (String c s) = _).
    apply IH. apply lacks_append; [done|]. by split.
Qed.

Lemma split_last_piece (before after_ acc : string) :
  lacks JS.slash after_ ->
  last (JS.split_go "/" 0 acc (before +:+ "/" +:+ after_)) = Some after_.
Proof.
  intros Hafter. revert acc.
  induction before as [|c before IH]; intros acc.
  - change (JS.split_go "/" 0 acc ("" +:+ "/" +:+ after_))
      with (if String.prefix "" after_
            then acc :: JS.split_go "/" 0 "" after_
            else JS.split_go "/" 0 (acc +:+ "/") after_).
    rewrite prefix_empty.
    by rewrite (split_go_last "" "" after_ Hafter
                : JS.split_go "/" 0 "" after_ = _).
  - destruct (decide (c = JS.slash)) as [->|Hc].
    + change (JS.split_go "/" 0 acc
                (String JS.slash before +:+ "/" +:+ after_))
        with (if String.prefix "" (before +:+ "/" +:+ after_)
              then acc :: JS.split_go "/" 0 ""
                            (before +:+ "/" +:+ after_)
              else JS.split_go "/" 0 (acc +:+ "/")
                     (before +:+ "/" +:+ after_)).
      rewrite prefix_empty.
      specialize (IH "").
      by destruct (JS.split_go "/" 0 "" (before +:+ "/" +:+ after_)).
    + rewrite (split_go_other JS.slash c "" acc _ Hc
               : JS.split_go "/" 0 acc
                   (String c before +:+ "/" +:+ after_) = _).
      apply IH.
Qed.

(** A text that [trimEnd] empties consists of white space. *)
Lemma trimEnd_empty (s : string) :
  Text.trimEnd s = "" ->
  forall at_ n c t, String.substring at_ (S n) s = String c t ->
                    Text.is_space c = true.
Proof.
  induction s as [|a s IH]; intros Hempty at_ n c t Hsub.
  - by destruct at_.
  - cbn [Text.trimEnd] in Hempty.
    destruct (Text.trimEnd s) as [|b r] eqn:Hs; [|done].
    destruct (Text.is_space a) eqn:Ha; [|done].
    destruct at_ as [|at_].
    + simpl in Hsub. by injection Hsub as <- _.
    + simpl in Hsub. by eapply IH.
Qed.

(** So does a text that [trim] empties. *)
Lemma trim_empty (s : string) :
  Text.trim s = "" ->
  forall at_ n c t, String.substring at_ (S n) s = String c t ->
                    Text.is_space c = true.
Proof.
  unfold Text.trim. induction s as [|a s IH]; intros Hempty at_ n c t Hsub.
  - by destruct at_.
  - cbn [Text.trimStart] in Hempty.
    destruct (Text.is_space a) eqn:Ha.
    + destruct at_ as [|at_].
      * simpl in Hsub. by injection Hsub as <- _.
      * simpl in Hsub. by eapply IH.
    + by eapply (trimEnd_empty (String a s)).
Qed.

(** [url.includes(part)] holds exactly when [part] stands at some place of
    [url]. *)
Lemma includes_spec (url part : string) :
  part <> "" ->
  includes url part = true
  <-> exists at_, String.substring at_ (String.length part) url = part.
Proof.
  intros Hpart. unfold includes.
  destruct (String.index 0 part url) as [at_|] eqn:Hindex.
  - split; [|done]. intros _. exists at_. by eapply index_correct1.
  - split; [done|]. intros [at_ Hat]. exfalso.
    apply (index_correct3 0 at_ _ _ Hindex Hpart); [lia | done].
Qed.

(** X26.  A text entered as URL is accepted exactly when it contains
    "learn.microsoft.com" at some place, whatever stands around it, and it
    is then passed on unchanged; the name passed on with it is what follows
    its last slash, or "Certification" when nothing does, so it is never
    empty and holds no slash. *)
Theorem handleSearch_selection (url : string) :
  ((exists at_, String.substring at_ 19 url = "learn.microsoft.com")
   <-> exists name, handleSearch url = onSelectCertification url name)
  /\ forall selected name,
       handleSearch url = onSelectCertification selected name ->
       selected = url
       /\ name <> ""
       /\ lacks JS.slash name
       /\ (forall before after_,
             url = before +:+ "/" +:+ after_ -> lacks JS.slash after_ ->
             name = if String.eqb after_ "" then "Certification" else after_).
Proof.
  pose proof (includes_spec url "learn.microsoft.com") as Hinc.
  change (String.length "learn.microsoft.com") with 19 in Hinc.
  split; [split|].
  - intros [at_ Hat]. unfold handleSearch.
    destruct (String.eqb_spec (Text.trim url) "") as [Hblank|_].
    + by pose proof (trim_empty url Hblank at_ 18 _ _ Hat).
    + assert (includes url "learn.microsoft.com" = true) as ->
        by (apply Hinc; [done | by exists at_]).
      cbn [negb]. by eexists.
  - intros [name Hname]. unfold handleSearch in Hname.
    destruct (String.eqb (Text.trim url) ""); [done|].
    destruct (includes url "learn.microsoft.com") eqn:Hinc'; [|done].
    by apply Hinc.
  - intros selected name. unfold handleSearch.
    destruct (String.eqb (Text.trim url) ""); [done|].
    destruct (includes url "learn.microsoft.com"); [|done].
    cbn [negb]. intros [= <- <-].
    pose proof (split_pieces_lack "" url I) as Hpieces.
    fold (JS.split url "/") in Hpieces.
    split; [done|]. split; [|split].
    + destruct (last (JS.split url "/")) as [[|c part]|]; done.
    + destruct (last (JS.split url "/")) as [[|c part]|] eqn:Hlast;
        try (vm_compute; intuition congruence).
      apply last_Some in Hlast as [front Hlast]. rewrite Hlast in Hpieces.
      apply Forall_app in Hpieces as [_ Hpieces]. by inversion Hpieces.
    + intros before after_ -> Hafter.
      unfold JS.split. rewrite split_last_piece by done. by destruct after_.
Qed.

End SearchPage.

Lemma handleSearch_selection_witness :
  (exists name,
     SearchCertification.handleSearch
       "https://learn.microsoft.com/credentials/certifications/az-900/"
     = SearchCertification.onSelectCertification
         "https://learn.microsoft.com/credentials/certifications/az-900/"
         name)
  /\ lacks JS.slash "Certification".
Proof.
  assert (SearchCertification.handleSearch
            "https://learn.microsoft.com/credentials/certifications/az-900/"
          = SearchCertification.onSelectCertification
              "https://learn.microsoft.com/credentials/certifications/az-900/"
              "Certification") as H by (vm_compute; reflexivity).
  assert (exists at_,
            String.substring at_ 19
              "https://learn.microsoft.com/credentials/certifications/az-900/"
            = "learn.microsoft.com") as Hat by (by exists 8).
  split.
  - exact (proj1 (proj1 (handleSearch_selection _)) Hat).
  - exact (proj1 (proj2 (proj2 (proj2 (handleSearch_selection _) _ _ H)))).
Defined.

(** The place does not matter: an address of another host is accepted when
    the text occurs in its query. *)
Example handleSearch_accepts_other_hosts :
  SearchCertification.handleSearch
    "https://example.org/guide?from=learn.microsoft.com"
  = SearchCertification.onSelectCertification
      "https://example.org/guide?from=learn.microsoft.com"
      "guide?from=learn.microsoft.com".
Proof. vm_compute. reflexivity. Qed.


(** ** Answers of the wrong size, and tests of the wrong size *)

(** X27.  There is no partial credit: answers that are fewer or more than
    those of the key are marked wrong, and so is a question left out of the
    submission whose key is not empty (the strings being non-empty and
    without a comma). *)
Theorem no_partial_credit (answers : Answers) (question : Question string) :
  Forall plain (Scorer.userAnswersOf answers question) ->
  Forall plain (q_correctAnswers question) ->
  length (Scorer.userAnswersOf answers question)
  <> length (q_correctAnswers question) ->
  Scorer.d_correct (detail_of answers question) = false
  /\ (answers !! q_id question = None ->
      Scorer.userAnswersOf answers question = []).
Proof.
  intros Hu Hc Hlen. split.
  - simpl. apply not_true_is_false. intros H.
    apply isCorrect_iff_perm in H; [|done|done].
    by apply Permutation_length in H.
  - intros Hnone. unfold Scorer.userAnswersOf. by rewrite Hnone.
Qed.

Lemma no_partial_credit_witness :
  Scorer.d_correct
    (detail_of {[ "ms-1700000000001-0" := ["A"] ]} Sample.q2) = false.
Proof.
  refine (proj1 (no_partial_credit {[ "ms-1700000000001-0" := ["A"] ]}
                   Sample.q2 _ _ _)).
  - vm_compute. repeat constructor; intuition congruence.
  - vm_compute. repeat constructor; intuition congruence.
  - vm_compute. lia.
Defined.

(** X28.  The number of questions of a generated test is the number of
    entries that the run has read in the two replies of the completion
    service, whatever number was asked for; [questionCount] records that
    number. *)
Theorem generateTest_counts_what_came (env : Env)
    (studyGuideUrl certificationName : string) (questionCount : float)
    (w w' : World) (test : PracticeTest Entry) :
  APIRoutes.generateTest env studyGuideUrl certificationName questionCount w
  = (inr test, w') ->
  exists studyGuideContent w1,
    ContentExtractor.fetchContent env studyGuideUrl w
    = (inr studyGuideContent, w1)
    /\ t_questionCount test
       = length (choices_read env studyGuideContent [] questionCount w1)
         + length (selects_read env studyGuideContent [] questionCount w1)
    /\ length (t_questions test) = t_questionCount test.
Proof.
  rewrite generateTest_unfold.
  destruct (ContentExtractor.fetchContent env studyGuideUrl w)
    as [[e|studyGuideContent] w1]; [done|].
  destruct (QuestionGenerator.generateQuestions env studyGuideContent []
              questionCount w1) as [[e|questions] w2] eqn:Hq; [done|].
  apply generateQuestions_spec in Hq
    as (_ & _ & _ & choices & selects & t1 & t2 & Hperm & Hc & Hs).
  intros [= <- <-]. simpl. exists studyGuideContent, w1.
  split; [done|]. split; [|done].
  apply Permutation_length in Hperm.
  rewrite length_app, !length_imap in Hperm.
  by rewrite Hc, Hs, !length_fmap.
Qed.

(** Forty questions are asked for; each of the two replies holds one. *)
Lemma generateTest_counts_what_came_witness :
  exists test w',
    APIRoutes.generateTest Sample.env Fixture.url "AZ-900" 40 Sample.w0
    = (inr test, w')
    /\ t_questionCount test = 2
    /\ exists studyGuideContent w1,
         t_questionCount test
         = length (choices_read Sample.env studyGuideContent [] 40 w1)
           + length (selects_read Sample.env studyGuideContent [] 40 w1).
Proof.
  assert (exists test w',
            APIRoutes.generateTest Sample.env Fixture.url "AZ-900" 40 Sample.w0
            = (inr test, w') /\ t_questionCount test = 2)
    as (test & w' & Hrun & Hcount)
    by (vm_compute; eexists _, _; split; reflexivity).
  destruct (generateTest_counts_what_came Sample.env Fixture.url "AZ-900" 40
              Sample.w0 w' test Hrun) as (content & w1 & _ & Hsum & _).
  exists test, w'.
  exact (conj Hrun (conj Hcount
           (ex_intro _ content (ex_intro _ w1 Hsum)))).
Defined.

(** ** What a submission discloses *)

(** X29.  The response to a submission for a stored test shows, in
    [score.details], the id and the answer key of every question of the
    test, in order and whatever was submitted: the key that the route for
    taking a test withholds is handed out to whoever submits, be it an empty
    set of answers. *)
Theorem submit_discloses_the_key (env : Env) (t : string)
    (body : Server.RequestBody) (answers : Answers)
    (test : PracticeTest string) (w : World) :
  t <> "" -> lacks JS.slash t ->
  Server.b_answers body = Some answers ->
  APIRoutes.getTest env t w = (inr (Some test), w) ->
  exists response w' details,
    Server.fetch env (submit_request t (inr body)) w = (inr response, w')
    /\ response_details response = Some details
    /\ map disclosed details
       = map (fun question =>
                (Some (Server.JString (q_id question)),
                 Some (Server.json_strings (q_correctAnswers question))))
             (t_questions test).
Proof.
  intros Hne Ht Ha Hget.
  rewrite fetch_submit. unfold Server.handle_submit.
  rewrite handle_submit_id by done.
  unfold bind, lift, submit_request. cbn [Server.req_json].
  rewrite Hget, Ha.
  unfold Server.score_request, now, TestStorage.saveSession,
    TestStorage.ensureDirectoryExists, writeFile, bind, ret.
  cbv beta iota. eexists _, _, _. split; [reflexivity|].
  split; [reflexivity|].
  unfold APIRoutes.calculateScore.
  destruct (calculateScore_details test answers) as [-> _].
  rewrite !map_map. by apply map_ext.
Qed.

Lemma submit_discloses_the_key_witness :
  exists response w',
    Server.fetch Sample.env
      (submit_request "test-1"
         (inr (Server.mkRequestBody None None None (Some ∅)))) Sample.w1
    = (inr response, w')
    /\ option_map (map disclosed) (response_details response)
       = Some [(Some (Server.JString "mc-1700000000000-0"),
                Some (Server.json_strings ["Blob Storage"]));
               (Some (Server.JString "ms-1700000000001-0"),
                Some (Server.json_strings ["A"; "B"]))].
Proof.
  assert (Ht : lacks JS.slash "test-1") by (vm_compute; intuition congruence).
  assert (Hne : "test-1" <> "") by discriminate.
  assert (Hget : APIRoutes.getTest Sample.env "test-1" Sample.w1
                 = (inr (Some Sample.test1), Sample.w1))
    by (vm_compute; reflexivity).
  destruct (submit_discloses_the_key Sample.env "test-1"
              (Server.mkRequestBody None None None (Some ∅)) ∅ Sample.test1
              Sample.w1 Hne Ht eq_refl Hget)
    as (response & w' & details & Hrun & Hdetails & Hkey).
  exists response, w'. split; [exact Hrun|].
  rewrite Hdetails. simpl. rewrite Hkey. reflexivity.
Defined.

(** ** What reaches the prompt *)

Section Prompt.

Import QuestionGenerator.

Lemma substring_append_left (n : nat) (a b : string) :
  String.length a <= n ->
  String.substring 0 n (a +:+ b)
  = a +:+ String.substring 0 (n - String.length a) b.
Proof.
  revert n. induction a as [|c a IH]; intros n Hn.
  - simpl. by rewrite Nat.sub_0_r.
  - destruct n as [|n]; [simpl in Hn; lia|].
    cbn [String.length Nat.sub]. simpl in Hn.
    change (String.substring 0 (S n) (String c a +:+ b))
      with (String c (String.substring 0 n (a +:+ b))).
    rewrite IH by lia. done.
Qed.

Lemma substring_append_long (n : nat) (a b : string) :
  n <= String.length a ->
  String.substring 0 n (a +:+ b) = String.substring 0 n a.
Proof.
  revert n. induction a as [|c a IH]; intros n Hn.
  - simpl in Hn. assert (n = 0) as -> by lia. by destruct b.
  - destruct n as [|n]; [done|]. simpl in Hn.
    change (String.substring 0 (S n) (String c a +:+ b))
      with (String c (String.substring 0 n (a +:+ b))).
    rewrite IH by lia. done.
Qed.

Lemma prompt_of_long_guide (studyGuideContent : string)
    (webContent : list WebContent) :
  15000 - 22 <= String.length studyGuideContent ->
  String.substring 0 15000 (combinedContentOf studyGuideContent webContent)
  = LF +:+ "STUDY GUIDE CONTENT:" +:+ LF
    +:+ String.substring 0 (15000 - 22) studyGuideContent.
Proof.
  intros Hlong.
  assert (22 <= 15000) as H22 by (apply Nat.leb_le; by vm_compute).
  unfold combinedContentOf. cbv zeta.
  set (header := LF +:+ "STUDY GUIDE CONTENT:" +:+ LF).
  set (rest := LF +:+ LF +:+ "ADDITIONAL WEB CONTENT:" +:+ LF +:+ _ +:+ LF).
  change (LF +:+ "STUDY GUIDE CONTENT:" +:+ LF +:+ studyGuideContent +:+ rest)
    with (header +:+ studyGuideContent +:+ rest).
  change (LF +:+ "STUDY GUIDE CONTENT:" +:+ LF
          +:+ String.substring 0 (15000 - 22) studyGuideContent)
    with (header +:+ String.substring 0 (15000 - 22) studyGuideContent).
  rewrite substring_append_left by (change (String.length header) with 22; lia).
  change (String.length header) with 22.
  by rewrite substring_append_long.
Qed.

(** X30.  Both prompts take the first 15000 code units of the combined
    content, which begins with the study guide under a heading of 22 code
    units: with a study guide of 14978 code units or more nothing of the web
    content reaches a prompt, and the questions are generated as if there
    were none. *)
Theorem long_guide_hides_web_content (env : Env) (studyGuideContent : string)
    (webContent : list WebContent) (questionCount : float) (w : World) :
  15000 - 22 <= String.length studyGuideContent ->
  String.substring 0 15000 (combinedContentOf studyGuideContent webContent)
  = LF +:+ "STUDY GUIDE CONTENT:" +:+ LF
    +:+ String.substring 0 (15000 - 22) studyGuideContent
  /\ generateQuestions env studyGuideContent webContent questionCount w
     = generateQuestions env studyGuideContent [] questionCount w.
Proof.
  intros Hlong. split; [by apply prompt_of_long_guide|].
  unfold generateQuestions, generateMultipleChoiceQuestions,
    generateMultipleSelectQuestions. cbv zeta.
  by rewrite (prompt_of_long_guide studyGuideContent webContent),
    (prompt_of_long_guide studyGuideContent []).
Qed.

End Prompt.

Lemma long_guide_hides_web_content_witness :
  QuestionGenerator.generateQuestions Sample.env Fixture.long_guide
    [QuestionGenerator.mkWebContent "Storage accounts"
       "About storage accounts" None] 2 Sample.w0
  = QuestionGenerator.generateQuestions Sample.env Fixture.long_guide [] 2
      Sample.w0.
Proof.
  assert (15000 - 22 <= String.length Fixture.long_guide) as Hlong
    by (apply Nat.leb_le; by vm_compute).
  exact (proj2 (long_guide_hides_web_content Sample.env Fixture.long_guide _ 2
                  Sample.w0 Hlong)).
Defined.
